(** * EBRD job scraper: extraction, deduplication and RSS feed construction

    A shallow embedding of [ebrd_scraper.py].  Python strings are modelled as
    [string]; every character is read as one code point below 256.  The
    BeautifulSoup tree, the ElementTree element and the job dictionaries are
    inductive types and records; dictionaries and the [set] of seen links are
    stdpp's [gmap] and [gset].  Console output, the file system and the UTC
    clock are threaded through an explicit world by a state-and-exception
    monad.  The browser, the HTML parser, the clock and the XML serialiser
    are collaborators outside the source file and enter as parameters; for
    the text of the feed, the serialiser, the parser and the pretty-printer
    of the standard library are modelled in [XML].
    Writing a file always succeeds, and the passing of time shows only in
    the readings of the clock. *)

From Stdlib Require Import Ascii String List Arith Lia.
From stdpp Require Import base option list strings gmap.

Open Scope string_scope.
Set Warnings "-register-all".

(** ** Python string helpers *)

Module PyStr.

(** [s.startswith(p)] *)
Definition startswith (s p : string) : bool := String.prefix p s.

(** [c.isspace()] for a code point below 256. *)
Definition isspace (c : ascii) : bool :=
  let n := nat_of_ascii c in
  (((9 <=? n) && (n <=? 13)) || ((28 <=? n) && (n <=? 32))
   || (n =? 133) || (n =? 160))%nat.

(** [s.lstrip()], [s.rstrip()] and [s.strip()] with no argument. *)
Fixpoint lstrip (s : string) : string :=
  match s with
  | String c r => if isspace c then lstrip r else s
  | EmptyString => EmptyString
  end.

Fixpoint rstrip (s : string) : string :=
  match s with
  | String c r =>
      match rstrip r with
      | EmptyString => if isspace c then EmptyString else String c EmptyString
      | r' => String c r'
      end
  | EmptyString => EmptyString
  end.

Definition strip (s : string) : string := rstrip (lstrip s).

(** [sep.join(l)] *)
Fixpoint join (sep : string) (l : list string) : string :=
  match l with
  | [] => ""
  | [x] => x
  | x :: r => x ++ sep ++ join sep r
  end.

(** The truth value of a string: [bool(s)], false exactly for [""]. *)
Definition truthy (s : string) : bool :=
  match s with EmptyString => false | String _ _ => true end.

(** The line feed ["\n"]. *)
Definition LF : string := String "010"%char EmptyString.

(** One decimal digit, and a number zero-padded to two and to four digits,
    as [%d], [%H], [%M], [%S] and [%Y] print them. *)
Definition digit (n : nat) : ascii := ascii_of_nat (48 + n mod 10).
Definition pad2 (n : nat) : string :=
  String (digit (n / 10)) (String (digit n) EmptyString).
Definition pad4 (n : nat) : string :=
  String (digit (n / 1000)) (String (digit (n / 100)) (pad2 n)).

End PyStr.

(** ** Module constants *)

Definition BASE_URL : string := "https://jobs.ebrd.com".
Definition SEARCH_URL : string :=
  BASE_URL ++ "/search/?q=&sortColumn=referencedate&sortDirection=desc".

(** ** Making a job URL absolute (lines 105-109) *)

Definition make_absolute (job_url : string) : string :=
  if PyStr.startswith job_url "/" then BASE_URL ++ job_url
  else if negb (PyStr.startswith job_url "http") then BASE_URL ++ "/" ++ job_url
  else job_url.

(** ** [datetime] values and [strftime]

    The standard library's proleptic Gregorian calendar, as far as the format
    ['%a, %d %b %Y %H:%M:%S GMT'] needs it. *)

Module PyDatetime.

Record datetime := mk_datetime {
  year : nat; month : nat; day : nat;
  hour : nat; minute : nat; second : nat; microsecond : nat }.

Definition is_leap (y : nat) : bool :=
  ((y mod 4 =? 0) && (negb (y mod 100 =? 0) || (y mod 400 =? 0)))%nat.

(** Days in the years before year [y]. *)
Definition days_before_year (y : nat) : nat :=
  let p := y - 1 in p * 365 + p / 4 - p / 100 + p / 400.

Definition days_in_month (y m : nat) : nat :=
  match m with
  | 2 => if is_leap y then 29 else 28
  | 4 | 6 | 9 | 11 => 30
  | _ => 31
  end.

(** Days of year [y] before the first of month [m]. *)
Definition days_before_month (y m : nat) : nat :=
  list_sum (map (days_in_month y) (seq 1 (m - 1))).

Definition toordinal (d : datetime) : nat :=
  days_before_year (year d) + days_before_month (year d) (month d) + day d.

(** Monday is 0. *)
Definition weekday (d : datetime) : nat := (toordinal d + 6) mod 7.

Definition day_abbr (w : nat) : string :=
  nth w ["Mon"; "Tue"; "Wed"; "Thu"; "Fri"; "Sat"; "Sun"] "".

Definition month_abbr (m : nat) : string :=
  nth (m - 1) ["Jan"; "Feb"; "Mar"; "Apr"; "May"; "Jun";
               "Jul"; "Aug"; "Sep"; "Oct"; "Nov"; "Dec"] "".

(** [d.strftime('%a, %d %b %Y %H:%M:%S GMT')].  The year is written with
    four digits; for a year below 1000 some platforms write fewer, and the
    clock of the program never shows such a year. *)
Definition strftime_rfc822 (d : datetime) : string :=
  day_abbr (weekday d) ++ ", " ++ PyStr.pad2 (day d) ++ " "
  ++ month_abbr (month d) ++ " " ++ PyStr.pad4 (year d) ++ " "
  ++ PyStr.pad2 (hour d) ++ ":" ++ PyStr.pad2 (minute d) ++ ":"
  ++ PyStr.pad2 (second d) ++ " GMT".

End PyDatetime.

(** ** The BeautifulSoup tree

    A page element is a tag, a string of text, or a string that is not text
    (a comment, a declaration, the content of a script or style element).  An
    attribute value is a string, or a list of tokens for the multi-valued
    attributes such as [class]. *)

Module bs4.

Inductive attr_value :=
| AttrStr (s : string)
| AttrList (l : list string).

Inductive node :=
| Tag (name : string) (attrs : gmap string attr_value) (contents : list node)
| NavigableString (s : string)
| Comment (s : string).

(** [tag.descendants]: every element below the tag, in document order. *)
Fixpoint descendants (n : node) : list node :=
  match n with
  | Tag _ _ cs =>
      (fix go (l : list node) : list node :=
         match l with
         | [] => []
         | c :: r => c :: descendants c ++ go r
         end) cs
  | _ => []
  end.

(** [tag.get(key)] and [tag.get(key, default)] *)
Definition get (n : node) (key : string) : option attr_value :=
  match n with
  | Tag _ attrs _ => attrs !! key
  | _ => None
  end.

Definition get_default (n : node) (key : string) (d : attr_value) : attr_value :=
  default d (get n key).

(** How a search by name matches an element. *)
Definition name_matches (name : string) (n : node) : bool :=
  match n with
  | Tag nm _ _ => String.eqb nm name
  | _ => false
  end.

(** How a search value given as a string matches an attribute value: a list
    matches when one of its tokens does, or when its tokens joined by a space
    do; an absent attribute matches only the empty search value. *)
Definition value_matches (v : option attr_value) (against : string) : bool :=
  match v with
  | None => negb (PyStr.truthy against)
  | Some (AttrStr s) => String.eqb s against
  | Some (AttrList l) =>
      existsb (fun item => String.eqb item against) l
      || String.eqb (PyStr.join " " l) against
  end.

(** [tag.find_all(name)] and [tag.find(name)] *)
Definition find_all (n : node) (name : string) : list node :=
  filter (fun d => name_matches name d = true) (descendants n).

Definition find (n : node) (name : string) : option node :=
  head (find_all n name).

(** [tag.find_all(name, {'class': cls})] and [tag.find(name, {'class': cls})] *)
Definition find_all_class (n : node) (name cls : string) : list node :=
  filter (fun d => name_matches name d && value_matches (get d "class") cls = true)
         (descendants n).

Definition find_class (n : node) (name cls : string) : option node :=
  head (find_all_class n name cls).

(** [tag.get_text(strip=True)]: the text strings below the tag, each one
    stripped, the empty ones dropped, joined with nothing between them. *)
Definition stripped_strings (n : node) : list string :=
  omap (fun d => match d with
                 | NavigableString s =>
                     let t := PyStr.strip s in
                     if PyStr.truthy t then Some t else None
                 | _ => None
                 end) (descendants n).

Definition get_text_strip (n : node) : string :=
  PyStr.join "" (stripped_strings n).

End bs4.

(** ** Job records: the dictionaries built at lines 127-132 *)

Record job := mk_job {
  title : string;
  link : string;
  location : string;
  posting_date : string }.

(** ** ElementTree elements *)

Module ET.

Inductive Element :=
| mkElement (tag : string) (attrib : gmap string string)
            (text : option string) (children : list Element).

Definition tag (e : Element) : string := let 'mkElement t _ _ _ := e in t.
Definition attrib (e : Element) : gmap string string :=
  let 'mkElement _ a _ _ := e in a.
Definition text (e : Element) : option string := let 'mkElement _ _ x _ := e in x.
Definition children (e : Element) : list Element :=
  let 'mkElement _ _ _ c := e in c.

(** [ET.SubElement(parent, tag)] followed by the assignments the source makes
    to the new element: the element is appended as the last child.  No other
    reference to the child is kept, so the child is given in its final
    state. *)
Definition SubElement (parent child : Element) : Element :=
  let 'mkElement t a x c := parent in mkElement t a x (c ++ [child]).

(** An element with text and no attribute or child. *)
Definition leaf (t : string) (x : string) : Element := mkElement t ∅ (Some x) [].

(** [e.findall(t)], [e.find(t)] and [e.findtext(t)] for a tag name [t]: the
    direct children with that tag, the first of them, and its text. *)
Definition findall (e : Element) (t : string) : list Element :=
  filter (fun c => tag c = t) (children e).

Definition find (e : Element) (t : string) : option Element :=
  head (findall e t).

Definition findtext (e : Element) (t : string) : option string :=
  c ← find e t; Some (default "" (text c)).

(** [e.iter(t)]: the element itself and everything below it, in document
    order, as far as tagged [t]. *)
Fixpoint iter (e : Element) (t : string) : list Element :=
  let 'mkElement t' _ _ cs := e in
  ((if decide (t' = t) then [e] else [])
   ++ (fix go (l : list Element) : list Element :=
         match l with
         | [] => []
         | c :: r => iter c t ++ go r
         end) cs)%list.

End ET.

(** ** Effects: console, files, clock and exceptions *)

Inductive exn :=
| WebDriverException     (* the browser does not start, or navigation fails *)
| TimeoutException       (* the wait for the results marker runs out *)
| AttributeError         (* a method looked up on a value that lacks it *)
| ExpatError.            (* the serialised feed does not parse *)

(** What the program prints.  [Line] is a literal line; the other messages
    carry the values that the source formats into the line. *)
Inductive log_msg :=
| Line (s : string)
| WarnTimeout (e : exn)        (* Warning: Timeout waiting for job listings table: {e} *)
| FoundTables (n : nat)        (* Found {n} table(s) total *)
| TableClasses (cs : list (option bs4.attr_value))  (* Table classes found: [...] *)
| FoundRows (n : nat)          (* Found {n} job rows *)
| RowError (e : exn)           (* Error parsing job row: {e} *)
| UniqueJobs (n : nat)         (* \nUnique jobs: {n} *)
| SavedTo (file : string)      (* \n[SUCCESS] RSS feed saved to: {file} *)
| TotalJobs (n : nat)          (* [SUCCESS] Total jobs in feed: {n} *)
| SampleJob (i : nat) (t loc : string).   (* {i}. {title} - {location} *)

Record world := mk_world {
  console : list log_msg;          (* lines printed so far, oldest first *)
  files : gmap string string;      (* file name to content *)
  clock_reads : nat;               (* how often the clock has been read *)
  driver_running : bool }.         (* a browser session is open *)

Inductive result (A : Type) :=
| Return (a : A)
| Raise (e : exn).
Arguments Return {A} a.
Arguments Raise {A} e.

Definition M (A : Type) : Type := world -> result A * world.

#[global] Instance M_ret : MRet M := fun A a w => (Return a, w).
#[global] Instance M_bind : MBind M := fun A B f m w =>
  match m w with
  | (Return a, w') => f a w'
  | (Raise e, w') => (Raise e, w')
  end.

Definition raise {A} (e : exn) : M A := fun w => (Raise e, w).

(** [try: body / except Exception as e: handler(e)] *)
Definition try_except {A} (body : M A) (handler : exn -> M A) : M A := fun w =>
  match body w with
  | (Return a, w') => (Return a, w')
  | (Raise e, w') => handler e w'
  end.

(** [try: body / finally: fin] *)
Definition try_finally {A} (body : M A) (fin : M unit) : M A := fun w =>
  match body w with
  | (r, w') =>
      match fin w' with
      | (Return _, w'') => (r, w'')
      | (Raise e, w'') => (Raise e, w'')
      end
  end.

(** [for x in xs: acc = body(acc, x)] *)
Fixpoint for_each {A B} (body : A -> B -> M A) (acc : A) (xs : list B) : M A :=
  match xs with
  | [] => mret acc
  | x :: r => acc' ← body acc x; for_each body acc' r
  end.

Definition print (m : log_msg) : M unit := fun w =>
  (Return tt, mk_world (console w ++ [m]) (files w) (clock_reads w) (driver_running w)).

(** [with open(name, 'w') as f: f.write(content)] *)
Definition write_file (name content : string) : M unit := fun w =>
  (Return tt, mk_world (console w) (<[name := content]> (files w))
                       (clock_reads w) (driver_running w)).

Definition set_driver (b : bool) : M unit := fun w =>
  (Return tt, mk_world (console w) (files w) (clock_reads w) b).

(** The value and the final world of a run. *)
Definition eval {A} (m : M A) (w : world) : result A := fst (m w).
Definition exec {A} (m : M A) (w : world) : world := snd (m w).

(** The world after [n] more readings of the clock. *)
Definition tick (n : nat) (w : world) : world :=
  mk_world (console w) (files w) (n + clock_reads w) (driver_running w).

(** The sixty equals signs of ["=" * 60]. *)
Definition rule60 : string :=
  "============================================================".

(** ** The program *)

(** What the headless browser does in one run. *)
Record browser := mk_browser {
  starts : bool;            (* [webdriver.Chrome(...)] succeeds *)
  navigates : bool;         (* [driver.get(url)] succeeds *)
  marker_appears : bool;    (* an element of class searchResults shows up in 15 s *)
  page_source : string }.   (* [driver.page_source] after the wait *)

Section Scraper.

(** The collaborators outside the source file: the browser, the HTML parser
    behind [BeautifulSoup(html, 'html.parser')], the readings of the UTC
    clock in the order they are taken, and the serialiser and the
    re-parsing pretty-printer behind [prettify_xml]. *)
Variable chrome : browser.
Variable html_parser : string -> bs4.node.
Variable utc_clock : nat -> PyDatetime.datetime.
Variable ET_tostring : ET.Element -> string.
Variable minidom_toprettyxml : string -> option string.

(** [datetime.utcnow()] *)
Definition utcnow : M PyDatetime.datetime := fun w =>
  (Return (utc_clock (clock_reads w)),
   mk_world (console w) (files w) (S (clock_reads w)) (driver_running w)).

(** [setup_driver()] (lines 24-35) *)
Definition setup_driver : M unit :=
  if starts chrome then set_driver true else raise WebDriverException.

Definition driver_get (url : string) : M unit :=
  if navigates chrome then mret tt else raise WebDriverException.

Definition wait_for_marker : M unit :=
  if marker_appears chrome then mret tt else raise TimeoutException.

(** The receiver of [job_url.startswith]: a list has no such method. *)
Definition as_str (v : bs4.attr_value) : M string :=
  match v with
  | bs4.AttrStr s => mret s
  | bs4.AttrList _ => raise AttributeError
  end.

(** The body of the [try] in the row loop (lines 97-132); [continue] is the
    return of the list unchanged. *)
Definition row_body (all_jobs : list job) (row : bs4.node) : M (list job) :=
  match bs4.find row "a" with
  | None => mret all_jobs
  | Some a =>
      let title := bs4.get_text_strip a in
      job_url ← as_str (bs4.get_default a "href" (bs4.AttrStr ""));
      let job_url := make_absolute job_url in
      let cells := bs4.find_all row "td" in
      let location :=
        match cells !! 1 with
        | Some c => bs4.get_text_strip c
        | None => "Not specified"
        end in
      let posting_date :=
        match cells !! 2 with
        | Some c => bs4.get_text_strip c
        | None => "Not specified"
        end in
      if negb (PyStr.truthy title) || negb (PyStr.truthy job_url)
         || String.eqb title ""
      then mret all_jobs
      else mret (all_jobs ++ [mk_job title job_url location posting_date])%list
  end.

(** One turn of the row loop (lines 95-136). *)
Definition row_step (all_jobs : list job) (row : bs4.node) : M (list job) :=
  try_except (row_body all_jobs row)
             (fun e => print (RowError e);; mret all_jobs).

(** The rows to parse (lines 86-91). *)
Definition select_rows (table : bs4.node) : list bs4.node :=
  let rows := bs4.find_all_class table "tr" "data-row" in
  match rows with
  | [] => filter (fun r => is_Some (bs4.find r "a")) (bs4.find_all table "tr")
  | _ => rows
  end.

(** [fetch_jobs_with_selenium()] (lines 37-142) *)
Definition fetch_jobs_with_selenium : M (list job) :=
  print (Line "Starting Chrome browser (headless mode)...");;
  setup_driver;;
  try_finally
    (print (Line "Loading EBRD jobs page...");;
     driver_get SEARCH_URL;;
     print (Line "Waiting for page content to load...");;
     (* time.sleep(5): the passing of time is not part of the world *)
     try_except (wait_for_marker;; print (Line "[OK] Job listings table found"))
                (fun e => print (WarnTimeout e));;
     let html_content := page_source chrome in
     write_file "debug_page.html" html_content;;
     print (Line "[OK] Saved debug HTML to debug_page.html");;
     let soup := html_parser html_content in
     match bs4.find_class soup "table" "searchResults" with
     | None =>
         print (Line "ERROR: Could not find job listings table");;
         let all_tables := bs4.find_all soup "table" in
         print (FoundTables (length all_tables));;
         match all_tables with
         | [] => mret tt
         | _ => print (TableClasses (map (fun t => bs4.get t "class") all_tables))
         end;;
         mret []
     | Some table =>
         print (Line "[OK] Job table found, parsing jobs...");;
         let rows := select_rows table in
         print (FoundRows (length rows));;
         for_each row_step [] rows
     end)
    (set_driver false;; print (Line "[OK] Browser closed")).

(** One feed item (lines 168-186), stamped with the clock reading [now]. *)
Definition item_of (j : job) (now : PyDatetime.datetime) : ET.Element :=
  let item := ET.mkElement "item" ∅ None [] in
  let item := ET.SubElement item (ET.leaf "title" (title j)) in
  let item := ET.SubElement item (ET.leaf "link" (link j)) in
  let description :=
    "Location: " ++ location j ++ PyStr.LF ++ "Posting Date: " ++ posting_date j in
  let item := ET.SubElement item (ET.leaf "description" description) in
  let item :=
    ET.SubElement item (ET.leaf "pubDate" (PyDatetime.strftime_rfc822 now)) in
  ET.SubElement item
    (ET.mkElement "guid" {[ "isPermaLink" := "true" ]} (Some (link j)) []).

(** One turn of the item loop (lines 167-186). *)
Definition add_item (channel : ET.Element) (j : job) : M ET.Element :=
  now ← utcnow;
  mret (ET.SubElement channel (item_of j now)).

Definition atom_link : ET.Element :=
  ET.mkElement "atom:link"
    (<["type" := "application/rss+xml"]>
       (<["rel" := "self"]>
          {[ "href" := "https://cinfoposte.github.io/ebrd-jobs/ebrd_jobs.xml" ]}))
    None [].

(** [create_rss_feed(jobs)] (lines 144-188) *)
Definition create_rss_feed (jobs : list job) : M ET.Element :=
  let rss :=
    ET.mkElement "rss"
      (<["version" := "2.0"]> {[ "xmlns:atom" := "http://www.w3.org/2005/Atom" ]})
      None [] in
  let channel := ET.mkElement "channel" ∅ None [] in
  let channel := ET.SubElement channel (ET.leaf "title" "EBRD Job Vacancies") in
  let channel := ET.SubElement channel (ET.leaf "link" SEARCH_URL) in
  let channel :=
    ET.SubElement channel
      (ET.leaf "description"
         "Current job opportunities at the European Bank for Reconstruction and Development") in
  let channel := ET.SubElement channel (ET.leaf "language" "en") in
  now ← utcnow;
  let channel :=
    ET.SubElement channel
      (ET.leaf "lastBuildDate" (PyDatetime.strftime_rfc822 now)) in
  let channel := ET.SubElement channel atom_link in
  channel ← for_each add_item channel jobs;
  mret (ET.SubElement rss channel).

(** [prettify_xml(element)] (lines 190-194); the re-parse fails on text that
    is not well-formed XML. *)
Definition prettify_xml (element : ET.Element) : M string :=
  let rough_string := ET_tostring element in
  match minidom_toprettyxml rough_string with
  | Some pretty => mret pretty
  | None => raise ExpatError
  end.

(** The duplicate filter of [main] (lines 210-215): the state of the loop is
    the list [unique_jobs] and the set [seen_links]. *)
Definition dedup_step (st : list job * gset string) (j : job)
  : list job * gset string :=
  let '(unique_jobs, seen_links) := st in
  if decide (link j ∈ seen_links) then st
  else ((unique_jobs ++ [j])%list, {[ link j ]} ∪ seen_links).

Definition remove_duplicates (jobs : list job) : list job :=
  fst (foldl dedup_step ([], ∅) jobs).

(** [main()] (lines 196-238) *)
Definition main : M unit :=
  print (Line rule60);;
  print (Line "EBRD Job Scraper");;
  print (Line rule60);;
  jobs ← fetch_jobs_with_selenium;
  match jobs with
  | [] => print (Line "No jobs found!")
  | _ =>
      let unique_jobs := remove_duplicates jobs in
      print (UniqueJobs (length unique_jobs));;
      print (Line (PyStr.LF ++ "Generating RSS feed..."));;
      rss_feed ← create_rss_feed unique_jobs;
      let output_file := "ebrd_jobs.xml" in
      xml_content ← prettify_xml rss_feed;
      write_file output_file xml_content;;
      print (SavedTo output_file);;
      print (TotalJobs (length unique_jobs));;
      print (Line (PyStr.LF ++ "Sample jobs:"));;
      for_each (fun _ '(i, j) => print (SampleJob i (title j) (location j))) tt
               (zip (seq 1 5) (take 5 unique_jobs));;
      print (Line (PyStr.LF ++ rule60));;
      print (Line "Done!");;
      print (Line rule60)
  end.

End Scraper.

(** ** Notions of the specification used to state the properties *)

(** An absolute URL in the sense of RFC 3986: it starts with a scheme, a
    letter followed by letters, digits, [+], [-] or [.], and then a colon. *)
Module Spec.

Definition is_alpha (c : ascii) : bool :=
  let n := nat_of_ascii c in
  (((65 <=? n) && (n <=? 90)) || ((97 <=? n) && (n <=? 122)))%nat.

Definition is_scheme_char (c : ascii) : bool :=
  let n := nat_of_ascii c in
  (is_alpha c || ((48 <=? n) && (n <=? 57)) || (n =? 43) || (n =? 45) || (n =? 46))%nat.

Fixpoint scheme_tail (s : string) : bool :=
  match s with
  | EmptyString => false
  | String c r =>
      if Ascii.eqb c ":" then true
      else if is_scheme_char c then scheme_tail r else false
  end.

Definition is_absolute_url (s : string) : bool :=
  match s with
  | EmptyString => false
  | String c r => is_alpha c && scheme_tail r
  end.

(** The two-line description of an item. *)
Definition description_of (j : job) : string :=
  "Location: " ++ location j ++ PyStr.LF ++ "Posting Date: " ++ posting_date j.

(** Exactly one child of [e] is tagged [t], and it has text. *)
Definition has_one (e : ET.Element) (t : string) : bool :=
  match ET.findall e t with
  | [c] => bool_decide (is_Some (ET.text c))
  | _ => false
  end.

(** The shape RSS 2.0 asks of a document: a root [rss] of version 2.0 with
    one [channel], which has one [title], one [link] and one [description];
    every [item] has a [title] or a [description]. *)
Definition rss20_shape (rss : ET.Element) : bool :=
  String.eqb (ET.tag rss) "rss"
  && bool_decide (ET.attrib rss !! "version" = Some "2.0")
  && match ET.children rss with
     | [channel] =>
         String.eqb (ET.tag channel) "channel"
         && has_one channel "title" && has_one channel "link"
         && has_one channel "description"
         && forallb (fun item => bool_decide (is_Some (ET.find item "title"))
                                 || bool_decide (is_Some (ET.find item "description")))
                    (ET.findall channel "item")
     | _ => false
     end.

(** The namespace prefix of a qualified name, if it has one. *)
Fixpoint prefix_of (t : string) : option string :=
  match t with
  | EmptyString => None
  | String c r => if Ascii.eqb c ":" then Some EmptyString
                  else String c <$> prefix_of r
  end.

(** Every prefix used in a tag is declared by an [xmlns:] attribute of the
    element or of an element above it. *)
Fixpoint prefixes_bound (scope : string -> bool) (e : ET.Element) : bool :=
  let 'ET.mkElement t a _ cs := e in
  let scope' := fun p => bool_decide (is_Some (a !! ("xmlns:" ++ p))) || scope p in
  match prefix_of t with
  | None => true
  | Some p => scope' p
  end
  && forallb (prefixes_bound scope') cs.

Definition well_formed_feed (rss : ET.Element) : bool :=
  rss20_shape rss && prefixes_bound (fun _ => false) rss.

(** Keeping the first record seen for each link, in the original order;
    [seen] holds the links met so far. *)
Fixpoint keep_first (seen : gset string) (jobs : list job) : list job :=
  match jobs with
  | [] => []
  | j :: r =>
      if decide (link j ∈ seen) then keep_first seen r
      else j :: keep_first ({[ link j ]} ∪ seen) r
  end.

(** The items of a feed for [jobs], the k-th one stamped with the k-th of
    the clock readings [times]. *)
Definition items_of (jobs : list job) (times : list PyDatetime.datetime)
  : list ET.Element :=
  zip_with item_of jobs times.

(** The document with the build time [built] and the items [items]. *)
Definition feed_document (built : PyDatetime.datetime) (items : list ET.Element)
  : ET.Element :=
  ET.mkElement "rss"
    (<["version" := "2.0"]> {[ "xmlns:atom" := "http://www.w3.org/2005/Atom" ]})
    None
    [ET.mkElement "channel" ∅ None
       ([ET.leaf "title" "EBRD Job Vacancies";
         ET.leaf "link" SEARCH_URL;
         ET.leaf "description"
           "Current job opportunities at the European Bank for Reconstruction and Development";
         ET.leaf "language" "en";
         ET.leaf "lastBuildDate" (PyDatetime.strftime_rfc822 built);
         atom_link] ++ items)%list].

(** The text of the cell at index [i] of a row, or the default. *)
Definition cell_text (row : bs4.node) (i : nat) : string :=
  match bs4.find_all row "td" !! i with
  | Some c => bs4.get_text_strip c
  | None => "Not specified"
  end.

(** The record [j] is the one made from [row]: the row has a hyperlink with
    text and with a string for its href. *)
Definition made_from (row : bs4.node) (j : job) : Prop :=
  exists (a : bs4.node) (href : string),
    bs4.find row "a" = Some a
    /\ bs4.get_default a "href" (bs4.AttrStr "") = bs4.AttrStr href
    /\ PyStr.truthy (bs4.get_text_strip a) = true
    /\ j = mk_job (bs4.get_text_strip a) (make_absolute href)
                  (cell_text row 1) (cell_text row 2).

(** The clock that shows the time [t] at every reading. *)
Definition frozen_clock (t : PyDatetime.datetime) : nat -> PyDatetime.datetime :=
  fun _ => t.

End Spec.

(** The files of [w'] are those of [w], but for the dump of the page. *)
Definition same_files (w w' : world) : Prop :=
  forall f : string, f <> "debug_page.html" -> files w' !! f = files w !! f.

(** A computation that does not read the clock, writes no file but the dump
    of the page, and returns a value that does not depend on the world. *)
Definition quiet {A} (m : M A) : Prop :=
  forall w : world,
    clock_reads (exec m w) = clock_reads w
    /\ same_files w (exec m w)
    /\ forall w' : world, eval m w' = eval m w.

(** ** Sample pages and records *)

Module Fixture.

Definition cell (s : string) : bs4.node :=
  bs4.Tag "td" ∅ [bs4.NavigableString s].

Definition data_row (cells : list bs4.node) : bs4.node :=
  bs4.Tag "tr" {[ "class" := bs4.AttrList ["data-row"] ]} cells.

(** A row as the site renders it: link, location, date. *)
Definition analyst_anchor : bs4.node :=
  bs4.Tag "a" {[ "href" := bs4.AttrStr "/job/Analyst/123" ]}
          [bs4.NavigableString " Analyst "].
Definition analyst_row : bs4.node :=
  data_row [bs4.Tag "td" ∅ [analyst_anchor]; cell "London"; cell "1 Jan 2024"].

(** A row whose link has text and no href. *)
Definition banker_anchor : bs4.node :=
  bs4.Tag "a" ∅ [bs4.NavigableString "Banker"].
Definition banker_row : bs4.node :=
  data_row [bs4.Tag "td" ∅ [banker_anchor]; cell "Paris"].

(** A row with no hyperlink. *)
Definition total_row : bs4.node := data_row [cell "Total: 2"].

(** A row whose link has no text but blanks. *)
Definition blank_anchor : bs4.node :=
  bs4.Tag "a" {[ "href" := bs4.AttrStr "/job/x" ]} [bs4.NavigableString "  "].
Definition blank_row : bs4.node :=
  data_row [bs4.Tag "td" ∅ [blank_anchor]; cell "Rome"].

Definition results_page : bs4.node :=
  bs4.Tag "[document]" ∅
    [bs4.Tag "table" {[ "class" := bs4.AttrList ["searchResults"] ]}
       [analyst_row; banker_row; total_row; blank_row]].

(** A table of plain rows, none of class [data-row]. *)
Definition plain_table : bs4.node :=
  bs4.Tag "table" {[ "class" := bs4.AttrList ["searchResults"] ]}
    [bs4.Tag "tr" ∅ [cell "Title"; cell "Location"];
     bs4.Tag "tr" ∅ [bs4.Tag "td" ∅ [analyst_anchor]; cell "London"]].

(** A page with two tables, neither of class [searchResults]. *)
Definition other_page : bs4.node :=
  bs4.Tag "[document]" ∅
    [bs4.Tag "table" {[ "class" := bs4.AttrList ["layout"] ]} [];
     bs4.Tag "table" ∅ []].

Definition chrome_ok : browser := mk_browser true true true "<html></html>".

Definition parser_of (page : bs4.node) : string -> bs4.node := fun _ => page.

Definition w0 : world := mk_world [] ∅ 0 false.

Definition analyst : job :=
  mk_job "Analyst" "https://jobs.ebrd.com/job/Analyst/123" "London" "1 Jan 2024".

Definition banker : job :=
  mk_job "Banker" "https://jobs.ebrd.com/" "Paris" "Not specified".

(** A clock whose first reading is the last second of 2024 and whose later
    readings are the first second of 2025. *)
Definition new_year_clock (k : nat) : PyDatetime.datetime :=
  match k with
  | 0 => PyDatetime.mk_datetime 2024 12 31 23 59 59 999
  | _ => PyDatetime.mk_datetime 2025 1 1 0 0 0 1
  end.

Definition noon : PyDatetime.datetime :=
  PyDatetime.mk_datetime 2026 11 4 12 0 0 0.



End Fixture.

(** ** The extractor seen as a function of the page

    Pure readings of the row loop and of the whole extractor, against which
    the monadic definitions are proved below. *)

Module View.

(** What the body of the loop does with one row: it raises, it skips the
    row, or it makes a record. *)
Definition row_outcome (row : bs4.node) : result (option job) :=
  match bs4.find row "a" with
  | None => Return None
  | Some a =>
      match bs4.get_default a "href" (bs4.AttrStr "") with
      | bs4.AttrList _ => Raise AttributeError
      | bs4.AttrStr href =>
          if PyStr.truthy (bs4.get_text_strip a)
          then Return (Some (mk_job (bs4.get_text_strip a) (make_absolute href)
                                    (Spec.cell_text row 1) (Spec.cell_text row 2)))
          else Return None
      end
  end.

Definition row_job (row : bs4.node) : option job :=
  match row_outcome row with
  | Return (Some j) => Some j
  | _ => None
  end.

Definition row_error (row : bs4.node) : option log_msg :=
  match row_outcome row with
  | Raise e => Some (RowError e)
  | _ => None
  end.

(** The world after the lines [lines] have been printed. *)
Definition logged (lines : list log_msg) (w : world) : world :=
  mk_world (console w ++ lines)%list (files w) (clock_reads w) (driver_running w).

(** The records of a parsed page and the lines printed while parsing it. *)
Definition page_jobs (soup : bs4.node) : list job :=
  match bs4.find_class soup "table" "searchResults" with
  | None => []
  | Some table => omap row_job (select_rows table)
  end.

Definition page_lines (soup : bs4.node) : list log_msg :=
  match bs4.find_class soup "table" "searchResults" with
  | None =>
      let all_tables := bs4.find_all soup "table" in
      [Line "ERROR: Could not find job listings table";
       FoundTables (length all_tables)]
      ++ match all_tables with
         | [] => []
         | _ => [TableClasses (map (fun t => bs4.get t "class") all_tables)]
         end
  | Some table =>
      [Line "[OK] Job table found, parsing jobs...";
       FoundRows (length (select_rows table))]
      ++ omap row_error (select_rows table)
  end%list.

(** The line printed after the wait for the results marker. *)
Definition marker_line (chrome : browser) : log_msg :=
  if marker_appears chrome then Line "[OK] Job listings table found"
  else WarnTimeout TimeoutException.

(** The six children every channel starts with. *)
Definition channel_head (built : PyDatetime.datetime) : list ET.Element :=
  [ET.leaf "title" "EBRD Job Vacancies";
   ET.leaf "link" SEARCH_URL;
   ET.leaf "description"
     "Current job opportunities at the European Bank for Reconstruction and Development";
   ET.leaf "language" "en";
   ET.leaf "lastBuildDate" (PyDatetime.strftime_rfc822 built);
   atom_link].

(** The lines [main] prints for the first five records. *)
Definition sample_lines (unique_jobs : list job) : list log_msg :=
  (fun '(i, j) => SampleJob i (title j) (location j))
    <$> zip (seq 1 5) (take 5 unique_jobs).

End View.

(** ** The feed as text: serialising, parsing and pretty-printing XML

    [prettify_xml] hands the element to [ET.tostring], the bytes to
    [minidom.parseString] and the document to [toprettyxml].  The three are
    functions of Python's standard library and no code of the repository;
    they are modelled here after the library's [ElementTree.py] and
    [minidom.py] and, for the parser, after XML 1.0 and Namespaces in XML.
    A byte string in UTF-8 is identified with the text it encodes.  The
    parser reads the part of XML that the two serialisers write, which is a
    declaration, start tags, end tags and empty-element tags with
    attributes, character data and references; comments, processing
    instructions, CDATA sections and document type declarations are
    refused. *)

Module XML.

Definition TAB : ascii := "009"%char.
Definition LF : ascii := "010"%char.
Definition CR : ascii := "013"%char.
Definition DQ : ascii := "034"%char.     (* the double quote *)
Definition SQ : ascii := "039"%char.     (* the apostrophe *)

Definition str (c : ascii) : string := String c EmptyString.

(** [s.replace(c, by)] for a single character [c]. *)
Fixpoint replace (c : ascii) (by_ : string) (s : string) : string :=
  match s with
  | EmptyString => EmptyString
  | String a r => (if Ascii.eqb a c then by_ else str a) ++ replace c by_ r
  end.

(** [ElementTree._escape_cdata] and [ElementTree._escape_attrib] *)
Definition escape_cdata (text : string) : string :=
  replace ">" "&gt;" (replace "<" "&lt;" (replace "&" "&amp;" text)).

Definition escape_attrib (text : string) : string :=
  replace TAB "&#09;"
    (replace LF "&#10;"
       (replace CR "&#13;"
          (replace DQ "&quot;" (escape_cdata text)))).

(** The strings of [l] written one after the other. *)
Fixpoint cat (l : list string) : string :=
  match l with
  | [] => ""
  | x :: r => x ++ cat r
  end.

(** The attributes of a start tag, as [_serialize_xml] writes them. *)
Definition write_attrs (items : list (string * string)) : string :=
  cat ((fun '(k, v) => " " ++ k ++ "=" ++ str DQ ++ escape_attrib v ++ str DQ)
         <$> items).

(** [ET.tostring(element, encoding='utf-8')]: [ElementTree._serialize_xml]
    for elements with no tail; for this encoding no declaration is written.
    An element with neither text nor children is written as an empty-element
    tag.  The library writes the attributes in the order in which they were
    set; here they are written in the order in which the map lists them,
    the order of attributes carrying no meaning in XML. *)
Fixpoint tostring (element : ET.Element) : string :=
  let 'ET.mkElement tag attrib text cs := element in
  "<" ++ tag ++ write_attrs (map_to_list attrib)
  ++ (if PyStr.truthy (default "" text) || negb (length cs =? 0)%nat
      then ">" ++ escape_cdata (default "" text)
           ++ (fix go (l : list ET.Element) : string :=
                 match l with
                 | [] => ""
                 | c :: r => tostring c ++ go r
                 end) cs
           ++ "</" ++ tag ++ ">"
      else " />").

(** *** The parser *)

(** The characters of XML 1.0 among the code points below 256, white space,
    and the characters of names. *)
Definition is_char (c : ascii) : bool :=
  let n := nat_of_ascii c in
  ((n =? 9) || (n =? 10) || (n =? 13) || (32 <=? n))%nat.

Definition is_space (c : ascii) : bool :=
  let n := nat_of_ascii c in
  ((n =? 32) || (n =? 9) || (n =? 10) || (n =? 13))%nat.

Definition is_name_start (c : ascii) : bool :=
  let n := nat_of_ascii c in
  ((n =? 58) || ((65 <=? n) && (n <=? 90)) || (n =? 95)
   || ((97 <=? n) && (n <=? 122)) || ((192 <=? n) && (n <=? 214))
   || ((216 <=? n) && (n <=? 246)) || (248 <=? n))%nat.

Definition is_name_char (c : ascii) : bool :=
  let n := nat_of_ascii c in
  (is_name_start c || (n =? 45) || (n =? 46) || ((48 <=? n) && (n <=? 57))
   || (n =? 183))%nat.

(** The value of a digit in base 10 or 16. *)
Definition digit_value (base : nat) (c : ascii) : option nat :=
  let n := nat_of_ascii c in
  (if (48 <=? n) && (n <=? 57) then Some (n - 48)
   else if (base =? 16) && (97 <=? n) && (n <=? 102) then Some (n - 87)
   else if (base =? 16) && (65 <=? n) && (n <=? 70) then Some (n - 55)
   else None)%nat.

(** The digits of a character reference up to its semicolon: the code point
    and the number of characters read. *)
Fixpoint char_code (base acc len : nat) (any : bool) (s : string)
  : option (nat * nat) :=
  match s with
  | EmptyString => None
  | String c r =>
      if Ascii.eqb c ";" then (if any then Some (acc, S len) else None)
      else d ← digit_value base c;
           char_code base (acc * base + d)%nat (S len) true r
  end.

(** Whether [s] starts with [p]. *)
Fixpoint starts_with (p s : string) : bool :=
  match p with
  | EmptyString => true
  | String a p' =>
      match s with
      | EmptyString => false
      | String b s' => Ascii.eqb a b && starts_with p' s'
      end
  end.

(** The reference that starts [r], the text after an ampersand: the
    character it stands for and the number of characters of [r] it takes.
    A reference to a code point that is not a character, or that lies
    above 255, is refused. *)
Definition reference (r : string) : option (ascii * nat) :=
  if starts_with "amp;" r then Some ("&"%char, 4)
  else if starts_with "lt;" r then Some ("<"%char, 3)
  else if starts_with "gt;" r then Some (">"%char, 3)
  else if starts_with "quot;" r then Some (DQ, 5)
  else if starts_with "apos;" r then Some (SQ, 5)
  else
    '(code, len) ←
      match r with
      | String "#" (String "x" d) => char_code 16 0 2 false d
      | String "#" d => char_code 10 0 1 false d
      | _ => None
      end;
    if (code <? 256)%nat && is_char (ascii_of_nat code)
    then Some (ascii_of_nat code, len) else None.

(** The text that character data or the value of an attribute stands for:
    references are replaced, a carriage return with or without a line feed
    after it is read as one line feed (XML 1.0, 2.11), and a character that
    XML does not allow is an error (2.2).  In the value of an attribute a
    literal tab or end of line is read as a space (3.3.3).  [skip] counts the
    characters still to pass over, those of the reference just read.  The
    sequence []]>], which XML forbids in character data, is not looked for:
    both serialisers escape [>]. *)
Fixpoint decode (attr : bool) (skip : nat) (s : string) : option string :=
  match s with
  | EmptyString => Some EmptyString
  | String c r =>
      match skip with
      | S k => decode attr k r
      | O =>
          if Ascii.eqb c "&" then
            '(ch, n) ← reference r; String ch <$> decode attr n r
          else if Ascii.eqb c "<" then None
          else if Ascii.eqb c CR then
            String (if attr then " "%char else LF)
              <$> decode attr (if starts_with (str LF) r then 1 else 0) r
          else if attr && (Ascii.eqb c LF || Ascii.eqb c TAB) then
            String " "%char <$> decode attr 0 r
          else if is_char c then String c <$> decode attr 0 r
          else None
      end
  end.

(** What the parser reports. *)
Inductive token :=
| TDecl                                              (* <?xml ... ?> *)
| TStart (name : string) (attrs : list (string * string))
| TEmpty (name : string) (attrs : list (string * string))
| TEnd (name : string)
| TText (data : string).

(** The longest prefix of [s] whose characters satisfy [p], and the rest. *)
Fixpoint span (p : ascii -> bool) (s : string) : string * string :=
  match s with
  | EmptyString => (EmptyString, EmptyString)
  | String c r =>
      if p c then let '(a, b) := span p r in (String c a, b)
      else (EmptyString, s)
  end.

Definition skip_space (s : string) : string := snd (span is_space s).

(** A name at the head of [s], and the rest. *)
Definition name_of (s : string) : option (string * string) :=
  match s with
  | EmptyString => None
  | String c r =>
      if is_name_start c
      then let '(a, b) := span is_name_char r in Some (String c a, b)
      else None
  end.

(** The attributes of a tag, from the text after its name, and whether the
    tag ends in a slash.  Each attribute is preceded by white space, its
    value is quoted, and no name occurs twice. *)
Fixpoint attributes (fuel : nat) (s : string)
  : option (list (string * string) * bool) :=
  match fuel with
  | O => None
  | S fuel =>
      let s1 := skip_space s in
      match s1 with
      | EmptyString => Some ([], false)
      | String "/" EmptyString => Some ([], true)
      | _ =>
          if (String.length s1 <? String.length s)%nat then
            '(k, r) ← name_of s1;
            match skip_space r with
            | String "=" r =>
                match skip_space r with
                | String q r =>
                    if Ascii.eqb q DQ || Ascii.eqb q SQ then
                      let '(raw, r) := span (fun c => negb (Ascii.eqb c q)) r in
                      match r with
                      | String _ r =>
                          v ← decode true 0 raw;
                          '(rest, e) ← attributes fuel r;
                          if bool_decide (k ∈ rest.*1) then None
                          else Some ((k, v) :: rest, e)
                      | EmptyString => None
                      end
                    else None
                | EmptyString => None
                end
            | _ => None
            end
          else None
      end
  end.

(** The token for the text between [<] and [>]. *)
Definition parse_markup (body : string) : option token :=
  match body with
  | String "?" r =>
      if starts_with "xml" r
         && bool_decide (String.get (String.length r - 1) r = Some "?"%char)
      then Some TDecl else None
  | String "/" r =>
      '(name, r) ← name_of r;
      match skip_space r with
      | EmptyString => Some (TEnd name)
      | _ => None
      end
  | _ =>
      '(name, r) ← name_of body;
      '(attrs, e) ← attributes (S (String.length r)) r;
      Some (if e : bool then TEmpty name attrs else TStart name attrs)
  end.

(** Where the scanner is: in character data, in a tag, or in a quoted value
    of an attribute in a tag. *)
Inductive mode := InText | InTag | InDQ | InSQ.

(** The token for the character data [raw], none when there is no data. *)
Definition flush_text (raw : string) : option (list token) :=
  match raw with
  | EmptyString => Some []
  | _ => data ← decode false 0 raw; Some [TText data]
  end.

(** The tokens of a document; [acc] holds the characters of the piece being
    read. *)
Fixpoint scan (m : mode) (acc : string) (s : string) : option (list token) :=
  match s with
  | EmptyString =>
      match m with
      | InText => flush_text acc
      | _ => None
      end
  | String c r =>
      match m with
      | InText =>
          if Ascii.eqb c "<"
          then t ← flush_text acc; l ← scan InTag "" r; Some (t ++ l)%list
          else scan InText (acc ++ str c) r
      | InTag =>
          if Ascii.eqb c ">"
          then t ← parse_markup acc; l ← scan InText "" r; Some (t :: l)
          else if Ascii.eqb c "<" then None
          else scan (if Ascii.eqb c DQ then InDQ
                     else if Ascii.eqb c SQ then InSQ else InTag)
                    (acc ++ str c) r
      | InDQ => scan (if Ascii.eqb c DQ then InTag else InDQ) (acc ++ str c) r
      | InSQ => scan (if Ascii.eqb c SQ then InTag else InSQ) (acc ++ str c) r
      end
  end.

(** The tree that [minidom] builds: elements with their attributes in the
    order of the document, and text; character data between two tags makes
    one text node. *)
Inductive Node :=
| Element (tagName : string) (attributes : list (string * string))
          (childNodes : list Node)
| Text (data : string).

(** An element that is open: its name, its attributes and the children
    read so far. *)
Definition frame : Type := string * list (string * string) * list Node.

(** Adds a finished node below the innermost open element, or makes it the
    root; a second root is an error. *)
Definition add_node (n : Node) (stack : list frame) (root : option Node)
  : option (list frame * option Node) :=
  match stack with
  | (t, a, cs) :: st => Some ((t, a, cs ++ [n])%list :: st, root)
  | [] => match root with
          | None => Some ([], Some n)
          | Some _ => None
          end
  end.

Definition all_space (s : string) : bool :=
  forallb is_space (list_ascii_of_string s).

(** Builds the tree from the tokens.  Outside the root only white space is
    allowed, and an end tag has to match the innermost open element. *)
Fixpoint build (toks : list token) (stack : list frame) (root : option Node)
  : option Node :=
  match toks with
  | [] => match stack with
          | [] => root
          | _ => None
          end
  | tok :: r =>
      match tok with
      | TDecl => None
      | TStart t a =>
          match stack, root with
          | [], Some _ => None
          | _, _ => build r ((t, a, []) :: stack) root
          end
      | TEmpty t a =>
          '(stack', root') ← add_node (Element t a []) stack root;
          build r stack' root'
      | TEnd t =>
          match stack with
          | (t', a, cs) :: st =>
              if String.eqb t t' then
                '(stack', root') ← add_node (Element t a cs) st root;
                build r stack' root'
              else None
          | [] => None
          end
      | TText d =>
          match stack with
          | (t, a, cs) :: st => build r ((t, a, cs ++ [Text d])%list :: st) root
          | [] => if all_space d then build r [] root else None
          end
      end
  end.

(** The parser is aware of namespaces: a prefix in the name of an element
    or of an attribute has to be declared by an [xmlns:] attribute of the
    element or of an element around it; [xml] and [xmlns] are always
    declared. *)
Fixpoint prefixes_bound (scope : string -> bool) (n : Node) : bool :=
  match n with
  | Text _ => true
  | Element t a cs =>
      let scope' := fun p =>
        String.eqb p "xml" || String.eqb p "xmlns"
        || bool_decide (("xmlns:" ++ p) ∈ a.*1) || scope p in
      forallb (fun name => match Spec.prefix_of name with
                           | None => true
                           | Some p => scope' p
                           end) (t :: a.*1)
      && forallb (prefixes_bound scope') cs
  end.

(** [minidom.parseString(s)]: the root element of the document, or nothing
    when the text is not well-formed. *)
Definition parseString (s : string) : option Node :=
  toks ← scan InText "" s;
  root ← build (match toks with TDecl :: r => r | _ => toks end) [] None;
  if prefixes_bound (fun _ => false) root then Some root else None.

(** *** The pretty-printer *)

(** [minidom._write_data(writer, text, attr)] *)
Definition write_data (text : string) (attr : bool) : string :=
  let text := replace ">" "&gt;" (replace "<" "&lt;" (replace "&" "&amp;" text)) in
  if attr
  then replace TAB "&#9;"
         (replace LF "&#10;" (replace CR "&#13;" (replace DQ "&quot;" text)))
  else text.

Definition write_dom_attrs (items : list (string * string)) : string :=
  cat ((fun '(k, v) => " " ++ k ++ "=" ++ str DQ ++ write_data v true ++ str DQ)
         <$> items).

(** [node.writexml(writer, indent, addindent, newl)] for elements and text:
    an element whose only child is text is written on one line. *)
Fixpoint writexml (indent addindent newl : string) (n : Node) : string :=
  match n with
  | Text data => write_data (indent ++ data ++ newl) false
  | Element tagName attrs cs =>
      indent ++ "<" ++ tagName ++ write_dom_attrs attrs
      ++ match cs with
         | [] => "/>" ++ newl
         | [Text data] =>
             ">" ++ write_data data false ++ "</" ++ tagName ++ ">" ++ newl
         | _ =>
             ">" ++ newl
             ++ (fix go (l : list Node) : string :=
                   match l with
                   | [] => ""
                   | c :: r => writexml (indent ++ addindent) addindent newl c ++ go r
                   end) cs
             ++ indent ++ "</" ++ tagName ++ ">" ++ newl
         end
  end.

(** [document.toprettyxml(indent, encoding='utf-8').decode('utf-8')] for the
    document with the root [root]. *)
Definition toprettyxml (indent : string) (root : Node) : string :=
  "<?xml version=" ++ str DQ ++ "1.0" ++ str DQ
  ++ " encoding=" ++ str DQ ++ "utf-8" ++ str DQ ++ "?>" ++ str LF
  ++ writexml "" indent (str LF) root.

(** [minidom.parseString(s).toprettyxml(indent='  ', encoding='utf-8')],
    the second argument of [prettify_xml]. *)
Definition reparse_pretty (rough_string : string) : option string :=
  toprettyxml "  " <$> parseString rough_string.

(** *** Reading the feed back *)

(** The element tree for a parsed document, as [ET.fromstring] builds it:
    the text of an element is the character data before its first child.
    Names keep their prefixes, and the character data after an end tag,
    which no function here reads, is left out. *)
Fixpoint elements_of (n : Node) : list ET.Element :=
  match n with
  | Text _ => []
  | Element t a cs =>
      [ET.mkElement t (list_to_map a)
         (match cs with
          | Text d :: _ => Some d
          | _ => None
          end)
         ((fix go (l : list Node) : list ET.Element :=
             match l with
             | [] => []
             | c :: r => elements_of c ++ go r
             end) cs)%list]
  end.

Definition fromstring (s : string) : option ET.Element :=
  root ← parseString s; head (elements_of root).

(** A string that comes back from the parser as it is: all its characters
    are characters of XML, and none is a carriage return. *)
Definition plain (s : string) : bool :=
  forallb (fun c => is_char c && negb (Ascii.eqb c CR)) (list_ascii_of_string s).

(** A record all of whose fields are plain. *)
Definition job_plain (j : job) : bool :=
  plain (title j) && plain (link j) && plain (location j)
  && plain (posting_date j).

#[global] Instance token_eq_dec : EqDecision token.
Proof. solve_decision. Defined.

#[global] Instance mode_eq_dec : EqDecision mode.
Proof. solve_decision. Defined.

End XML.

(** ** How the parser reads the feed

    Notions for following the scanner and the tree builder of [XML] over the
    text of a feed: the tokens and the nodes that the serialised feed and
    the pretty-printed feed are read as, and the element tree of the feed
    read back. *)

Module Reading.

(** What [escape_cdata] writes for one character. *)
Definition escape_char (c : ascii) : string :=
  if Ascii.eqb c "&" then "&amp;"
  else if Ascii.eqb c "<" then "&lt;"
  else if Ascii.eqb c ">" then "&gt;"
  else XML.str c.

(** The token for pending character data. *)
Definition text_tok (a : string) : list XML.token :=
  if PyStr.truthy a then [XML.TText a] else [].

(** No character of [s] opens a tag. *)
Definition no_lt (s : string) : bool :=
  forallb (fun c => negb (Ascii.eqb c "<")) (list_ascii_of_string s).

(** The mode of the scanner after the characters [s] inside a tag, when
    none of them ends the tag. *)
Fixpoint tag_mode (m : XML.mode) (s : string) : option XML.mode :=
  match s with
  | EmptyString => Some m
  | String c r =>
      match m with
      | XML.InText => None
      | XML.InTag =>
          if Ascii.eqb c ">" || Ascii.eqb c "<" then None
          else tag_mode (if Ascii.eqb c XML.DQ then XML.InDQ
                         else if Ascii.eqb c XML.SQ then XML.InSQ
                         else XML.InTag) r
      | XML.InDQ => tag_mode (if Ascii.eqb c XML.DQ then XML.InTag else XML.InDQ) r
      | XML.InSQ => tag_mode (if Ascii.eqb c XML.SQ then XML.InTag else XML.InSQ) r
      end
  end.

(** The text [body] between [<] and [>] is read as the token [tok]. *)
Definition reads_as (body : string) (tok : XML.token) : bool :=
  bool_decide (tag_mode XML.InTag body = Some XML.InTag)
  && bool_decide (XML.parse_markup body = Some tok).

(** The scanner's step over a piece of a document: with the plain text [a]
    pending it reads [s], reports [toks] and is left with [b] pending. *)
Definition Scans (a : string) (s : string) (toks : list XML.token) (b : string)
  : Prop :=
  forall rest : string,
    XML.scan XML.InText (XML.escape_cdata a) (s ++ rest)
    = (fun l => toks ++ l)%list <$> XML.scan XML.InText (XML.escape_cdata b) rest.

(** The tokens of an element that holds the text [x] and no child. *)
Definition leaf_toks (tag : string) (al : list (string * string)) (x : string)
  : list XML.token :=
  if PyStr.truthy x then [XML.TStart tag al; XML.TText x; XML.TEnd tag]
  else [XML.TEmpty tag al].

(** The text node for the text [x], none for the empty text. *)
Definition text_nodes (x : string) : list XML.Node :=
  if PyStr.truthy x then [XML.Text x] else [].

(** The three tags of the element [tag] with the attributes [attrs], as
    [tostring] writes them, are read as they should. *)
Definition tags_read (tag attrs : string) (al : list (string * string)) : bool :=
  reads_as (tag ++ attrs) (XML.TStart tag al)
  && reads_as (tag ++ attrs ++ " /") (XML.TEmpty tag al)
  && reads_as ("/" ++ tag) (XML.TEnd tag).

(** The tree builder's step over a piece of a document: inside an open
    element it reads [toks] and appends [nodes] to the children of that
    element. *)
Definition Builds (toks : list XML.token) (nodes : list XML.Node) : Prop :=
  forall (rest : list XML.token) (t : string) (a : list (string * string))
         (cs : list XML.Node) (st : list XML.frame) (root : option XML.Node),
    XML.build (toks ++ rest) ((t, a, cs) :: st) root
    = XML.build rest ((t, a, (cs ++ nodes)%list) :: st) root.

(** The attribute of [guid], and the tokens and the node that the
    serialised item of a record is read as. *)
Definition permalink : list (string * string) := [("isPermaLink", "true")].

Definition item_toks (j : job) (now : PyDatetime.datetime) : list XML.token :=
  XML.TStart "item" []
  :: (leaf_toks "title" [] (title j)
      ++ leaf_toks "link" [] (link j)
      ++ leaf_toks "description" [] (Spec.description_of j)
      ++ leaf_toks "pubDate" [] (PyDatetime.strftime_rfc822 now)
      ++ leaf_toks "guid" permalink (link j))
  ++ [XML.TEnd "item"].

Definition item_node (j : job) (now : PyDatetime.datetime) : XML.Node :=
  XML.Element "item" []
    [XML.Element "title" [] (text_nodes (title j));
     XML.Element "link" [] (text_nodes (link j));
     XML.Element "description" [] (text_nodes (Spec.description_of j));
     XML.Element "pubDate" [] (text_nodes (PyDatetime.strftime_rfc822 now));
     XML.Element "guid" permalink (text_nodes (link j))].

(** The attributes of [atom:link] and of [rss] in the order of the
    serialiser. *)
Definition atom_attrs : list (string * string) :=
  map_to_list (ET.attrib atom_link).

Definition rss_attrs : list (string * string) :=
  map_to_list (<["version" := "2.0"]>
                 ({[ "xmlns:atom" := "http://www.w3.org/2005/Atom" ]}
                  : gmap string string)).

(** The tokens and the nodes of the six children every channel starts
    with. *)
Definition head_toks (built : PyDatetime.datetime) : list XML.token :=
  leaf_toks "title" [] "EBRD Job Vacancies"
  ++ leaf_toks "link" [] SEARCH_URL
  ++ leaf_toks "description" []
       "Current job opportunities at the European Bank for Reconstruction and Development"
  ++ leaf_toks "language" [] "en"
  ++ leaf_toks "lastBuildDate" [] (PyDatetime.strftime_rfc822 built)
  ++ leaf_toks "atom:link" atom_attrs "".

Definition head_nodes (built : PyDatetime.datetime) : list XML.Node :=
  [XML.Element "title" [] (text_nodes "EBRD Job Vacancies");
   XML.Element "link" [] (text_nodes SEARCH_URL);
   XML.Element "description" []
     (text_nodes "Current job opportunities at the European Bank for Reconstruction and Development");
   XML.Element "language" [] (text_nodes "en");
   XML.Element "lastBuildDate" [] (text_nodes (PyDatetime.strftime_rfc822 built));
   XML.Element "atom:link" atom_attrs (text_nodes "")].

(** The document that the parser builds from the serialised feed. *)
Definition feed_node (built : PyDatetime.datetime)
           (jts : list (job * PyDatetime.datetime)) : XML.Node :=
  XML.Element "rss" rss_attrs
    [XML.Element "channel" []
       (head_nodes built ++ (uncurry item_node <$> jts))].

(** The tokens of the children of the channel in the serialised feed. *)
Definition feed_toks (built : PyDatetime.datetime)
           (jts : list (job * PyDatetime.datetime)) : list XML.token :=
  head_toks built ++ concat (uncurry item_toks <$> jts).

(** The line feed as a string. *)
Definition LFs : string := XML.str XML.LF.

(** The three tags of the element [tag] with the attributes [attrs], as
    the pretty-printer writes them, are read as they should. *)
Definition dom_tags_read (tag attrs : string) (al : list (string * string))
  : bool :=
  reads_as (tag ++ attrs) (XML.TStart tag al)
  && reads_as (tag ++ attrs ++ "/") (XML.TEmpty tag al)
  && reads_as ("/" ++ tag) (XML.TEnd tag).

(** An indentation: it is plain and needs no escaping. *)
Definition indentation (ind : string) : bool :=
  String.eqb (XML.escape_cdata ind) ind && XML.plain ind.

(** The tokens and the nodes of a pretty-printed element that holds text
    only, with the line feed and the indentation before it. *)
Definition pretty_leaf_toks (ind tag : string) (al : list (string * string))
           (x : string) : list XML.token :=
  XML.TText (LFs ++ ind) :: leaf_toks tag al x.

Definition pretty_leaf (ind tag : string) (al : list (string * string))
           (x : string) : list XML.Node :=
  [XML.Text (LFs ++ ind); XML.Element tag al (text_nodes x)].

(** The same for the item of a record, for the six children every channel
    starts with, and for all the children of the channel. *)
Definition pretty_item_toks (j : job) (now : PyDatetime.datetime)
  : list XML.token :=
  XML.TText (LFs ++ "    ") :: XML.TStart "item" []
  :: (pretty_leaf_toks "      " "title" [] (title j)
      ++ pretty_leaf_toks "      " "link" [] (link j)
      ++ pretty_leaf_toks "      " "description" [] (Spec.description_of j)
      ++ pretty_leaf_toks "      " "pubDate" [] (PyDatetime.strftime_rfc822 now)
      ++ pretty_leaf_toks "      " "guid" permalink (link j))
  ++ [XML.TText (LFs ++ "    "); XML.TEnd "item"].

Definition pretty_item (j : job) (now : PyDatetime.datetime) : list XML.Node :=
  [XML.Text (LFs ++ "    ");
   XML.Element "item" []
     ((pretty_leaf "      " "title" [] (title j)
       ++ pretty_leaf "      " "link" [] (link j)
       ++ pretty_leaf "      " "description" [] (Spec.description_of j)
       ++ pretty_leaf "      " "pubDate" [] (PyDatetime.strftime_rfc822 now)
       ++ pretty_leaf "      " "guid" permalink (link j))
      ++ [XML.Text (LFs ++ "    ")])].

Definition pretty_head_toks (built : PyDatetime.datetime) : list XML.token :=
  pretty_leaf_toks "    " "title" [] "EBRD Job Vacancies"
  ++ pretty_leaf_toks "    " "link" [] SEARCH_URL
  ++ pretty_leaf_toks "    " "description" []
       "Current job opportunities at the European Bank for Reconstruction and Development"
  ++ pretty_leaf_toks "    " "language" [] "en"
  ++ pretty_leaf_toks "    " "lastBuildDate" [] (PyDatetime.strftime_rfc822 built)
  ++ pretty_leaf_toks "    " "atom:link" atom_attrs "".

Definition pretty_head (built : PyDatetime.datetime) : list XML.Node :=
  pretty_leaf "    " "title" [] "EBRD Job Vacancies"
  ++ pretty_leaf "    " "link" [] SEARCH_URL
  ++ pretty_leaf "    " "description" []
       "Current job opportunities at the European Bank for Reconstruction and Development"
  ++ pretty_leaf "    " "language" [] "en"
  ++ pretty_leaf "    " "lastBuildDate" [] (PyDatetime.strftime_rfc822 built)
  ++ pretty_leaf "    " "atom:link" atom_attrs "".

Definition pretty_channel_toks (built : PyDatetime.datetime)
           (jts : list (job * PyDatetime.datetime)) : list XML.token :=
  pretty_head_toks built ++ concat (uncurry pretty_item_toks <$> jts).

Definition pretty_channel (built : PyDatetime.datetime)
           (jts : list (job * PyDatetime.datetime)) : list XML.Node :=
  pretty_head built ++ concat (uncurry pretty_item <$> jts).

(** The document that the parser builds from the pretty-printed feed. *)
Definition pretty_feed_node (built : PyDatetime.datetime)
           (jts : list (job * PyDatetime.datetime)) : XML.Node :=
  XML.Element "rss" rss_attrs
    [XML.Text (LFs ++ "  ");
     XML.Element "channel" []
       (pretty_channel built jts ++ [XML.Text (LFs ++ "  ")]);
     XML.Text (LFs ++ "")].

(** The XML declaration that [toprettyxml] writes, without its angle
    brackets. *)
Definition declaration : string :=
  "?xml version=" ++ XML.str XML.DQ ++ "1.0" ++ XML.str XML.DQ
  ++ " encoding=" ++ XML.str XML.DQ ++ "utf-8" ++ XML.str XML.DQ ++ "?".

(** An element that holds text only, read back. *)
Definition leaf_back (tag : string) (al : list (string * string)) (x : string)
  : ET.Element :=
  ET.mkElement tag (list_to_map al) (if PyStr.truthy x then Some x else None) [].

(** The item of a record and the six children every channel starts with,
    read back. *)
Definition item_back (j : job) (now : PyDatetime.datetime) : ET.Element :=
  ET.mkElement "item" (list_to_map []) (Some (LFs ++ "      "))
    [leaf_back "title" [] (title j);
     leaf_back "link" [] (link j);
     leaf_back "description" [] (Spec.description_of j);
     leaf_back "pubDate" [] (PyDatetime.strftime_rfc822 now);
     leaf_back "guid" permalink (link j)].

Definition head_back (built : PyDatetime.datetime) : list ET.Element :=
  [leaf_back "title" [] "EBRD Job Vacancies";
   leaf_back "link" [] SEARCH_URL;
   leaf_back "description" []
     "Current job opportunities at the European Bank for Reconstruction and Development";
   leaf_back "language" [] "en";
   leaf_back "lastBuildDate" [] (PyDatetime.strftime_rfc822 built);
   leaf_back "atom:link" atom_attrs ""].

(** The feed, read back from its text. *)
Definition feed_back (built : PyDatetime.datetime)
           (jts : list (job * PyDatetime.datetime)) : ET.Element :=
  ET.mkElement "rss" (list_to_map rss_attrs) (Some (LFs ++ "  "))
    [ET.mkElement "channel" (list_to_map []) (Some (LFs ++ "    "))
       (head_back built ++ (uncurry item_back <$> jts))].

(** What the items of the feed read back say of their records. *)
Definition item_says (j : job) (item : ET.Element) : Prop :=
  ET.findtext item "title" = Some (title j)
  /\ ET.findtext item "link" = Some (link j)
  /\ ET.findtext item "description"
     = Some ("Location: " ++ location j ++ PyStr.LF
             ++ "Posting Date: " ++ posting_date j)
  /\ ET.findtext item "guid" = ET.findtext item "link".

End Reading.

(** * Properties *)

(** ** Strings *)

Lemma startswith_app (p s : string) : PyStr.startswith (p ++ s) p = true.
Proof.
  unfold PyStr.startswith. induction p as [|c p IH]; simpl.
  - by destruct s.
  - destruct (Ascii.ascii_dec c c) as [_|N]; [exact IH | by destruct N].
Qed.

(** A string that starts with a non-empty prefix starts with the first
    character of that prefix. *)
Lemma startswith_first (s : string) (c : ascii) (p : string) :
  PyStr.startswith s (String c p) = true -> exists r, s = String c r.
Proof.
  unfold PyStr.startswith. destruct s as [|a s]; simpl; [done|].
  destruct (Ascii.ascii_dec c a) as [->|_]; [eauto | done].
Qed.

Lemma startswith_http_not_slash (s : string) :
  PyStr.startswith s "http" = true -> PyStr.startswith s "/" = false.
Proof.
  intros H. apply startswith_first in H as [r ->]. reflexivity.
Qed.

Lemma truthy_iff (s : string) : PyStr.truthy s = true <-> s <> "".
Proof. destruct s; simpl; split; congruence. Qed.

Lemma truthy_app_l (s t : string) :
  PyStr.truthy s = true -> PyStr.truthy (s ++ t) = true.
Proof. by destruct s. Qed.

(** ** Link canonicalization *)

Lemma make_absolute_startswith_http (href : string) :
  PyStr.startswith (make_absolute href) "http" = true.
Proof.
  unfold make_absolute.
  destruct (PyStr.startswith href "/") eqn:Hs.
  - apply (startswith_app "http" ("s://jobs.ebrd.com" ++ href)).
  - destruct (PyStr.startswith href "http") eqn:Hh; simpl.
    + exact Hh.
    + apply (startswith_app "http" ("s://jobs.ebrd.com" ++ "/" ++ href)).
Qed.

Lemma make_absolute_fixes_http (u : string) :
  PyStr.startswith u "http" = true -> make_absolute u = u.
Proof.
  intros H. unfold make_absolute.
  by rewrite (startswith_http_not_slash _ H), H.
Qed.

Lemma make_absolute_truthy (href : string) :
  PyStr.truthy (make_absolute href) = true.
Proof.
  pose proof (make_absolute_startswith_http href) as H.
  apply startswith_first in H as [r ->]. reflexivity.
Qed.

(** C3, as stated, fails: [mailto:careers@ebrd.com] is an absolute URL that
    does not start with a slash, and it is not returned unchanged. *)
Lemma make_absolute_mailto_changed :
  PyStr.startswith "mailto:careers@ebrd.com" "/" = false
  /\ Spec.is_absolute_url "mailto:careers@ebrd.com" = true
  /\ make_absolute "mailto:careers@ebrd.com"
     = "https://jobs.ebrd.com/mailto:careers@ebrd.com"
  /\ make_absolute "mailto:careers@ebrd.com" <> "mailto:careers@ebrd.com".
Proof. repeat split; [vm_compute; reflexivity .. | vm_compute; discriminate]. Qed.

(** C3, amended: an href that starts with a slash gets the origin in front;
    otherwise an href that does not start with [http] gets the origin and a
    slash in front; an href that starts with [http] is returned unchanged.
    The href [/jobs/123] becomes [https://jobs.ebrd.com/jobs/123]. *)
Theorem make_absolute_rule (href : string) :
  (PyStr.startswith href "/" = true -> make_absolute href = BASE_URL ++ href)
  /\ (PyStr.startswith href "/" = false -> PyStr.startswith href "http" = false ->
      make_absolute href = BASE_URL ++ "/" ++ href)
  /\ (PyStr.startswith href "http" = true -> make_absolute href = href)
  /\ make_absolute "/jobs/123" = "https://jobs.ebrd.com/jobs/123".
Proof.
  repeat split.
  - intros H. unfold make_absolute. by rewrite H.
  - intros H1 H2. unfold make_absolute. by rewrite H1, H2.
  - apply make_absolute_fixes_http.
Qed.

Lemma make_absolute_rule_witness :
  make_absolute "/jobs/123" = BASE_URL ++ "/jobs/123"
  /\ make_absolute "jobs/123" = BASE_URL ++ "/" ++ "jobs/123"
  /\ make_absolute "https://jobs.ebrd.com/jobs/123" = "https://jobs.ebrd.com/jobs/123".
Proof.
  split; [|split].
  - apply (proj1 (make_absolute_rule "/jobs/123")). reflexivity.
  - apply (proj1 (proj2 (make_absolute_rule "jobs/123"))); reflexivity.
  - apply (proj1 (proj2 (proj2 (make_absolute_rule "https://jobs.ebrd.com/jobs/123")))).
    reflexivity.
Defined.

(** C7, as stated, fails in its last clause: [HTTP://JOBS.EBRD.COM/job/1]
    is an absolute URL, the scheme of a URL being insensitive to case, and
    canonicalization does not return it unchanged. *)
Lemma make_absolute_uppercase_scheme_changed :
  Spec.is_absolute_url "HTTP://JOBS.EBRD.COM/job/1" = true
  /\ make_absolute "HTTP://JOBS.EBRD.COM/job/1"
     = "https://jobs.ebrd.com/HTTP://JOBS.EBRD.COM/job/1"
  /\ make_absolute "HTTP://JOBS.EBRD.COM/job/1" <> "HTTP://JOBS.EBRD.COM/job/1".
Proof. repeat split; [vm_compute; reflexivity .. | vm_compute; discriminate]. Qed.

(** C7, amended: canonicalization is idempotent for every href; its output
    always starts with [http], and a URL that starts with [http], the mark
    by which the code takes a URL for absolute, is returned unchanged. *)
Theorem make_absolute_idempotent (href : string) :
  make_absolute (make_absolute href) = make_absolute href
  /\ PyStr.startswith (make_absolute href) "http" = true
  /\ (PyStr.startswith href "http" = true -> make_absolute href = href).
Proof.
  split; [|split].
  - apply make_absolute_fixes_http, make_absolute_startswith_http.
  - apply make_absolute_startswith_http.
  - apply make_absolute_fixes_http.
Qed.

Lemma make_absolute_idempotent_witness :
  make_absolute (make_absolute "job/1") = make_absolute "job/1"
  /\ make_absolute "https://jobs.ebrd.com/job/1" = "https://jobs.ebrd.com/job/1".
Proof.
  split.
  - apply (proj1 (make_absolute_idempotent "job/1")).
  - apply (proj2 (proj2 (make_absolute_idempotent "https://jobs.ebrd.com/job/1"))).
    reflexivity.
Defined.

(** ** Deduplication *)

Lemma foldl_dedup_step (jobs u : list job) (seen : gset string) :
  fst (foldl dedup_step (u, seen) jobs) = (u ++ Spec.keep_first seen jobs)%list.
Proof.
  revert u seen. induction jobs as [|j r IH]; intros u seen; simpl.
  - by rewrite app_nil_r.
  - destruct (decide (link j ∈ seen)).
    + apply IH.
    + rewrite IH. by rewrite <- app_assoc.
Qed.

Lemma remove_duplicates_keep_first (jobs : list job) :
  remove_duplicates jobs = Spec.keep_first ∅ jobs.
Proof. unfold remove_duplicates. by rewrite foldl_dedup_step. Qed.

Lemma keep_first_sublist (jobs : list job) (seen : gset string) :
  sublist (Spec.keep_first seen jobs) jobs.
Proof.
  revert seen. induction jobs as [|j r IH]; intros seen; simpl.
  - constructor.
  - destruct (decide (link j ∈ seen)).
    + by apply sublist_cons.
    + by apply sublist_skip.
Qed.

(** Among the kept records, those with the link [l] are: none when [l] has
    been seen before, and otherwise the first record of the input with that
    link, if there is one. *)
Lemma keep_first_filter (l : string) (jobs : list job) (seen : gset string) :
  filter (fun j => link j = l) (Spec.keep_first seen jobs)
  = if decide (l ∈ seen) then []
    else option_list (head (filter (fun j => link j = l) jobs)).
Proof.
  revert seen. induction jobs as [|j r IH]; intros seen; simpl.
  - by destruct (decide (l ∈ seen)).
  - destruct (decide (link j ∈ seen)) as [Hin|Hout].
    + rewrite IH. destruct (decide (l ∈ seen)) as [|Hl]; [done|].
      rewrite filter_cons_False; [done|]. intros E. by rewrite E in Hin.
    + destruct (decide (link j = l)) as [E|Hne].
      * rewrite !filter_cons_True by done. rewrite IH.
        rewrite decide_True
          by (apply elem_of_union; left; by apply elem_of_singleton).
        rewrite decide_False; [done|]. by rewrite <- E.
      * rewrite !filter_cons_False by done. rewrite IH.
        destruct (decide (l ∈ seen)) as [Hl|Hl].
        -- rewrite decide_True; [done|]. apply elem_of_union. by right.
        -- rewrite decide_False; [done|]. intros [Hs|?]%elem_of_union; [|done].
           apply elem_of_singleton in Hs. by destruct Hne.
Qed.

Lemma remove_duplicates_filter (l : string) (jobs : list job) :
  filter (fun j => link j = l) (remove_duplicates jobs)
  = option_list (head (filter (fun j => link j = l) jobs)).
Proof.
  rewrite remove_duplicates_keep_first, keep_first_filter.
  rewrite decide_False; [done|]. apply not_elem_of_empty.
Qed.


(** The example of the specification: links [a], [a], [b] give [a], [b]. *)
Example remove_duplicates_example :
  remove_duplicates
    [mk_job "A" "https://x/a" "London" "1 Jan";
     mk_job "A again" "https://x/a" "Paris" "2 Jan";
     mk_job "B" "https://x/b" "Rome" "3 Jan"]
  = [mk_job "A" "https://x/a" "London" "1 Jan";
     mk_job "B" "https://x/b" "Rome" "3 Jan"].
Proof. vm_compute. reflexivity. Qed.

(** ** Running the monad *)

Lemma bind_run {A B} (m : M A) (f : A -> M B) (w : world) :
  (m ≫= f) w = match m w with
               | (Return a, w') => f a w'
               | (Raise e, w') => (Raise e, w')
               end.
Proof. reflexivity. Qed.

Lemma tick_0 (w : world) : tick 0 w = w.
Proof. by destruct w. Qed.

Lemma try_except_run {A} (body : M A) (handler : exn -> M A) (w : world) :
  try_except body handler w = match body w with
                              | (Return a, w') => (Return a, w')
                              | (Raise e, w') => handler e w'
                              end.
Proof. reflexivity. Qed.

Lemma try_finally_run {A} (body : M A) (fin : M unit) (w : world) :
  try_finally body fin w
  = match body w with
    | (r, w') => match fin w' with
                 | (Return _, w'') => (r, w'')
                 | (Raise e, w'') => (Raise e, w'')
                 end
    end.
Proof. reflexivity. Qed.

(** Runs a computation applied to a world as far as its shape is known. *)
Ltac run_M :=
  repeat (progress (rewrite ?bind_run, ?try_finally_run, ?try_except_run;
                    cbn [print set_driver write_file mret M_ret raise
                         console files clock_reads driver_running])).

(** ** The feed builder *)

Section FeedBuilder.

Variable utc_clock : nat -> PyDatetime.datetime.

Lemma for_each_add_item (jobs : list job) (channel : ET.Element) (w : world) :
  for_each (add_item utc_clock) channel jobs w
  = (Return (ET.mkElement (ET.tag channel) (ET.attrib channel) (ET.text channel)
               (ET.children channel
                ++ Spec.items_of jobs
                     (utc_clock <$> seq (clock_reads w) (length jobs)))%list),
     tick (length jobs) w).
Proof.
  revert channel w. induction jobs as [|j r IH]; intros channel w.
  - simpl. rewrite app_nil_r, tick_0. by destruct channel.
  - simpl. rewrite bind_run. unfold add_item at 1, utcnow at 1.
    rewrite bind_run. cbn [mret M_ret]. rewrite IH.
    destruct channel as [t a x cs]. cbn [ET.SubElement ET.tag ET.attrib ET.text ET.children clock_reads].
    rewrite <- app_assoc. simpl. unfold tick. simpl.
    by rewrite Nat.add_succ_r.
Qed.

(** The whole run of the builder in closed form: the document, and the world
    with nothing changed but the count of clock readings. *)
Lemma create_rss_feed_run (jobs : list job) (w : world) :
  create_rss_feed utc_clock jobs w
  = (Return (Spec.feed_document (utc_clock (clock_reads w))
               (Spec.items_of jobs
                  (utc_clock <$> seq (S (clock_reads w)) (length jobs)))),
     tick (S (length jobs)) w).
Proof.
  unfold create_rss_feed. rewrite bind_run. unfold utcnow at 1.
  rewrite bind_run, for_each_add_item. cbn [mret M_ret].
  unfold tick. simpl. by rewrite Nat.add_succ_r.
Qed.

(** [iter] visits the element and then its children from left to right. *)
Lemma iter_unfold (e : ET.Element) (t : string) :
  ET.iter e t
  = ((if decide (ET.tag e = t) then [e] else [])
     ++ flat_map (fun c => ET.iter c t) (ET.children e))%list.
Proof.
  destruct e as [t' a x cs]. reflexivity.
Qed.

Lemma iter_item_of (j : job) (now : PyDatetime.datetime) :
  ET.iter (item_of j now) "item" = [item_of j now].
Proof. reflexivity. Qed.

Lemma iter_items_of (jobs : list job) (times : list PyDatetime.datetime) :
  flat_map (fun c => ET.iter c "item") (Spec.items_of jobs times)
  = Spec.items_of jobs times.
Proof.
  revert times. induction jobs as [|j r IH]; intros [|now times]; try done.
  unfold Spec.items_of in *. cbn [zip_with flat_map].
  by rewrite iter_item_of, IH.
Qed.

Lemma iter_feed_document (built : PyDatetime.datetime) (items : list ET.Element) :
  ET.iter (Spec.feed_document built items) "item"
  = flat_map (fun c => ET.iter c "item") items.
Proof.
  rewrite iter_unfold. cbn [Spec.feed_document ET.tag ET.children flat_map].
  rewrite decide_False by done. rewrite app_nil_r, app_nil_l, iter_unfold.
  cbn [ET.tag ET.children]. rewrite decide_False by done.
  rewrite app_nil_l, flat_map_app. reflexivity.
Qed.

Lemma Forall2_items_of (P : job -> ET.Element -> Prop)
      (jobs : list job) (times : list PyDatetime.datetime) :
  length times = length jobs ->
  (forall j now, P j (item_of j now)) ->
  Forall2 P jobs (Spec.items_of jobs times).
Proof.
  intros Hlen HP. revert times Hlen.
  induction jobs as [|j r IH]; intros [|now times] Hlen;
    try done; try (by constructor).
  unfold Spec.items_of. cbn [zip_with]. constructor; [apply HP|].
  apply IH. simpl in Hlen. lia.
Qed.

(** The tree that the builder returns, before it is turned into text, holds
    one [item] element for each record and no other, in the order of the
    records, with the fields of the record for the text of [title], [link],
    [description] and [guid]. *)
Lemma create_rss_feed_items (jobs : list job) (w : world) :
  exists rss : ET.Element,
    eval (create_rss_feed utc_clock jobs) w = Return rss
    /\ Forall2
         (fun j item =>
            ET.findtext item "title" = Some (title j)
            /\ ET.findtext item "link" = Some (link j)
            /\ ET.findtext item "description"
               = Some ("Location: " ++ location j ++ PyStr.LF
                       ++ "Posting Date: " ++ posting_date j)
            /\ ET.findtext item "guid" = ET.findtext item "link")
         jobs (ET.iter rss "item").
Proof.
  unfold eval. rewrite create_rss_feed_run. eexists. split; [reflexivity|].
  rewrite iter_feed_document, iter_items_of.
  apply Forall2_items_of.
  - by rewrite length_fmap, length_seq.
  - intros j now. repeat split.
Qed.

End FeedBuilder.

(** ** The feed as text

    The serialised feed is followed through the parser, the pretty-printer
    and the parser again. *)

Import Reading.

(** *** The parser on small documents *)

Example parseString_sample :
  XML.parseString
    ("<a b=" ++ XML.str XML.SQ ++ "1" ++ XML.str XML.SQ
     ++ ">x &amp; y&#13;<c /></a>")
  = Some (XML.Element "a" [("b", "1")]
            [XML.Text ("x & y" ++ XML.str XML.CR); XML.Element "c" [] []]).
Proof. vm_compute. reflexivity. Qed.

Example parseString_end_of_line :
  XML.parseString ("<a>x" ++ XML.str XML.CR ++ XML.str XML.LF ++ "y</a>")
  = Some (XML.Element "a" [] [XML.Text ("x" ++ XML.str XML.LF ++ "y")]).
Proof. vm_compute. reflexivity. Qed.

Example parseString_form_feed :
  XML.parseString ("<a>x" ++ XML.str "012"%char ++ "y</a>") = None.
Proof. vm_compute. reflexivity. Qed.

Example parseString_mismatch : XML.parseString "<a><b></a></b>" = None.
Proof. vm_compute. reflexivity. Qed.

Example parseString_two_roots : XML.parseString "<a/><b/>" = None.
Proof. vm_compute. reflexivity. Qed.

Example parseString_unbound_prefix : XML.parseString "<a:b/>" = None.
Proof. vm_compute. reflexivity. Qed.

Example parseString_repeated_attribute :
  XML.parseString
    ("<a b=" ++ XML.str XML.DQ ++ "1" ++ XML.str XML.DQ
     ++ " b=" ++ XML.str XML.DQ ++ "2" ++ XML.str XML.DQ ++ "/>")
  = None.
Proof. vm_compute. reflexivity. Qed.

(** The text of the feed for one record with characters to escape. *)
Example prettify_xml_sample :
  eval (prettify_xml XML.tostring XML.reparse_pretty
          (ET.mkElement "item" ∅ None
             [ET.leaf "title" "R&D <Lead>"; ET.leaf "link" ""]))
       Fixture.w0
  = Return ("<?xml version=" ++ XML.str XML.DQ ++ "1.0" ++ XML.str XML.DQ
            ++ " encoding=" ++ XML.str XML.DQ ++ "utf-8" ++ XML.str XML.DQ
            ++ "?>" ++ PyStr.LF
            ++ "<item>" ++ PyStr.LF
            ++ "  <title>R&amp;D &lt;Lead&gt;</title>" ++ PyStr.LF
            ++ "  <link/>" ++ PyStr.LF
            ++ "</item>" ++ PyStr.LF).
Proof. vm_compute. reflexivity. Qed.

(** *** Strings and escaping *)

Lemma str_app_cons (x : ascii) (a b : string) : String x a ++ b = String x (a ++ b).
Proof. reflexivity. Qed.

Lemma str_app_assoc (a b c : string) : (a ++ b) ++ c = a ++ b ++ c.
Proof.
  induction a as [|x a IH]; [done|]. rewrite !str_app_cons. by rewrite IH.
Qed.

Lemma str_app_nil_r (a : string) : a ++ "" = a.
Proof. induction a as [|x a IH]; [done|]. rewrite str_app_cons. by rewrite IH. Qed.

Lemma replace_app (c : ascii) (b s t : string) :
  XML.replace c b (s ++ t) = XML.replace c b s ++ XML.replace c b t.
Proof.
  induction s as [|x s IH]; [done|].
  rewrite str_app_cons. cbn [XML.replace]. by rewrite IH, str_app_assoc.
Qed.

Lemma escape_cdata_app (s t : string) :
  XML.escape_cdata (s ++ t) = XML.escape_cdata s ++ XML.escape_cdata t.
Proof. unfold XML.escape_cdata. by rewrite !replace_app. Qed.

Lemma escape_cdata_cons (c : ascii) (r : string) :
  XML.escape_cdata (String c r) = escape_char c ++ XML.escape_cdata r.
Proof.
  change (String c r) with (XML.str c ++ r). rewrite escape_cdata_app.
  f_equal. unfold XML.escape_cdata, escape_char, XML.str. cbn [XML.replace].
  destruct (Ascii.eqb_spec c "&") as [->|H1]; [reflexivity|].
  rewrite str_app_nil_r. cbn [XML.replace XML.str].
  destruct (Ascii.eqb_spec c "<") as [->|H2]; [reflexivity|].
  rewrite str_app_nil_r. cbn [XML.replace XML.str].
  destruct (Ascii.eqb_spec c ">") as [->|H3]; [reflexivity|].
  reflexivity.
Qed.

Lemma plain_cons (c : ascii) (r : string) :
  XML.plain (String c r)
  = XML.is_char c && negb (Ascii.eqb c XML.CR) && XML.plain r.
Proof. reflexivity. Qed.

Lemma plain_app (a b : string) :
  XML.plain (a ++ b) = XML.plain a && XML.plain b.
Proof.
  induction a as [|x a IH]; [done|].
  rewrite str_app_cons, !plain_cons, IH. by rewrite andb_assoc.
Qed.

Lemma decode_amp (x : string) :
  XML.decode false 0 ("&amp;" ++ x) = String "&" <$> XML.decode false 0 x.
Proof. reflexivity. Qed.

Lemma decode_lt (x : string) :
  XML.decode false 0 ("&lt;" ++ x) = String "<" <$> XML.decode false 0 x.
Proof. reflexivity. Qed.

Lemma decode_gt (x : string) :
  XML.decode false 0 ("&gt;" ++ x) = String ">" <$> XML.decode false 0 x.
Proof. reflexivity. Qed.

Lemma decode_char (c : ascii) (x : string) :
  Ascii.eqb c "&" = false -> Ascii.eqb c "<" = false ->
  Ascii.eqb c XML.CR = false -> XML.is_char c = true ->
  XML.decode false 0 (String c x) = String c <$> XML.decode false 0 x.
Proof. intros H1 H2 H3 H4. cbn [XML.decode]. by rewrite H1, H2, H3, H4. Qed.

(** Escaped text is read back as the text it was made from, when that text
    is plain. *)
Lemma decode_escape_cdata (t : string) :
  XML.plain t = true -> XML.decode false 0 (XML.escape_cdata t) = Some t.
Proof.
  induction t as [|c r IH]; [done|].
  rewrite plain_cons, !andb_true_iff, negb_true_iff. intros [[Hc Hcr] Hr].
  rewrite escape_cdata_cons. unfold escape_char.
  destruct (Ascii.eqb c "&") eqn:H1.
  { apply Ascii.eqb_eq in H1 as ->. by rewrite decode_amp, (IH Hr). }
  destruct (Ascii.eqb c "<") eqn:H2.
  { apply Ascii.eqb_eq in H2 as ->. by rewrite decode_lt, (IH Hr). }
  destruct (Ascii.eqb c ">") eqn:H3.
  { apply Ascii.eqb_eq in H3 as ->. by rewrite decode_gt, (IH Hr). }
  unfold XML.str. rewrite str_app_cons.
  change ("" ++ XML.escape_cdata r) with (XML.escape_cdata r).
  by rewrite decode_char, (IH Hr).
Qed.

Lemma escape_cdata_truthy (t : string) :
  PyStr.truthy (XML.escape_cdata t) = PyStr.truthy t.
Proof.
  destruct t as [|c r]; [done|]. rewrite escape_cdata_cons. unfold escape_char.
  by destruct (Ascii.eqb c "&"), (Ascii.eqb c "<"), (Ascii.eqb c ">").
Qed.

Lemma flush_text_escape (a : string) :
  XML.plain a = true -> XML.flush_text (XML.escape_cdata a) = Some (text_tok a).
Proof.
  intros Ha. unfold XML.flush_text, text_tok.
  pose proof (escape_cdata_truthy a) as Ht.
  destruct (XML.escape_cdata a) eqn:E.
  - simpl in Ht. by rewrite <- Ht.
  - simpl in Ht. rewrite <- Ht, <- E, decode_escape_cdata by done. done.
Qed.

(** *** The scanner *)

Lemma no_lt_app (a b : string) : no_lt (a ++ b) = no_lt a && no_lt b.
Proof.
  induction a as [|x a IH]; [done|].
  rewrite str_app_cons. unfold no_lt in *. cbn [list_ascii_of_string forallb].
  by rewrite IH, andb_assoc.
Qed.

Lemma no_lt_escape_cdata (t : string) : no_lt (XML.escape_cdata t) = true.
Proof.
  induction t as [|c r IH]; [done|].
  rewrite escape_cdata_cons, no_lt_app, IH, andb_true_r. unfold escape_char.
  destruct (Ascii.eqb c "&"); [done|]. destruct (Ascii.eqb c "<") eqn:E; [done|].
  destruct (Ascii.eqb c ">"); [done|].
  unfold no_lt, XML.str. cbn. by rewrite E.
Qed.

Lemma scan_text_app (s acc rest : string) :
  no_lt s = true ->
  XML.scan XML.InText acc (s ++ rest) = XML.scan XML.InText (acc ++ s) rest.
Proof.
  revert acc. induction s as [|c s IH]; intros acc H.
  - by rewrite str_app_nil_r.
  - unfold no_lt in H. cbn [list_ascii_of_string forallb] in H.
    apply andb_true_iff in H as [Hc Hs]. apply negb_true_iff in Hc.
    rewrite str_app_cons. cbn [XML.scan]. rewrite Hc, (IH _ Hs).
    unfold XML.str. by rewrite str_app_assoc.
Qed.

Lemma scan_tag_app (s acc rest : string) (m m' : XML.mode) :
  tag_mode m s = Some m' ->
  XML.scan m acc (s ++ rest) = XML.scan m' (acc ++ s) rest.
Proof.
  revert m acc. induction s as [|c s IH]; intros m acc H.
  - injection H as <-. by rewrite str_app_nil_r.
  - rewrite str_app_cons. destruct m; cbn [tag_mode] in H; [done|..].
    + destruct (Ascii.eqb c ">") eqn:E1; [done|].
      destruct (Ascii.eqb c "<") eqn:E2; [done|]. simpl in H.
      cbn [XML.scan]. rewrite E1, E2, (IH _ _ H).
      unfold XML.str. by rewrite str_app_assoc.
    + cbn [XML.scan]. rewrite (IH _ _ H). unfold XML.str. by rewrite str_app_assoc.
    + cbn [XML.scan]. rewrite (IH _ _ H). unfold XML.str. by rewrite str_app_assoc.
Qed.

Lemma Scans_nil (a : string) : Scans a "" [] a.
Proof. intros rest. simpl. by destruct (XML.scan _ _ _). Qed.

Lemma Scans_app (a b c s1 s2 : string) (t1 t2 : list XML.token) :
  Scans a s1 t1 b -> Scans b s2 t2 c -> Scans a (s1 ++ s2) (t1 ++ t2)%list c.
Proof.
  intros H1 H2 rest. rewrite str_app_assoc, H1, H2.
  destruct (XML.scan _ _ rest); simpl; [|done]. by rewrite app_assoc.
Qed.

Lemma Scans_text (a t : string) : Scans a (XML.escape_cdata t) [] (a ++ t).
Proof.
  intros rest. rewrite scan_text_app by apply no_lt_escape_cdata.
  rewrite <- escape_cdata_app. by destruct (XML.scan _ _ _).
Qed.

Lemma Scans_markup (a body : string) (tok : XML.token) :
  XML.plain a = true -> reads_as body tok = true ->
  Scans a ("<" ++ body ++ ">") (text_tok a ++ [tok])%list "".
Proof.
  unfold reads_as. rewrite andb_true_iff, !bool_decide_eq_true.
  intros Ha [Hm Hp] rest.
  rewrite !str_app_assoc. rewrite str_app_cons. cbn [XML.scan].
  change (Ascii.eqb "<" "<") with true. cbv iota.
  rewrite flush_text_escape by done.
  change ("" ++ body ++ ">" ++ rest) with (body ++ ">" ++ rest).
  rewrite (scan_tag_app body "" _ _ _ Hm).
  change ("" ++ body) with body. rewrite str_app_cons. cbn [XML.scan].
  change (Ascii.eqb ">" ">") with true. cbv iota. rewrite Hp.
  change ("" ++ rest) with rest. change (XML.escape_cdata "") with "".
  simpl. destruct (XML.scan XML.InText "" rest); simpl; [|done].
  by rewrite <- app_assoc.
Qed.

(** The whole of a document. *)
Lemma Scans_all (s b : string) (toks : list XML.token) :
  Scans "" s toks b -> XML.plain b = true ->
  XML.scan XML.InText "" s = Some (toks ++ text_tok b)%list.
Proof.
  intros H Hb. specialize (H ""). rewrite str_app_nil_r in H.
  change (XML.escape_cdata "") with "" in H. rewrite H.
  cbn [XML.scan]. by rewrite flush_text_escape.
Qed.

Lemma Scans_eq (a b s s' : string) (toks toks' : list XML.token) :
  Scans a s toks b -> s = s' -> toks = toks' -> Scans a s' toks' b.
Proof. by intros H <- <-. Qed.

Lemma cat_app (l1 l2 : list string) : XML.cat (l1 ++ l2) = XML.cat l1 ++ XML.cat l2.
Proof.
  induction l1 as [|x l1 IH]; [done|].
  cbn [app XML.cat]. by rewrite IH, str_app_assoc.
Qed.

(** *** The serialiser *)

Lemma tostring_unfold (tag : string) (attrib : gmap string string)
      (text : option string) (cs : list ET.Element) :
  XML.tostring (ET.mkElement tag attrib text cs)
  = "<" ++ tag ++ XML.write_attrs (map_to_list attrib)
    ++ (if PyStr.truthy (default "" text) || negb (length cs =? 0)%nat
        then ">" ++ XML.escape_cdata (default "" text)
             ++ XML.cat (XML.tostring <$> cs) ++ "</" ++ tag ++ ">"
        else " />").
Proof.
  cbn [XML.tostring].
  enough (forall l,
             (fix go (l : list ET.Element) : string :=
                match l with
                | [] => ""
                | c :: r => XML.tostring c ++ go r
                end) l
             = XML.cat (XML.tostring <$> l)) as H by (by rewrite H).
  induction l as [|c r IH]; [done|]. cbn [fmap list_fmap XML.cat]. by rewrite IH.
Qed.

Lemma Scans_leaf (tag : string) (attrib : gmap string string)
      (text : option string) (al : list (string * string)) :
  tags_read tag (XML.write_attrs (map_to_list attrib)) al = true ->
  XML.plain (default "" text) = true ->
  Scans "" (XML.tostring (ET.mkElement tag attrib text []))
        (leaf_toks tag al (default "" text)) "".
Proof.
  unfold tags_read. rewrite !andb_true_iff. intros [[H1 H2] H3] Hx.
  rewrite tostring_unfold. generalize dependent (default "" text). intros x Hx.
  cbn [length Nat.eqb negb fmap list_fmap XML.cat].
  unfold leaf_toks. rewrite orb_false_r. destruct (PyStr.truthy x) eqn:Ht.
  - eapply Scans_eq.
    + eapply Scans_app; [apply (Scans_markup "" _ _ eq_refl H1)|].
      eapply Scans_app; [apply (Scans_text "" x)|].
      apply (Scans_markup _ _ _ Hx H3).
    + rewrite !str_app_assoc. reflexivity.
    + unfold text_tok. cbn [String.append PyStr.truthy]. rewrite Ht. reflexivity.
  - eapply Scans_eq.
    + apply (Scans_markup "" _ _ eq_refl H2).
    + rewrite !str_app_assoc. reflexivity.
    + reflexivity.
Qed.

Lemma Scans_container (tag : string) (attrib : gmap string string)
      (cs : list ET.Element) (al : list (string * string))
      (toks : list XML.token) :
  tags_read tag (XML.write_attrs (map_to_list attrib)) al = true ->
  cs <> [] ->
  Scans "" (XML.cat (XML.tostring <$> cs)) toks "" ->
  Scans "" (XML.tostring (ET.mkElement tag attrib None cs))
        (XML.TStart tag al :: toks ++ [XML.TEnd tag])%list "".
Proof.
  unfold tags_read. rewrite !andb_true_iff. intros [[H1 H2] H3] Hcs Htoks.
  rewrite tostring_unfold. change (default "" None) with "".
  cbn [PyStr.truthy orb].
  destruct cs as [|c cs]; [done|]. cbn [length Nat.eqb negb].
  eapply Scans_eq.
  - eapply Scans_app; [apply (Scans_markup "" _ _ eq_refl H1)|].
    eapply Scans_app; [exact Htoks|].
    apply (Scans_markup "" _ _ eq_refl H3).
  - rewrite !str_app_assoc. reflexivity.
  - cbn [text_tok]. reflexivity.
Qed.

Lemma Scans_cat {A} (a : string) (f : A -> string) (g : A -> list XML.token)
      (l : list A) :
  Forall (fun x => Scans a (f x) (g x) a) l ->
  Scans a (XML.cat (f <$> l)) (concat (g <$> l)) a.
Proof.
  induction 1 as [|x l Hx _ IH]; [apply Scans_nil|].
  cbn [fmap list_fmap XML.cat concat]. by eapply Scans_app.
Qed.

(** *** The tree builder *)

Lemma Builds_nil : Builds [] [].
Proof. intros rest t a cs st root. by rewrite app_nil_r. Qed.

Lemma Builds_app (t1 t2 : list XML.token) (n1 n2 : list XML.Node) :
  Builds t1 n1 -> Builds t2 n2 -> Builds (t1 ++ t2) (n1 ++ n2).
Proof.
  intros H1 H2 rest t a cs st root.
  by rewrite <- app_assoc, H1, H2, <- app_assoc.
Qed.

Lemma Builds_text (d : string) : Builds [XML.TText d] [XML.Text d].
Proof. by intros rest t a cs st root. Qed.

Lemma Builds_empty (tag : string) (al : list (string * string)) :
  Builds [XML.TEmpty tag al] [XML.Element tag al []].
Proof. by intros rest t a cs st root. Qed.

Lemma Builds_element (tag : string) (al : list (string * string))
      (toks : list XML.token) (nodes : list XML.Node) :
  Builds toks nodes ->
  Builds (XML.TStart tag al :: toks ++ [XML.TEnd tag]) [XML.Element tag al nodes].
Proof.
  intros H rest t a cs st root.
  cbn [app XML.build]. rewrite <- app_assoc, H.
  cbn [app XML.build]. by rewrite String.eqb_refl.
Qed.

Lemma Builds_leaf (tag : string) (al : list (string * string)) (x : string) :
  Builds (leaf_toks tag al x) [XML.Element tag al (text_nodes x)].
Proof.
  unfold leaf_toks, text_nodes. destruct (PyStr.truthy x).
  - apply (Builds_element tag al [XML.TText x] [XML.Text x]), Builds_text.
  - apply Builds_empty.
Qed.

Lemma Builds_concat {A} (f : A -> list XML.token) (g : A -> list XML.Node)
      (l : list A) :
  (forall x, Builds (f x) (g x)) -> Builds (concat (f <$> l)) (concat (g <$> l)).
Proof.
  intros H. induction l as [|x l IH]; [apply Builds_nil|].
  cbn [fmap list_fmap concat]. by apply Builds_app.
Qed.

Lemma Builds_each {A} (f : A -> list XML.token) (g : A -> XML.Node) (l : list A) :
  (forall x, Builds (f x) [g x]) -> Builds (concat (f <$> l)) (g <$> l).
Proof.
  intros H. induction l as [|x l IH]; [apply Builds_nil|].
  cbn [fmap list_fmap concat]. by apply (Builds_app _ _ [g x]).
Qed.

(** The whole of a document: the tokens of the root element, between white
    space. *)
Lemma build_root (tag : string) (al : list (string * string))
      (toks : list XML.token) (nodes : list XML.Node)
      (before after : string) :
  Builds toks nodes ->
  XML.all_space before = true -> XML.all_space after = true ->
  XML.build (text_tok before
             ++ XML.TStart tag al :: toks ++ XML.TEnd tag :: text_tok after)%list
            [] None
  = Some (XML.Element tag al nodes).
Proof.
  intros H Hb Ha.
  assert (XML.build (XML.TStart tag al :: toks ++ XML.TEnd tag :: text_tok after)%list
                    [] None = Some (XML.Element tag al nodes)) as Hroot.
  { cbn [XML.build]. rewrite H. cbn [XML.build app]. rewrite String.eqb_refl.
    cbn [XML.add_node mbind option_bind]. unfold text_tok.
    destruct (PyStr.truthy after); [|done]. cbn [XML.build]. by rewrite Ha. }
  unfold text_tok at 1. destruct (PyStr.truthy before); [|exact Hroot].
  cbn [app XML.build]. by rewrite Hb.
Qed.

(** *** The text of the records and of the dates *)

Lemma plain_digit (n : nat) (s : string) :
  XML.plain (String (PyStr.digit n) s) = XML.plain s.
Proof.
  unfold PyStr.digit. pose proof (Nat.mod_upper_bound n 10) as H.
  destruct (n mod 10) as [|[|[|[|[|[|[|[|[|[|k]]]]]]]]]]; try reflexivity. lia.
Qed.

Lemma plain_pad2 (n : nat) : XML.plain (PyStr.pad2 n) = true.
Proof. unfold PyStr.pad2. by rewrite !plain_digit. Qed.

Lemma plain_pad4 (n : nat) : XML.plain (PyStr.pad4 n) = true.
Proof. unfold PyStr.pad4. rewrite !plain_digit. apply plain_pad2. Qed.

Lemma plain_day_abbr (w : nat) : XML.plain (PyDatetime.day_abbr w) = true.
Proof.
  unfold PyDatetime.day_abbr.
  do 7 (destruct w as [|w]; [reflexivity|]). by destruct w.
Qed.

Lemma plain_month_abbr (m : nat) : XML.plain (PyDatetime.month_abbr m) = true.
Proof.
  unfold PyDatetime.month_abbr. generalize (m - 1)%nat. intros k.
  do 12 (destruct k as [|k]; [reflexivity|]). by destruct k.
Qed.

Lemma plain_strftime (d : PyDatetime.datetime) :
  XML.plain (PyDatetime.strftime_rfc822 d) = true.
Proof.
  unfold PyDatetime.strftime_rfc822.
  rewrite !plain_app, plain_day_abbr, plain_month_abbr, !plain_pad2, plain_pad4.
  reflexivity.
Qed.

Lemma job_plain_fields (j : job) :
  XML.job_plain j = true ->
  XML.plain (title j) = true /\ XML.plain (link j) = true
  /\ XML.plain (Spec.description_of j) = true.
Proof.
  unfold XML.job_plain. rewrite !andb_true_iff. intros [[[Ht Hl] Hloc] Hd].
  split; [done|]. split; [done|]. unfold Spec.description_of.
  rewrite !plain_app, Hloc, Hd. reflexivity.
Qed.

(** *** The serialised feed, read by the parser *)

Lemma Scans_last (a b s : string) (toks : list XML.token) :
  Scans a s toks b -> Scans a (s ++ "") toks b.
Proof. by rewrite str_app_nil_r. Qed.

Lemma Scans_item (j : job) (now : PyDatetime.datetime) :
  XML.job_plain j = true ->
  Scans "" (XML.tostring (item_of j now)) (item_toks j now) "".
Proof.
  intros Hj. destruct (job_plain_fields j Hj) as (Ht & Hl & Hd).
  unfold item_of, item_toks. cbn [ET.SubElement ET.leaf app].
  apply (Scans_container "item" ∅ _ []); [by vm_compute | done |].
  cbn [fmap list_fmap XML.cat].
  apply (Scans_app "" "" "");
    [apply (Scans_leaf "title" ∅ (Some (title j)) []); [by vm_compute | exact Ht]|].
  apply (Scans_app "" "" "");
    [apply (Scans_leaf "link" ∅ (Some (link j)) []); [by vm_compute | exact Hl]|].
  apply (Scans_app "" "" "");
    [apply (Scans_leaf "description" ∅ (Some (Spec.description_of j)) []);
     [by vm_compute | exact Hd]|].
  apply (Scans_app "" "" "");
    [apply (Scans_leaf "pubDate" ∅ (Some (PyDatetime.strftime_rfc822 now)) []);
     [by vm_compute | apply plain_strftime]|].
  apply Scans_last.
  apply (Scans_leaf "guid" {[ "isPermaLink" := "true" ]} (Some (link j)) permalink);
    [by vm_compute | exact Hl].
Qed.

Lemma Builds_item (j : job) (now : PyDatetime.datetime) :
  Builds (item_toks j now) [item_node j now].
Proof.
  unfold item_toks, item_node. apply Builds_element.
  apply (Builds_app _ _ [_] [_; _; _; _]); [apply Builds_leaf|].
  apply (Builds_app _ _ [_] [_; _; _]); [apply Builds_leaf|].
  apply (Builds_app _ _ [_] [_; _]); [apply Builds_leaf|].
  apply (Builds_app _ _ [_] [_]); apply Builds_leaf.
Qed.

Lemma Scans_head (built : PyDatetime.datetime) :
  Scans "" (XML.cat (XML.tostring <$> View.channel_head built))
        (head_toks built) "".
Proof.
  unfold View.channel_head, head_toks. cbn [fmap list_fmap XML.cat].
  apply (Scans_app "" "" "");
    [apply (Scans_leaf "title" ∅ (Some "EBRD Job Vacancies") []); by vm_compute|].
  apply (Scans_app "" "" "");
    [apply (Scans_leaf "link" ∅ (Some SEARCH_URL) []); by vm_compute|].
  apply (Scans_app "" "" "");
    [apply (Scans_leaf "description" ∅
              (Some "Current job opportunities at the European Bank for Reconstruction and Development")
              []); by vm_compute|].
  apply (Scans_app "" "" "");
    [apply (Scans_leaf "language" ∅ (Some "en") []); by vm_compute|].
  apply (Scans_app "" "" "");
    [apply (Scans_leaf "lastBuildDate" ∅
              (Some (PyDatetime.strftime_rfc822 built)) []);
     [by vm_compute | apply plain_strftime]|].
  apply Scans_last.
  apply (Scans_leaf "atom:link" (ET.attrib atom_link) None atom_attrs);
    by vm_compute.
Qed.

Lemma Builds_head (built : PyDatetime.datetime) :
  Builds (head_toks built) (head_nodes built).
Proof.
  unfold head_toks, head_nodes.
  apply (Builds_app _ _ [_] [_; _; _; _; _]); [apply Builds_leaf|].
  apply (Builds_app _ _ [_] [_; _; _; _]); [apply Builds_leaf|].
  apply (Builds_app _ _ [_] [_; _; _]); [apply Builds_leaf|].
  apply (Builds_app _ _ [_] [_; _]); [apply Builds_leaf|].
  apply (Builds_app _ _ [_] [_]); apply Builds_leaf.
Qed.

Lemma Scans_feed (built : PyDatetime.datetime)
      (jts : list (job * PyDatetime.datetime)) :
  Forall (fun jt => XML.job_plain jt.1 = true) jts ->
  Scans "" (XML.tostring (Spec.feed_document built (uncurry item_of <$> jts)))
        (XML.TStart "rss" rss_attrs
         :: (XML.TStart "channel" [] :: feed_toks built jts ++ [XML.TEnd "channel"])
         ++ [XML.TEnd "rss"]) "".
Proof.
  intros Hj. unfold Spec.feed_document.
  apply (Scans_container "rss"
           (<["version" := "2.0"]> {[ "xmlns:atom" := "http://www.w3.org/2005/Atom" ]})
           _ rss_attrs); [by vm_compute | done |].
  cbn [fmap list_fmap XML.cat]. apply Scans_last.
  apply (Scans_container "channel" ∅ _ []); [by vm_compute | done |].
  rewrite fmap_app, cat_app. apply (Scans_app "" "" ""); [apply Scans_head|].
  rewrite <- list_fmap_compose.
  apply (Scans_cat "" (XML.tostring ∘ uncurry item_of) (uncurry item_toks)).
  eapply Forall_impl; [exact Hj|]. intros [j now] H. by apply Scans_item.
Qed.

Lemma Builds_feed (built : PyDatetime.datetime)
      (jts : list (job * PyDatetime.datetime)) :
  Builds (feed_toks built jts) (head_nodes built ++ (uncurry item_node <$> jts)).
Proof.
  apply Builds_app; [apply Builds_head|].
  apply Builds_each. intros [j now]. apply Builds_item.
Qed.

Lemma prefixes_bound_element (scope : string -> bool) (t : string)
      (a : list (string * string)) (cs : list XML.Node) :
  XML.prefixes_bound scope (XML.Element t a cs)
  = forallb (fun name =>
               match Spec.prefix_of name with
               | None => true
               | Some p =>
                   String.eqb p "xml" || String.eqb p "xmlns"
                   || bool_decide (("xmlns:" ++ p) ∈ a.*1) || scope p
               end) (t :: a.*1)
    && forallb (XML.prefixes_bound
                  (fun p => String.eqb p "xml" || String.eqb p "xmlns"
                            || bool_decide (("xmlns:" ++ p) ∈ a.*1) || scope p))
               cs.
Proof. reflexivity. Qed.

Lemma prefixes_bound_leaf (scope : string -> bool) (tag : string)
      (al : list (string * string)) (x : string) :
  XML.prefixes_bound scope (XML.Element tag al (text_nodes x))
  = XML.prefixes_bound scope (XML.Element tag al []).
Proof.
  rewrite !prefixes_bound_element. f_equal.
  unfold text_nodes. by destruct (PyStr.truthy x).
Qed.

Lemma prefixes_bound_item (scope : string -> bool) (j : job)
      (now : PyDatetime.datetime) :
  XML.prefixes_bound scope (item_node j now) = true.
Proof.
  unfold item_node. rewrite prefixes_bound_element. cbn [forallb].
  rewrite !prefixes_bound_leaf. reflexivity.
Qed.

Lemma prefixes_bound_items (scope : string -> bool)
      (jts : list (job * PyDatetime.datetime)) :
  forallb (XML.prefixes_bound scope) (uncurry item_node <$> jts) = true.
Proof.
  induction jts as [|[j now] r IH]; [done|].
  cbn [fmap list_fmap forallb uncurry]. by rewrite prefixes_bound_item, IH.
Qed.

Lemma prefixes_bound_feed (built : PyDatetime.datetime)
      (jts : list (job * PyDatetime.datetime)) :
  XML.prefixes_bound (fun _ => false) (feed_node built jts) = true.
Proof.
  unfold feed_node. rewrite prefixes_bound_element. cbn [forallb].
  rewrite prefixes_bound_element, forallb_app, prefixes_bound_items.
  unfold head_nodes. cbn [forallb]. rewrite !prefixes_bound_leaf.
  by vm_compute.
Qed.

(** The parser reads the serialised feed of plain records as this
    document. *)
Lemma parseString_feed (built : PyDatetime.datetime)
      (jts : list (job * PyDatetime.datetime)) :
  Forall (fun jt => XML.job_plain jt.1 = true) jts ->
  XML.parseString
    (XML.tostring (Spec.feed_document built (uncurry item_of <$> jts)))
  = Some (feed_node built jts).
Proof.
  intros Hj. unfold XML.parseString.
  rewrite (Scans_all _ "" _ (Scans_feed built jts Hj) eq_refl).
  cbn [mbind option_bind text_tok PyStr.truthy app].
  rewrite app_nil_r.
  pose proof (build_root "rss" rss_attrs _ _ "" ""
                (Builds_element "channel" [] _ _ (Builds_feed built jts))
                eq_refl eq_refl) as H.
  cbn [text_tok PyStr.truthy app] in H. rewrite H.
  cbn [mbind option_bind]. fold (feed_node built jts).
  by rewrite prefixes_bound_feed.
Qed.

(** *** The pretty-printer *)

Lemma writexml_element (ind add newl tag : string)
      (al : list (string * string)) (cs : list XML.Node) :
  XML.writexml ind add newl (XML.Element tag al cs)
  = ind ++ "<" ++ tag ++ XML.write_dom_attrs al
    ++ match cs with
       | [] => "/>" ++ newl
       | [XML.Text data] =>
           ">" ++ XML.write_data data false ++ "</" ++ tag ++ ">" ++ newl
       | _ =>
           ">" ++ newl
           ++ XML.cat (XML.writexml (ind ++ add) add newl <$> cs)
           ++ ind ++ "</" ++ tag ++ ">" ++ newl
       end.
Proof.
  assert (forall l,
             (fix go (l : list XML.Node) : string :=
                match l with
                | [] => ""
                | c :: r => XML.writexml (ind ++ add) add newl c ++ go r
                end) l
             = XML.cat (XML.writexml (ind ++ add) add newl <$> l)) as H.
  { induction l as [|c r IH]; [done|]. cbn [fmap list_fmap XML.cat]. by rewrite IH. }
  cbn [XML.writexml].
  destruct cs as [|[t a c|d] [|c' r]]; try reflexivity; by rewrite H.
Qed.

Lemma Scans_pretty_leaf (ind tag : string) (al : list (string * string))
      (x : string) :
  dom_tags_read tag (XML.write_dom_attrs al) al = true ->
  indentation ind = true ->
  XML.plain x = true ->
  Scans LFs (XML.writexml ind "  " LFs (XML.Element tag al (text_nodes x)))
        (pretty_leaf_toks ind tag al x) LFs.
Proof.
  unfold dom_tags_read, indentation. rewrite !andb_true_iff, String.eqb_eq.
  intros [[H1 H2] H3] [Hi Hp] Hx.
  assert (XML.plain (LFs ++ ind) = true) as Hp' by (by rewrite plain_app, Hp).
  rewrite writexml_element. unfold pretty_leaf_toks, leaf_toks, text_nodes.
  destruct (PyStr.truthy x) eqn:Ht.
  - eapply Scans_eq.
    + eapply Scans_app; [apply (Scans_text LFs ind)|].
      eapply Scans_app; [apply (Scans_markup _ _ _ Hp' H1)|].
      eapply Scans_app; [apply (Scans_text "" x)|].
      eapply Scans_app; [apply (Scans_markup _ _ _ Hx H3)|].
      apply (Scans_text "" LFs).
    + rewrite Hi, !str_app_assoc. reflexivity.
    + change ("" ++ x) with x. unfold text_tok. rewrite Ht. reflexivity.
  - eapply Scans_eq.
    + eapply Scans_app; [apply (Scans_text LFs ind)|].
      eapply Scans_app; [apply (Scans_markup _ _ _ Hp' H2)|].
      apply (Scans_text "" LFs).
    + rewrite Hi, !str_app_assoc. reflexivity.
    + reflexivity.
Qed.

Lemma Scans_pretty_container (ind tag : string) (al : list (string * string))
      (cs : list XML.Node) (toks : list XML.token) :
  dom_tags_read tag (XML.write_dom_attrs al) al = true ->
  indentation ind = true ->
  match cs with XML.Element _ _ _ :: _ => True | _ => False end ->
  Scans LFs (XML.cat (XML.writexml (ind ++ "  ") "  " LFs <$> cs)) toks LFs ->
  Scans LFs (XML.writexml ind "  " LFs (XML.Element tag al cs))
        (XML.TText (LFs ++ ind) :: XML.TStart tag al
         :: toks ++ [XML.TText (LFs ++ ind); XML.TEnd tag]) LFs.
Proof.
  unfold dom_tags_read, indentation. rewrite !andb_true_iff, String.eqb_eq.
  intros [[H1 H2] H3] [Hi Hp] Hcs Htoks.
  assert (XML.plain (LFs ++ ind) = true) as Hp' by (by rewrite plain_app, Hp).
  rewrite writexml_element. destruct cs as [|[t a c|d] r]; try done.
  eapply Scans_eq.
  - eapply Scans_app; [apply (Scans_text LFs ind)|].
    eapply Scans_app; [apply (Scans_markup _ _ _ Hp' H1)|].
    eapply Scans_app; [apply (Scans_text "" LFs)|].
    eapply Scans_app; [exact Htoks|].
    eapply Scans_app; [apply (Scans_text LFs ind)|].
    eapply Scans_app; [apply (Scans_markup _ _ _ Hp' H3)|].
    apply (Scans_text "" LFs).
  - rewrite Hi, !str_app_assoc. reflexivity.
  - cbn [app]. rewrite app_nil_r. reflexivity.
Qed.

Lemma Builds_pretty_leaf (ind tag : string) (al : list (string * string))
      (x : string) :
  Builds (pretty_leaf_toks ind tag al x) (pretty_leaf ind tag al x).
Proof.
  apply (Builds_app [_] _ [_] [_]); [apply Builds_text | apply Builds_leaf].
Qed.

Lemma Builds_pretty_container (ind tag : string) (al : list (string * string))
      (toks : list XML.token) (nodes : list XML.Node) :
  Builds toks nodes ->
  Builds (XML.TText (LFs ++ ind) :: XML.TStart tag al
          :: toks ++ [XML.TText (LFs ++ ind); XML.TEnd tag])
         [XML.Text (LFs ++ ind);
          XML.Element tag al (nodes ++ [XML.Text (LFs ++ ind)])].
Proof.
  intros H. apply (Builds_app [_] _ [_] [_]); [apply Builds_text|].
  replace (toks ++ [XML.TText (LFs ++ ind); XML.TEnd tag])%list
    with ((toks ++ [XML.TText (LFs ++ ind)]) ++ [XML.TEnd tag])%list
    by (by rewrite <- app_assoc).
  apply Builds_element, Builds_app; [exact H | apply Builds_text].
Qed.

(** *** The pretty-printed feed, read by the parser *)

Lemma Scans_pretty_item (j : job) (now : PyDatetime.datetime) :
  XML.job_plain j = true ->
  Scans LFs (XML.writexml "    " "  " LFs (item_node j now))
        (pretty_item_toks j now) LFs.
Proof.
  intros Hj. destruct (job_plain_fields j Hj) as (Ht & Hl & Hd).
  unfold item_node, pretty_item_toks.
  apply Scans_pretty_container; [by vm_compute | by vm_compute | done |].
  change ("    " ++ "  ") with "      ". cbn [fmap list_fmap XML.cat].
  apply (Scans_app LFs LFs LFs);
    [apply Scans_pretty_leaf; [by vm_compute | by vm_compute | exact Ht]|].
  apply (Scans_app LFs LFs LFs);
    [apply Scans_pretty_leaf; [by vm_compute | by vm_compute | exact Hl]|].
  apply (Scans_app LFs LFs LFs);
    [apply Scans_pretty_leaf; [by vm_compute | by vm_compute | exact Hd]|].
  apply (Scans_app LFs LFs LFs);
    [apply Scans_pretty_leaf;
     [by vm_compute | by vm_compute | apply plain_strftime]|].
  apply Scans_last.
  apply Scans_pretty_leaf; [by vm_compute | by vm_compute | exact Hl].
Qed.

Lemma Builds_pretty_item (j : job) (now : PyDatetime.datetime) :
  Builds (pretty_item_toks j now) (pretty_item j now).
Proof.
  unfold pretty_item_toks, pretty_item. apply Builds_pretty_container.
  repeat (apply Builds_app; [apply Builds_pretty_leaf|]).
  apply Builds_pretty_leaf.
Qed.

Lemma Scans_pretty_head (built : PyDatetime.datetime) :
  Scans LFs (XML.cat (XML.writexml "    " "  " LFs <$> head_nodes built))
        (pretty_head_toks built) LFs.
Proof.
  unfold head_nodes, pretty_head_toks. cbn [fmap list_fmap XML.cat].
  do 4 (apply (Scans_app LFs LFs LFs);
        [apply Scans_pretty_leaf; by vm_compute|]).
  apply (Scans_app LFs LFs LFs);
    [apply Scans_pretty_leaf;
     [by vm_compute | by vm_compute | apply plain_strftime]|].
  apply Scans_last. apply Scans_pretty_leaf; by vm_compute.
Qed.

Lemma Builds_pretty_head (built : PyDatetime.datetime) :
  Builds (pretty_head_toks built) (pretty_head built).
Proof.
  unfold pretty_head_toks, pretty_head.
  repeat (apply Builds_app; [apply Builds_pretty_leaf|]).
  apply Builds_pretty_leaf.
Qed.

Lemma Scans_pretty_feed (built : PyDatetime.datetime)
      (jts : list (job * PyDatetime.datetime)) :
  Forall (fun jt => XML.job_plain jt.1 = true) jts ->
  Scans "" (XML.toprettyxml "  " (feed_node built jts))
        (XML.TDecl :: XML.TText (LFs ++ "") :: XML.TStart "rss" rss_attrs
         :: ([XML.TText (LFs ++ "  "); XML.TStart "channel" []]
             ++ pretty_channel_toks built jts
             ++ [XML.TText (LFs ++ "  "); XML.TEnd "channel"])
         ++ [XML.TText (LFs ++ ""); XML.TEnd "rss"]) LFs.
Proof.
  intros Hj.
  assert (Scans LFs (XML.writexml "" "  " LFs (feed_node built jts))
            (XML.TText (LFs ++ "") :: XML.TStart "rss" rss_attrs
             :: ([XML.TText (LFs ++ "  "); XML.TStart "channel" []]
                 ++ pretty_channel_toks built jts
                 ++ [XML.TText (LFs ++ "  "); XML.TEnd "channel"])
             ++ [XML.TText (LFs ++ ""); XML.TEnd "rss"]) LFs) as Hroot.
  { unfold feed_node.
    apply Scans_pretty_container; [by vm_compute | by vm_compute | done |].
    change ("" ++ "  ") with "  ". cbn [fmap list_fmap XML.cat app].
    apply Scans_last.
    apply Scans_pretty_container; [by vm_compute | by vm_compute | done |].
    change ("  " ++ "  ") with "    ".
    rewrite fmap_app, cat_app.
    apply (Scans_app LFs LFs LFs); [apply Scans_pretty_head|].
    rewrite <- list_fmap_compose.
    apply (Scans_cat LFs (XML.writexml "    " "  " LFs ∘ uncurry item_node)
             (uncurry pretty_item_toks)).
    eapply Forall_impl; [exact Hj|]. intros [j now] H.
    by apply Scans_pretty_item. }
  eapply Scans_eq.
  - eapply Scans_app; [apply (Scans_markup "" declaration XML.TDecl);
                       [reflexivity | by vm_compute]|].
    eapply Scans_app; [apply (Scans_text "" LFs)|]. exact Hroot.
  - unfold XML.toprettyxml, declaration. rewrite !str_app_assoc. reflexivity.
  - reflexivity.
Qed.

Lemma Builds_pretty_channel (built : PyDatetime.datetime)
      (jts : list (job * PyDatetime.datetime)) :
  Builds (pretty_channel_toks built jts) (pretty_channel built jts).
Proof.
  apply Builds_app; [apply Builds_pretty_head|].
  apply Builds_concat. intros [j now]. apply Builds_pretty_item.
Qed.

Lemma prefixes_bound_pretty_leaf (scope : string -> bool) (ind tag : string)
      (al : list (string * string)) (x : string) (r : list XML.Node) :
  forallb (XML.prefixes_bound scope) (pretty_leaf ind tag al x ++ r)
  = XML.prefixes_bound scope (XML.Element tag al [])
    && forallb (XML.prefixes_bound scope) r.
Proof.
  unfold pretty_leaf. cbn [app forallb]. by rewrite prefixes_bound_leaf.
Qed.

Lemma prefixes_bound_pretty_item (scope : string -> bool) (j : job)
      (now : PyDatetime.datetime) :
  forallb (XML.prefixes_bound scope) (pretty_item j now) = true.
Proof.
  unfold pretty_item. cbn [forallb]. rewrite prefixes_bound_element.
  rewrite <- !app_assoc, !prefixes_bound_pretty_leaf. reflexivity.
Qed.

Lemma prefixes_bound_pretty_items (scope : string -> bool)
      (jts : list (job * PyDatetime.datetime)) (r : list XML.Node) :
  forallb (XML.prefixes_bound scope) (concat (uncurry pretty_item <$> jts) ++ r)
  = forallb (XML.prefixes_bound scope) r.
Proof.
  induction jts as [|[j now] l IH]; [done|].
  cbn [fmap list_fmap concat uncurry].
  by rewrite <- app_assoc, forallb_app, prefixes_bound_pretty_item, IH.
Qed.

Lemma prefixes_bound_pretty_feed (built : PyDatetime.datetime)
      (jts : list (job * PyDatetime.datetime)) :
  XML.prefixes_bound (fun _ => false) (pretty_feed_node built jts) = true.
Proof.
  unfold pretty_feed_node. rewrite prefixes_bound_element. cbn [app forallb].
  rewrite prefixes_bound_element. unfold pretty_channel, pretty_head.
  rewrite <- !app_assoc, !prefixes_bound_pretty_leaf, prefixes_bound_pretty_items.
  by vm_compute.
Qed.

(** The parser reads the pretty-printed feed of plain records as this
    document. *)
Lemma parseString_pretty_feed (built : PyDatetime.datetime)
      (jts : list (job * PyDatetime.datetime)) :
  Forall (fun jt => XML.job_plain jt.1 = true) jts ->
  XML.parseString (XML.toprettyxml "  " (feed_node built jts))
  = Some (pretty_feed_node built jts).
Proof.
  intros Hj. unfold XML.parseString.
  rewrite (Scans_all _ LFs _ (Scans_pretty_feed built jts Hj) eq_refl).
  cbn [mbind option_bind app].
  pose proof (build_root "rss" rss_attrs _ _ (LFs ++ "") LFs
                (Builds_app _ _ _ _
                   (Builds_pretty_container "  " "channel" [] _ _
                      (Builds_pretty_channel built jts))
                   (Builds_text (LFs ++ "")))
                eq_refl eq_refl) as H.
  change (text_tok (LFs ++ "")) with [XML.TText (LFs ++ "")] in H.
  cbn [app] in H. rewrite <- !app_assoc in H. cbn [app] in H.
  rewrite <- !app_assoc. cbn [app]. rewrite H. cbn [mbind option_bind].
  pose proof (prefixes_bound_pretty_feed built jts) as Hp.
  unfold pretty_feed_node in *. by rewrite Hp.
Qed.

(** *** The element tree of the pretty-printed feed *)

Lemma elements_of_element (t : string) (a : list (string * string))
      (cs : list XML.Node) :
  XML.elements_of (XML.Element t a cs)
  = [ET.mkElement t (list_to_map a)
       (match cs with
        | XML.Text d :: _ => Some d
        | _ => None
        end)
       (flat_map XML.elements_of cs)].
Proof.
  reflexivity.
Qed.

Lemma flat_map_pretty_leaf (ind tag : string) (al : list (string * string))
      (x : string) :
  flat_map XML.elements_of (pretty_leaf ind tag al x) = [leaf_back tag al x].
Proof.
  unfold pretty_leaf, leaf_back, text_nodes. cbn [flat_map].
  rewrite elements_of_element. by destruct (PyStr.truthy x).
Qed.

Lemma flat_map_pretty_item (j : job) (now : PyDatetime.datetime) :
  flat_map XML.elements_of (pretty_item j now) = [item_back j now].
Proof.
  unfold pretty_item, item_back. cbn [flat_map].
  rewrite elements_of_element, !flat_map_app, !flat_map_pretty_leaf.
  reflexivity.
Qed.

Lemma flat_map_pretty_items (jts : list (job * PyDatetime.datetime)) :
  flat_map XML.elements_of (concat (uncurry pretty_item <$> jts))
  = uncurry item_back <$> jts.
Proof.
  induction jts as [|[j now] r IH]; [done|].
  cbn [fmap list_fmap concat uncurry].
  by rewrite flat_map_app, flat_map_pretty_item, IH.
Qed.

Lemma elements_of_pretty_feed (built : PyDatetime.datetime)
      (jts : list (job * PyDatetime.datetime)) :
  XML.elements_of (pretty_feed_node built jts) = [feed_back built jts].
Proof.
  unfold pretty_feed_node, feed_back. rewrite elements_of_element.
  cbn [flat_map]. rewrite elements_of_element.
  unfold pretty_channel, pretty_head.
  rewrite !flat_map_app, !flat_map_pretty_leaf, flat_map_pretty_items.
  cbn [flat_map XML.elements_of app]. by rewrite app_nil_r.
Qed.

Lemma iter_feed_back (built : PyDatetime.datetime)
      (jts : list (job * PyDatetime.datetime)) :
  ET.iter (feed_back built jts) "item" = uncurry item_back <$> jts.
Proof.
  unfold feed_back. rewrite iter_unfold. cbn [ET.tag ET.children flat_map].
  rewrite decide_False by done. rewrite app_nil_r, app_nil_l, iter_unfold.
  cbn [ET.tag ET.children]. rewrite decide_False by done.
  rewrite app_nil_l, flat_map_app.
  assert (flat_map (fun c => ET.iter c "item") (head_back built) = []) as ->
    by reflexivity.
  rewrite app_nil_l. induction jts as [|[j now] r IH]; [done|].
  cbn [fmap list_fmap flat_map uncurry]. by rewrite IH.
Qed.

Lemma item_back_says (j : job) (now : PyDatetime.datetime) :
  item_says j (item_back j now).
Proof.
  unfold item_says, item_back, leaf_back.
  repeat split; destruct (title j), (link j); reflexivity.
Qed.

Lemma Forall2_zip_fmap {A B C} (P : A -> C -> Prop) (f : A * B -> C)
      (l : list A) (k : list B) :
  length k = length l ->
  (forall x y, P x (f (x, y))) ->
  Forall2 P l (f <$> zip l k).
Proof.
  intros Hlen HP. revert k Hlen.
  induction l as [|x l IH]; intros [|y k] Hlen; try done.
  cbn [zip zip_with fmap list_fmap]. constructor; [apply HP|].
  apply IH. simpl in Hlen. lia.
Qed.

Lemma Forall_zip_fst {A B} (P : A -> Prop) (l : list A) (k : list B) :
  Forall P l -> Forall (fun p => P p.1) (zip l k).
Proof.
  intros H. revert k. induction H as [|x l Hx _ IH]; intros [|y k];
    try (by constructor).
Qed.


(** The feed for plain records, from the element tree to the text and back:
    the parser reads the serialised feed, the pretty-printer writes the
    text, and the text parsed back holds one item for each record, in
    order, which says what the record says. *)
Lemma feed_read_back (built : PyDatetime.datetime) (jobs : list job)
      (times : list PyDatetime.datetime) :
  length times = length jobs ->
  Forall (fun j => XML.job_plain j = true) jobs ->
  exists (xml : string) (doc : ET.Element),
    XML.reparse_pretty
      (XML.tostring (Spec.feed_document built (Spec.items_of jobs times)))
    = Some xml
    /\ XML.fromstring xml = Some doc
    /\ Forall2 item_says jobs (ET.iter doc "item").
Proof.
  intros Hlen Hj. unfold Spec.items_of. rewrite zip_with_zip.
  pose proof (Forall_zip_fst _ jobs times Hj) as Hjts.
  exists (XML.toprettyxml "  " (feed_node built (zip jobs times))),
         (feed_back built (zip jobs times)).
  split; [|split].
  - unfold XML.reparse_pretty. by rewrite parseString_feed.
  - unfold XML.fromstring. rewrite parseString_pretty_feed by done.
    cbn [mbind option_bind]. by rewrite elements_of_pretty_feed.
  - rewrite iter_feed_back.
    apply (Forall2_zip_fmap item_says (uncurry item_back)); [done|].
    intros j now. apply item_back_says.
Qed.

Section FeedText.

Variable utc_clock : nat -> PyDatetime.datetime.


End FeedText.



(** ** Quiet computations *)

Lemma same_files_refl (w : world) : same_files w w.
Proof. by intros f _. Qed.

Lemma same_files_trans (w1 w2 w3 : world) :
  same_files w1 w2 -> same_files w2 w3 -> same_files w1 w3.
Proof. intros H12 H23 f Hf. by rewrite H23, H12. Qed.

Lemma quiet_ret {A} (a : A) : quiet (mret a).
Proof. intros w. split; [done|]. split; [by intros f _ | done]. Qed.

Lemma quiet_raise {A} (e : exn) : quiet (@raise A e).
Proof. intros w. split; [done|]. split; [by intros f _ | done]. Qed.

Lemma quiet_print (m : log_msg) : quiet (print m).
Proof. intros w. split; [done|]. split; [by intros f _ | done]. Qed.

Lemma quiet_set_driver (b : bool) : quiet (set_driver b).
Proof. intros w. split; [done|]. split; [by intros f _ | done]. Qed.

Lemma quiet_write_dump (content : string) :
  quiet (write_file "debug_page.html" content).
Proof.
  intros w. split; [done|]. split; [|done].
  intros f Hf. unfold exec, write_file. simpl. by rewrite lookup_insert_ne.
Qed.

Lemma quiet_bind {A B} (m : M A) (f : A -> M B) :
  quiet m -> (forall a, quiet (f a)) -> quiet (m ≫= f).
Proof.
  intros Hm Hf w. destruct (Hm w) as (Hc & Hfile & Hv).
  unfold exec, eval in *. rewrite bind_run.
  destruct (m w) as [[a|e] w1] eqn:Hmw; simpl in *.
  - destruct (Hf a w1) as (Hc1 & Hfile1 & Hv1). unfold exec, eval in *.
    repeat split; [congruence | by eapply same_files_trans |].
    intros w'. rewrite bind_run. specialize (Hv w').
    destruct (m w') as [[a'|e'] w1']; simpl in *; [|done].
    injection Hv as ->. apply Hv1.
  - repeat split; [done | done |].
    intros w'. rewrite bind_run. specialize (Hv w').
    destruct (m w') as [[a'|e'] w1']; simpl in *; [done|]. congruence.
Qed.

Lemma quiet_try_except {A} (body : M A) (handler : exn -> M A) :
  quiet body -> (forall e, quiet (handler e)) -> quiet (try_except body handler).
Proof.
  intros Hm Hf w. destruct (Hm w) as (Hc & Hfile & Hv).
  unfold exec, eval, try_except in *.
  destruct (body w) as [[a|e] w1] eqn:Hmw; simpl in *.
  - repeat split; [done | done |].
    intros w'. specialize (Hv w').
    destruct (body w') as [[a'|e'] w1']; simpl in *; [done|done].
  - destruct (Hf e w1) as (Hc1 & Hfile1 & Hv1). unfold exec, eval in *.
    repeat split; [congruence | by eapply same_files_trans |].
    intros w'. specialize (Hv w').
    destruct (body w') as [[a'|e'] w1']; simpl in *; [done|].
    injection Hv as ->. apply Hv1.
Qed.

Lemma quiet_try_finally {A} (body : M A) (fin : M unit) :
  quiet body -> quiet fin -> quiet (try_finally body fin).
Proof.
  intros Hm Hf w. destruct (Hm w) as (Hc & Hfile & Hv).
  unfold exec, eval, try_finally in *.
  destruct (body w) as [r w1] eqn:Hmw; simpl in *.
  destruct (Hf w1) as (Hc1 & Hfile1 & Hv1). unfold exec, eval in *.
  repeat split.
  - destruct (fin w1) as [[u|e] w2]; simpl in *; congruence.
  - destruct (fin w1) as [[u|e] w2]; simpl in *; by eapply same_files_trans.
  - intros w'. specialize (Hv w').
    destruct (body w') as [r' w1']; simpl in *. subst r'.
    specialize (Hv1 w1').
    destruct (fin w1) as [[u|e] w2], (fin w1') as [[u'|e'] w2'];
      simpl in *; congruence.
Qed.

Lemma quiet_for_each {A B} (body : A -> B -> M A) (xs : list B) :
  (forall a x, quiet (body a x)) -> forall a, quiet (for_each body a xs).
Proof.
  intros Hb. induction xs as [|x r IH]; intros a; simpl.
  - apply quiet_ret.
  - apply quiet_bind; [apply Hb | apply IH].
Qed.

Create HintDb quiet.
#[local] Hint Resolve quiet_ret quiet_raise quiet_print quiet_set_driver
  quiet_write_dump quiet_bind quiet_try_except quiet_try_finally quiet_for_each : quiet.

(** ** The extractor *)

Lemma quiet_as_str (v : bs4.attr_value) : quiet (as_str v).
Proof. destruct v; simpl; auto with quiet. Qed.

Lemma quiet_row_body (all_jobs : list job) (row : bs4.node) :
  quiet (row_body all_jobs row).
Proof.
  unfold row_body. destruct (bs4.find row "a"); [|auto with quiet].
  apply quiet_bind; [apply quiet_as_str|]. intros href.
  match goal with |- quiet (if ?c then _ else _) => destruct c end;
    auto with quiet.
Qed.

Lemma quiet_row_step (all_jobs : list job) (row : bs4.node) :
  quiet (row_step all_jobs row).
Proof.
  unfold row_step. apply quiet_try_except; [apply quiet_row_body|].
  intros e. auto with quiet.
Qed.

(** What one turn of the row loop does: it leaves the list as it is, with or
    without a line about an error, or it appends the record made from the
    row. *)
Lemma row_step_cases (all_jobs : list job) (row : bs4.node) (w : world) :
  (exists w', row_step all_jobs row w = (Return all_jobs, w'))
  \/ (exists j, Spec.made_from row j
               /\ row_step all_jobs row w = (Return (all_jobs ++ [j])%list, w)).
Proof.
  unfold row_step, try_except, row_body.
  destruct (bs4.find row "a") as [a|] eqn:Ha; [|left; by eexists].
  rewrite bind_run.
  destruct (bs4.get_default a "href" (bs4.AttrStr "")) as [href|l] eqn:Hh;
    simpl; [|left; by eexists].
  rewrite make_absolute_truthy. simpl.
  destruct (PyStr.truthy (bs4.get_text_strip a)) eqn:Ht; simpl.
  - destruct (String.eqb (bs4.get_text_strip a) "") eqn:He.
    + left. by eexists.
    + right. eexists. split; [|reflexivity].
      exists a, href. by repeat split.
  - left. by eexists.
Qed.

(** The row loop always returns; what it returns is the list it started
    from, followed by records each made from one of the rows. *)
Lemma for_each_row_step (rows : list bs4.node) (acc : list job) (w : world) :
  exists (new : list job) (w' : world),
    for_each row_step acc rows w = (Return (acc ++ new)%list, w')
    /\ Forall (fun j => exists row, row ∈ rows /\ Spec.made_from row j) new.
Proof.
  revert acc w. induction rows as [|row r IH]; intros acc w; simpl.
  - exists [], w. by rewrite app_nil_r.
  - rewrite bind_run.
    destruct (row_step_cases acc row w) as [[w1 H]|(j & Hj & H)]; rewrite H.
    + destruct (IH acc w1) as (new & w' & Hrun & Hnew).
      exists new, w'. split; [done|].
      eapply Forall_impl; [exact Hnew|]. intros j (row' & Hin & Hm).
      exists row'. split; [by apply list_elem_of_further | done].
    + destruct (IH (acc ++ [j])%list w) as (new & w' & Hrun & Hnew).
      exists (j :: new), w'. split.
      * rewrite Hrun. by rewrite <- app_assoc.
      * constructor.
        -- exists row. split; [apply list_elem_of_here | done].
        -- eapply Forall_impl; [exact Hnew|]. intros j' (row' & Hin & Hm).
           exists row'. split; [by apply list_elem_of_further | done].
Qed.

Section Extractor.

Variable chrome : browser.
Variable html_parser : string -> bs4.node.

Lemma quiet_fetch : quiet (fetch_jobs_with_selenium chrome html_parser).
Proof.
  unfold fetch_jobs_with_selenium, setup_driver, driver_get, wait_for_marker.
  apply quiet_bind; [auto with quiet|]. intros _.
  apply quiet_bind; [destruct (starts chrome); auto with quiet|]. intros _.
  apply quiet_try_finally; [|auto with quiet].
  apply quiet_bind; [auto with quiet|]. intros _.
  apply quiet_bind; [destruct (navigates chrome); auto with quiet|]. intros _.
  apply quiet_bind; [auto with quiet|]. intros _.
  apply quiet_bind.
  { apply quiet_try_except; [|auto with quiet].
    apply quiet_bind; [destruct (marker_appears chrome)|]; auto with quiet. }
  intros _.
  apply quiet_bind; [apply quiet_write_dump|]. intros _.
  apply quiet_bind; [auto with quiet|]. intros _.
  destruct (bs4.find_class _ _ _).
  - apply quiet_bind; [auto with quiet|]. intros _.
    apply quiet_bind; [auto with quiet|]. intros _.
    apply quiet_for_each. apply quiet_row_step.
  - apply quiet_bind; [auto with quiet|]. intros _.
    apply quiet_bind; [auto with quiet|]. intros _.
    apply quiet_bind; [|auto with quiet].
    destruct (bs4.find_all _ _); auto with quiet.
Qed.

(** Every record of a list returned by the extractor is made from one of
    the rows selected in the results table. *)
Lemma fetch_made_from (w : world) (jobs : list job) :
  eval (fetch_jobs_with_selenium chrome html_parser) w = Return jobs ->
  Forall (fun j => exists table row,
            bs4.find_class (html_parser (page_source chrome))
                           "table" "searchResults" = Some table
            /\ row ∈ select_rows table /\ Spec.made_from row j) jobs.
Proof.
  unfold eval, fetch_jobs_with_selenium, setup_driver, driver_get, wait_for_marker.
  destruct (starts chrome); [|by run_M].
  destruct (navigates chrome); [|by run_M].
  destruct (bs4.find_class _ _ _) as [table|] eqn:Ht.
  - destruct (marker_appears chrome); run_M;
      match goal with
      | |- context [for_each row_step [] ?rows ?w1] =>
          destruct (for_each_row_step rows [] w1) as (new & w2 & -> & Hnew)
      end; simpl; intros [= <-];
      (eapply Forall_impl; [exact Hnew|]);
      intros j (row & Hin & Hm); by exists table, row.
  - destruct (marker_appears chrome), (bs4.find_all _ _); run_M; simpl;
      intros [= <-]; constructor.
Qed.

(** C9: when the browser starts and loads the page and the document has no
    table of class [searchResults], the extractor returns the empty list and
    raises nothing; it prints the error line, the number of tables in the
    document and, when there is a table, the class of each one. *)
Theorem fetch_without_results_table (w : world) :
  starts chrome = true ->
  navigates chrome = true ->
  bs4.find_class (html_parser (page_source chrome)) "table" "searchResults" = None ->
  let all_tables := bs4.find_all (html_parser (page_source chrome)) "table" in
  eval (fetch_jobs_with_selenium chrome html_parser) w = Return []
  /\ console (exec (fetch_jobs_with_selenium chrome html_parser) w)
     = (console w
        ++ [Line "Starting Chrome browser (headless mode)...";
            Line "Loading EBRD jobs page...";
            Line "Waiting for page content to load...";
            if marker_appears chrome
            then Line "[OK] Job listings table found"
            else WarnTimeout TimeoutException;
            Line "[OK] Saved debug HTML to debug_page.html";
            Line "ERROR: Could not find job listings table";
            FoundTables (length all_tables)]
        ++ match all_tables with
           | [] => []
           | _ => [TableClasses (map (fun t => bs4.get t "class") all_tables)]
           end
        ++ [Line "[OK] Browser closed"])%list.
Proof.
  intros Hs Hn Ht all_tables. subst all_tables.
  unfold eval, exec, fetch_jobs_with_selenium, setup_driver, driver_get,
    wait_for_marker.
  rewrite Hs, Hn, Ht.
  destruct (marker_appears chrome), (bs4.find_all _ _); run_M; simpl;
    (split; [reflexivity|]); by rewrite <- !app_assoc.
Qed.

End Extractor.

(** ** Rows, records and the extractor *)

Lemma made_from_title_link (row : bs4.node) (j : job) :
  Spec.made_from row j -> title j <> "" /\ link j <> "".
Proof.
  intros (a & href & _ & _ & Ht & ->). simpl. split.
  - by apply truthy_iff.
  - apply truthy_iff, make_absolute_truthy.
Qed.

Lemma row_step_eval_unchanged (all_jobs : list job) (row : bs4.node) (w : world) :
  (forall j, ~ Spec.made_from row j) ->
  eval (row_step all_jobs row) w = Return all_jobs.
Proof.
  intros Hno. unfold eval.
  destruct (row_step_cases all_jobs row w) as [[w' ->]|(j & Hj & _)]; [done|].
  by destruct (Hno j).
Qed.

(** C4: every record of a list returned by the extractor has a title and a
    link other than the empty string; and a row whose first hyperlink has no
    text left after stripping adds no record. *)
Theorem extracted_title_and_link_nonempty
        (chrome : browser) (html_parser : string -> bs4.node) (w : world) :
  (forall jobs,
      eval (fetch_jobs_with_selenium chrome html_parser) w = Return jobs ->
      Forall (fun j => title j <> "" /\ link j <> "") jobs)
  /\ (forall (row a : bs4.node) (all_jobs : list job),
         bs4.find row "a" = Some a ->
         bs4.get_text_strip a = "" ->
         eval (row_step all_jobs row) w = Return all_jobs).
Proof.
  split.
  - intros jobs H. apply fetch_made_from in H.
    eapply Forall_impl; [exact H|].
    intros j (table & row & _ & _ & Hm). by eapply made_from_title_link.
  - intros row a all_jobs Ha Ht. apply row_step_eval_unchanged.
    intros j (a' & href & Ha' & _ & Htr & _).
    rewrite Ha in Ha'. injection Ha' as <-. by rewrite Ht in Htr.
Qed.

Lemma extracted_title_and_link_nonempty_witness :
  Forall (fun j => title j <> "" /\ link j <> "")
         [Fixture.analyst; Fixture.banker]
  /\ eval (row_step [Fixture.analyst] Fixture.blank_row) Fixture.w0
     = Return [Fixture.analyst].
Proof.
  pose proof (extracted_title_and_link_nonempty
                Fixture.chrome_ok (Fixture.parser_of Fixture.results_page)
                Fixture.w0) as [H1 H2].
  split.
  - apply H1. vm_compute. reflexivity.
  - apply (H2 Fixture.blank_row Fixture.blank_anchor); vm_compute; reflexivity.
Defined.

(** C8: a row with no hyperlink is never turned into a record.  The turn of
    the loop for such a row leaves the list and the world as they are; when
    no row has the class [data-row], every row selected instead has a
    hyperlink; and every record the extractor returns has the text of the
    first hyperlink of a selected row for its title. *)
Theorem row_without_hyperlink_never_converted :
  (forall (row : bs4.node) (all_jobs : list job) (w : world),
      bs4.find row "a" = None ->
      row_step all_jobs row w = (Return all_jobs, w))
  /\ (forall table : bs4.node,
         bs4.find_all_class table "tr" "data-row" = [] ->
         Forall (fun row => is_Some (bs4.find row "a")) (select_rows table))
  /\ (forall (chrome : browser) (html_parser : string -> bs4.node)
             (w : world) (jobs : list job),
         eval (fetch_jobs_with_selenium chrome html_parser) w = Return jobs ->
         Forall (fun j => exists table row a,
                    bs4.find_class (html_parser (page_source chrome))
                                   "table" "searchResults" = Some table
                    /\ row ∈ select_rows table
                    /\ bs4.find row "a" = Some a
                    /\ title j = bs4.get_text_strip a) jobs).
Proof.
  split; [|split].
  - intros row all_jobs w H. unfold row_step, try_except, row_body.
    by rewrite H.
  - intros table H. unfold select_rows. rewrite H.
    apply Forall_forall. intros row Hin.
    by apply list_elem_of_filter in Hin as [? _].
  - intros chrome html_parser w jobs H. apply fetch_made_from in H.
    eapply Forall_impl; [exact H|].
    intros j (table & row & Ht & Hin & a & href & Ha & _ & _ & ->).
    by exists table, row, a.
Qed.

Lemma row_without_hyperlink_never_converted_witness :
  row_step [Fixture.analyst] Fixture.total_row Fixture.w0
  = (Return [Fixture.analyst], Fixture.w0)
  /\ Forall (fun row => is_Some (bs4.find row "a"))
            (select_rows Fixture.plain_table)
  /\ Forall (fun j => exists table row a,
               bs4.find_class Fixture.results_page "table" "searchResults"
               = Some table
               /\ row ∈ select_rows table
               /\ bs4.find row "a" = Some a
               /\ title j = bs4.get_text_strip a)
            [Fixture.analyst; Fixture.banker].
Proof.
  destruct row_without_hyperlink_never_converted as (H1 & H2 & H3).
  split; [|split].
  - apply H1. vm_compute. reflexivity.
  - apply H2. vm_compute. reflexivity.
  - apply (H3 Fixture.chrome_ok (Fixture.parser_of Fixture.results_page)
              Fixture.w0).
    vm_compute. reflexivity.
Defined.

(** C10: a row whose first hyperlink has text and no href, or an empty one,
    is not dropped: the turn of the loop appends a record whose link is the
    origin followed by a slash.  After deduplication the records with that
    link are the first of them alone. *)
Theorem link_without_href_gets_origin
        (row a : bs4.node) (all_jobs : list job) (w : world) :
  bs4.find row "a" = Some a ->
  bs4.get_text_strip a <> "" ->
  bs4.get a "href" = None \/ bs4.get a "href" = Some (bs4.AttrStr "") ->
  row_step all_jobs row w
  = (Return (all_jobs
             ++ [mk_job (bs4.get_text_strip a) "https://jobs.ebrd.com/"
                        (Spec.cell_text row 1) (Spec.cell_text row 2)])%list,
     w)
  /\ forall jobs : list job,
       filter (fun j => link j = "https://jobs.ebrd.com/") (remove_duplicates jobs)
       = option_list
           (head (filter (fun j => link j = "https://jobs.ebrd.com/") jobs)).
Proof.
  intros Ha Ht Hh. split; [|intros jobs; apply remove_duplicates_filter].
  assert (bs4.get_default a "href" (bs4.AttrStr "") = bs4.AttrStr "") as Hd.
  { unfold bs4.get_default. by destruct Hh as [-> | ->]. }
  apply truthy_iff in Ht.
  unfold row_step, try_except, row_body. rewrite Ha, bind_run, Hd. simpl.
  rewrite Ht. simpl.
  destruct (String.eqb (bs4.get_text_strip a) "") eqn:He; [|reflexivity].
  apply String.eqb_eq in He. rewrite He in Ht. discriminate.
Qed.

Lemma link_without_href_gets_origin_witness :
  row_step [Fixture.analyst] Fixture.banker_row Fixture.w0
  = (Return [Fixture.analyst; Fixture.banker], Fixture.w0)
  /\ remove_duplicates [Fixture.banker; Fixture.analyst;
                        mk_job "Clerk" "https://jobs.ebrd.com/" "Rome" "2 Jan"]
     = [Fixture.banker; Fixture.analyst].
Proof.
  split.
  - apply (link_without_href_gets_origin
             Fixture.banker_row Fixture.banker_anchor [Fixture.analyst] Fixture.w0).
    + vm_compute. reflexivity.
    + vm_compute. discriminate.
    + left. vm_compute. reflexivity.
  - vm_compute. reflexivity.
Defined.

Lemma fetch_without_results_table_witness :
  eval (fetch_jobs_with_selenium Fixture.chrome_ok
          (Fixture.parser_of Fixture.other_page)) Fixture.w0 = Return [].
Proof.
  apply (fetch_without_results_table
           Fixture.chrome_ok (Fixture.parser_of Fixture.other_page) Fixture.w0);
    vm_compute; reflexivity.
Defined.

(** ** Timestamps of the feed *)

Lemma fmap_items_of {B} (f : ET.Element -> B) (g : PyDatetime.datetime -> B)
      (jobs : list job) (times : list PyDatetime.datetime) :
  length times = length jobs ->
  (forall j now, f (item_of j now) = g now) ->
  f <$> Spec.items_of jobs times = g <$> times.
Proof.
  intros Hlen Hfg. revert times Hlen.
  induction jobs as [|j r IH]; intros [|now times] Hlen; try done.
  unfold Spec.items_of in *. cbn [zip_with fmap list_fmap].
  rewrite Hfg. f_equal. apply IH. simpl in Hlen. lia.
Qed.

Lemma fmap_const_seq {B} (x : B) (start n : nat) :
  (fun _ => x) <$> seq start n = replicate n x.
Proof.
  revert start. induction n as [|n IH]; intros start; simpl; [done|].
  f_equal. apply IH.
Qed.

(** C5, as stated, fails: the builder reads the clock once for the channel
    and once more for each item, and the readings need not agree.  With a
    first reading in the last second of 2024 and a second one in 2025, the
    build time of the channel and the publication time of the item differ. *)
Lemma create_rss_feed_two_times :
  exists rss channel item : ET.Element,
    eval (create_rss_feed Fixture.new_year_clock [Fixture.analyst]) Fixture.w0
    = Return rss
    /\ ET.find rss "channel" = Some channel
    /\ ET.iter rss "item" = [item]
    /\ ET.findtext channel "lastBuildDate" = Some "Tue, 31 Dec 2024 23:59:59 GMT"
    /\ ET.findtext item "pubDate" = Some "Wed, 01 Jan 2025 00:00:00 GMT"
    /\ ET.findtext item "pubDate" <> ET.findtext channel "lastBuildDate".
Proof.
  do 3 eexists. split; [vm_compute; reflexivity|].
  repeat split; try (vm_compute; reflexivity).
  vm_compute. discriminate.
Qed.

(** C5, amended: the builder is a function of the records and of the clock
    readings it takes, one for the channel and then one for each item in
    order.  It prints nothing and writes no file: the world changes in the
    count of clock readings only.  Two runs on the same records that see the
    same readings return the same document.  The build time of the channel
    is the first reading and the publication time of the k-th item is the
    reading k after it; under a clock that shows one time at every reading
    they are all that time. *)
Theorem create_rss_feed_clock_readings
        (utc_clock : nat -> PyDatetime.datetime) (jobs : list job) (w : world) :
  exec (create_rss_feed utc_clock jobs) w = tick (S (length jobs)) w
  /\ (forall (clock' : nat -> PyDatetime.datetime) (w' : world),
         clock' <$> seq (clock_reads w') (S (length jobs))
         = utc_clock <$> seq (clock_reads w) (S (length jobs)) ->
         eval (create_rss_feed clock' jobs) w'
         = eval (create_rss_feed utc_clock jobs) w)
  /\ (exists rss channel : ET.Element,
         eval (create_rss_feed utc_clock jobs) w = Return rss
         /\ ET.find rss "channel" = Some channel
         /\ ET.findtext channel "lastBuildDate"
            = Some (PyDatetime.strftime_rfc822 (utc_clock (clock_reads w)))
         /\ (fun item => ET.findtext item "pubDate") <$> ET.iter rss "item"
            = (fun k => Some (PyDatetime.strftime_rfc822 (utc_clock k)))
                <$> seq (S (clock_reads w)) (length jobs))
  /\ (forall t : PyDatetime.datetime,
         exists rss channel : ET.Element,
           eval (create_rss_feed (Spec.frozen_clock t) jobs) w = Return rss
           /\ ET.find rss "channel" = Some channel
           /\ ET.findtext channel "lastBuildDate"
              = Some (PyDatetime.strftime_rfc822 t)
           /\ (fun item => ET.findtext item "pubDate") <$> ET.iter rss "item"
              = replicate (length jobs) (Some (PyDatetime.strftime_rfc822 t))).
Proof.
  split; [|split; [|split]].
  - unfold exec. by rewrite create_rss_feed_run.
  - intros clock' w' H. unfold eval. rewrite !create_rss_feed_run.
    cbn [seq fmap list_fmap] in H. injection H as H0 Hr.
    cbn [fst]. by rewrite H0, Hr.
  - unfold eval. rewrite create_rss_feed_run. do 2 eexists.
    split; [reflexivity|]. split; [reflexivity|]. split; [reflexivity|].
    rewrite iter_feed_document, iter_items_of.
    rewrite (fmap_items_of _
               (fun now => Some (PyDatetime.strftime_rfc822 now))).
    + by rewrite <- list_fmap_compose.
    + by rewrite length_fmap, length_seq.
    + reflexivity.
  - intros t. unfold eval. rewrite create_rss_feed_run. do 2 eexists.
    split; [reflexivity|]. split; [reflexivity|]. split; [reflexivity|].
    rewrite iter_feed_document, iter_items_of.
    rewrite (fmap_items_of _
               (fun now => Some (PyDatetime.strftime_rfc822 now))).
    + rewrite <- list_fmap_compose.
      apply (fmap_const_seq (Some (PyDatetime.strftime_rfc822 t))).
    + by rewrite length_fmap, length_seq.
    + reflexivity.
Qed.

Lemma create_rss_feed_clock_readings_witness :
  eval (create_rss_feed (fun k => Fixture.new_year_clock (k - 5))
                        [Fixture.analyst])
       (tick 5 Fixture.w0)
  = eval (create_rss_feed Fixture.new_year_clock [Fixture.analyst]) Fixture.w0.
Proof.
  apply (create_rss_feed_clock_readings
           Fixture.new_year_clock [Fixture.analyst] Fixture.w0).
  vm_compute. reflexivity.
Defined.

(** ** The entry point *)

Section Main.

Variable chrome : browser.
Variable html_parser : string -> bs4.node.
Variable utc_clock : nat -> PyDatetime.datetime.
Variable ET_tostring : ET.Element -> string.
Variable minidom_toprettyxml : string -> option string.

(** C6: when the extractor returns no record, [main] prints that no jobs
    were found and returns: every file but the dump of the page, which the
    extractor writes, is what it was before the run, the feed file
    [ebrd_jobs.xml] among them; and the clock has not been read, while every
    run of the feed builder reads it, so the builder has not run.  The builder itself,
    given no record, returns a well-formed document: one channel with its
    title, link and description, every prefix declared, and no item. *)
Theorem main_without_jobs (w : world) :
  eval (fetch_jobs_with_selenium chrome html_parser) w = Return [] ->
  let run := main chrome html_parser utc_clock ET_tostring minidom_toprettyxml in
  (eval run w = Return tt
   /\ (forall f : string,
          f <> "debug_page.html" -> files (exec run w) !! f = files w !! f)
   /\ clock_reads (exec run w) = clock_reads w
   /\ last (console (exec run w)) = Some (Line "No jobs found!"))
  /\ (forall (jobs : list job) (w' : world),
         clock_reads w' < clock_reads (exec (create_rss_feed utc_clock jobs) w'))
  /\ (exists rss channel : ET.Element,
         eval (create_rss_feed utc_clock []) w = Return rss
         /\ Spec.well_formed_feed rss = true
         /\ ET.children rss = [channel]
         /\ ET.tag <$> ET.children channel
            = ["title"; "link"; "description"; "language"; "lastBuildDate";
               "atom:link"]
         /\ ET.iter rss "item" = []).
Proof.
  intros Hnone run. subst run. split; [|split].
  - unfold eval, exec, main. run_M.
    match goal with
    | |- context [fetch_jobs_with_selenium chrome html_parser ?w3] =>
        destruct (quiet_fetch chrome html_parser w3) as (Hc & Hf & Hv);
        specialize (Hv w); rewrite Hnone in Hv; unfold eval, exec in Hc, Hf, Hv;
        destruct (fetch_jobs_with_selenium chrome html_parser w3)
          as [[jobs|e] w4]
    end; simpl in Hv; [|done]. injection Hv as <-.
    run_M. simpl in *. repeat split; [done | done |].
    by rewrite last_snoc.
  - intros jobs w'. unfold exec. rewrite create_rss_feed_run. simpl. lia.
  - unfold eval. rewrite create_rss_feed_run. do 2 eexists.
    repeat split; vm_compute; reflexivity.
Qed.

End Main.

Lemma main_without_jobs_witness :
  eval (main Fixture.chrome_ok (Fixture.parser_of Fixture.other_page)
             Fixture.new_year_clock (fun _ => "<rss/>") Some)
       (mk_world [] {[ "ebrd_jobs.xml" := "<rss>yesterday</rss>" ]} 0 false)
  = Return tt
  /\ files (exec (main Fixture.chrome_ok (Fixture.parser_of Fixture.other_page)
                       Fixture.new_year_clock (fun _ => "<rss/>") Some)
                 (mk_world [] {[ "ebrd_jobs.xml" := "<rss>yesterday</rss>" ]}
                           0 false))
     !! "ebrd_jobs.xml"
     = Some "<rss>yesterday</rss>".
Proof.
  destruct (main_without_jobs
              Fixture.chrome_ok (Fixture.parser_of Fixture.other_page)
              Fixture.new_year_clock (fun _ => "<rss/>") Some
              (mk_world [] {[ "ebrd_jobs.xml" := "<rss>yesterday</rss>" ]}
                        0 false))
    as ((H1 & H2 & _) & _).
  - vm_compute. reflexivity.
  - split; [exact H1|]. rewrite H2 by discriminate. vm_compute. reflexivity.
Defined.

(** ** The model at work on sample inputs *)

Example strftime_example :
  PyDatetime.strftime_rfc822 Fixture.noon = "Wed, 04 Nov 2026 12:00:00 GMT".
Proof. vm_compute. reflexivity. Qed.

Example strip_example :
  PyStr.strip (PyStr.LF ++ "  Senior  Analyst " ++ PyStr.LF) = "Senior  Analyst".
Proof. vm_compute. reflexivity. Qed.

Example fetch_example :
  eval (fetch_jobs_with_selenium Fixture.chrome_ok
          (Fixture.parser_of Fixture.results_page)) Fixture.w0
  = Return [Fixture.analyst; Fixture.banker].
Proof. vm_compute. reflexivity. Qed.

Example description_example :
  ET.findtext (item_of (mk_job "Analyst" "https://jobs.ebrd.com/jobs/123"
                               "London" "2024-01-01") Fixture.noon)
              "description"
  = Some ("Location: London" ++ PyStr.LF ++ "Posting Date: 2024-01-01").
Proof. vm_compute. reflexivity. Qed.

Example browser_failure_example :
  eval (fetch_jobs_with_selenium (mk_browser true false true "")
          (Fixture.parser_of Fixture.results_page)) Fixture.w0
  = Raise WebDriverException
  /\ driver_running
       (exec (fetch_jobs_with_selenium (mk_browser true false true "")
                (Fixture.parser_of Fixture.results_page)) Fixture.w0)
     = false.
Proof. split; vm_compute; reflexivity. Qed.

(** * Further properties of the extractor, the filter, the builder and [main] *)

(** ** The row loop in closed form *)

Lemma row_step_run (all_jobs : list job) (row : bs4.node) (w : world) :
  row_step all_jobs row w
  = match View.row_outcome row with
    | Return (Some j) => (Return (all_jobs ++ [j])%list, w)
    | Return None => (Return all_jobs, w)
    | Raise e => (Return all_jobs, View.logged [RowError e] w)
    end.
Proof.
  unfold row_step, try_except, row_body, View.row_outcome.
  destruct (bs4.find row "a") as [a|]; [|reflexivity].
  rewrite bind_run.
  destruct (bs4.get_default a "href" (bs4.AttrStr "")) as [href|l];
    [|reflexivity].
  simpl. rewrite make_absolute_truthy. simpl.
  destruct (PyStr.truthy (bs4.get_text_strip a)) eqn:Ht; simpl; [|reflexivity].
  destruct (String.eqb (bs4.get_text_strip a) "") eqn:He; [|reflexivity].
  apply String.eqb_eq in He. rewrite He in Ht. discriminate.
Qed.

Lemma logged_nil (w : world) : View.logged [] w = w.
Proof. destruct w. unfold View.logged. simpl. by rewrite app_nil_r. Qed.

Lemma logged_logged (l1 l2 : list log_msg) (w : world) :
  View.logged l2 (View.logged l1 w) = View.logged (l1 ++ l2) w.
Proof. unfold View.logged. simpl. by rewrite app_assoc. Qed.

Lemma for_each_row_step_run (rows : list bs4.node) (acc : list job) (w : world) :
  for_each row_step acc rows w
  = (Return (acc ++ omap View.row_job rows)%list,
     View.logged (omap View.row_error rows) w).
Proof.
  revert acc w. induction rows as [|row r IH]; intros acc w.
  - simpl. by rewrite app_nil_r, logged_nil.
  - cbn [for_each]. rewrite bind_run, row_step_run.
    cbn [omap list_omap]. unfold View.row_job at 1, View.row_error at 1.
    destruct (View.row_outcome row) as [[j|]|e]; rewrite IH.
    + by rewrite <- app_assoc.
    + reflexivity.
    + by rewrite logged_logged.
Qed.

(** ** The extractor in closed form *)

Section ExtractorRuns.

Variable chrome : browser.
Variable html_parser : string -> bs4.node.

Lemma fetch_run_not_started (w : world) :
  starts chrome = false ->
  fetch_jobs_with_selenium chrome html_parser w
  = (Raise WebDriverException,
     View.logged [Line "Starting Chrome browser (headless mode)..."] w).
Proof.
  intros Hs. unfold fetch_jobs_with_selenium, setup_driver. rewrite Hs.
  by run_M.
Qed.

Lemma fetch_run_no_navigation (w : world) :
  starts chrome = true ->
  navigates chrome = false ->
  fetch_jobs_with_selenium chrome html_parser w
  = (Raise WebDriverException,
     mk_world (console w
               ++ [Line "Starting Chrome browser (headless mode)...";
                   Line "Loading EBRD jobs page...";
                   Line "[OK] Browser closed"])%list
              (files w) (clock_reads w) false).
Proof.
  intros Hs Hn. unfold fetch_jobs_with_selenium, setup_driver, driver_get.
  rewrite Hs, Hn. run_M. by rewrite <- !app_assoc.
Qed.

Lemma fetch_run_page (w : world) :
  starts chrome = true ->
  navigates chrome = true ->
  fetch_jobs_with_selenium chrome html_parser w
  = (Return (View.page_jobs (html_parser (page_source chrome))),
     mk_world (console w
               ++ [Line "Starting Chrome browser (headless mode)...";
                   Line "Loading EBRD jobs page...";
                   Line "Waiting for page content to load...";
                   View.marker_line chrome;
                   Line "[OK] Saved debug HTML to debug_page.html"]
               ++ View.page_lines (html_parser (page_source chrome))
               ++ [Line "[OK] Browser closed"])%list
              (<["debug_page.html" := page_source chrome]> (files w))
              (clock_reads w) false).
Proof.
  intros Hs Hn.
  unfold fetch_jobs_with_selenium, setup_driver, driver_get, wait_for_marker,
    View.page_jobs, View.page_lines, View.marker_line.
  rewrite Hs, Hn.
  destruct (bs4.find_class _ _ _) as [table|].
  - destruct (marker_appears chrome); run_M;
      rewrite for_each_row_step_run; unfold View.logged; run_M;
      cbn [app]; by rewrite <- !app_assoc.
  - destruct (marker_appears chrome), (bs4.find_all _ _); run_M;
      by rewrite <- !app_assoc.
Qed.

End ExtractorRuns.

(** ** The browser session and the fatal failures *)

(** X1: once the browser has started, the extractor closes it on every way
    out, whether it returns a list or raises: at the end no session is open
    and the last line printed says so. *)
Theorem fetch_closes_browser
        (chrome : browser) (html_parser : string -> bs4.node) (w : world) :
  starts chrome = true ->
  driver_running (exec (fetch_jobs_with_selenium chrome html_parser) w) = false
  /\ last (console (exec (fetch_jobs_with_selenium chrome html_parser) w))
     = Some (Line "[OK] Browser closed").
Proof.
  intros Hs. unfold exec. destruct (navigates chrome) eqn:Hn.
  - rewrite fetch_run_page by done. split; [done|]. cbn [snd console].
    by rewrite !app_assoc, last_snoc.
  - rewrite fetch_run_no_navigation by done. split; [done|]. cbn [snd console].
    by rewrite (last_app _ [_; _; _]).
Qed.

Lemma fetch_closes_browser_witness :
  driver_running
    (exec (fetch_jobs_with_selenium (mk_browser true false true "")
             (Fixture.parser_of Fixture.results_page))
          (mk_world [] ∅ 0 true))
  = false.
Proof.
  apply (fetch_closes_browser (mk_browser true false true "")
           (Fixture.parser_of Fixture.results_page) (mk_world [] ∅ 0 true)).
  reflexivity.
Defined.

(** X2: a browser that does not start, or a page that does not load, is
    fatal: the extractor raises, [main] raises the same exception, and no
    file is written, neither the dump of the page nor the feed. *)
Theorem browser_failure_is_fatal
        (chrome : browser) (html_parser : string -> bs4.node)
        (utc_clock : nat -> PyDatetime.datetime)
        (ET_tostring : ET.Element -> string)
        (minidom_toprettyxml : string -> option string) (w : world) :
  starts chrome = false \/ navigates chrome = false ->
  let run := main chrome html_parser utc_clock ET_tostring minidom_toprettyxml in
  eval (fetch_jobs_with_selenium chrome html_parser) w = Raise WebDriverException
  /\ files (exec (fetch_jobs_with_selenium chrome html_parser) w) = files w
  /\ eval run w = Raise WebDriverException
  /\ files (exec run w) = files w
  /\ clock_reads (exec run w) = clock_reads w.
Proof.
  intros H run. subst run. unfold eval, exec, main.
  destruct (starts chrome) eqn:Hs.
  - destruct H as [H|Hn]; [done|]. run_M.
    rewrite !fetch_run_no_navigation by done. by repeat split.
  - run_M. rewrite !fetch_run_not_started by done. by repeat split.
Qed.

Lemma browser_failure_is_fatal_witness :
  eval (main (mk_browser true false true "<html>")
             (Fixture.parser_of Fixture.results_page)
             Fixture.new_year_clock (fun _ => "<rss/>") Some)
       Fixture.w0
  = Raise WebDriverException.
Proof.
  apply (browser_failure_is_fatal
           (mk_browser true false true "<html>")
           (Fixture.parser_of Fixture.results_page)
           Fixture.new_year_clock (fun _ => "<rss/>") Some Fixture.w0).
  by right.
Defined.

(** X3: the wait for the results marker is not fatal and changes nothing
    but one line of the console: with or without the marker the extractor
    returns the same value and leaves the same files, the same count of
    clock readings and the same state of the browser.  When the page has
    loaded, the two consoles are the same but for the one line printed after
    the wait; when it has not, the wait is never reached and the two
    consoles are the same. *)
Theorem marker_timeout_is_harmless
        (chrome : browser) (html_parser : string -> bs4.node)
        (seen : bool) (w : world) :
  let chrome' :=
    mk_browser (starts chrome) (navigates chrome) seen (page_source chrome) in
  let run := fetch_jobs_with_selenium chrome html_parser in
  let run' := fetch_jobs_with_selenium chrome' html_parser in
  eval run' w = eval run w
  /\ files (exec run' w) = files (exec run w)
  /\ clock_reads (exec run' w) = clock_reads (exec run w)
  /\ driver_running (exec run' w) = driver_running (exec run w)
  /\ (if starts chrome && navigates chrome
      then exists before after : list log_msg,
             console (exec run w)
             = (before ++ View.marker_line chrome :: after)%list
             /\ console (exec run' w)
                = (before ++ View.marker_line chrome' :: after)%list
             /\ View.marker_line chrome'
                = (if seen then Line "[OK] Job listings table found"
                   else WarnTimeout TimeoutException)
      else console (exec run' w) = console (exec run w)).
Proof.
  intros chrome' run run'. subst run run'. unfold eval, exec.
  destruct (starts chrome) eqn:Hs; [destruct (navigates chrome) eqn:Hn|].
  - rewrite (fetch_run_page chrome), (fetch_run_page chrome') by done.
    cbn [fst snd console files clock_reads driver_running andb].
    split; [done|]. split; [done|]. split; [done|]. split; [done|].
    exists (console w
            ++ [Line "Starting Chrome browser (headless mode)...";
                Line "Loading EBRD jobs page...";
                Line "Waiting for page content to load..."])%list,
           (Line "[OK] Saved debug HTML to debug_page.html"
            :: View.page_lines (html_parser (page_source chrome))
            ++ [Line "[OK] Browser closed"])%list.
    split; [|split].
    + by rewrite <- !app_assoc.
    + by rewrite <- !app_assoc.
    + reflexivity.
  - by rewrite (fetch_run_no_navigation chrome),
               (fetch_run_no_navigation chrome').
  - by rewrite (fetch_run_not_started chrome), (fetch_run_not_started chrome').
Qed.

(** X4: once the page has loaded, its markup is dumped to
    [debug_page.html], whatever the parse finds in it, and no other file is
    touched by the extractor. *)
Theorem fetch_dumps_page
        (chrome : browser) (html_parser : string -> bs4.node) (w : world) :
  starts chrome = true ->
  navigates chrome = true ->
  files (exec (fetch_jobs_with_selenium chrome html_parser) w)
  = <["debug_page.html" := page_source chrome]> (files w).
Proof. intros Hs Hn. unfold exec. by rewrite fetch_run_page. Qed.

Lemma fetch_dumps_page_witness :
  files (exec (fetch_jobs_with_selenium Fixture.chrome_ok
                 (Fixture.parser_of Fixture.other_page)) Fixture.w0)
  = <["debug_page.html" := "<html></html>"]> ∅.
Proof.
  apply (fetch_dumps_page Fixture.chrome_ok
           (Fixture.parser_of Fixture.other_page) Fixture.w0); reflexivity.
Defined.

(** ** Rows and records *)

Lemma row_outcome_raises (row a : bs4.node) (l : list string) :
  bs4.find row "a" = Some a ->
  bs4.get a "href" = Some (bs4.AttrList l) ->
  View.row_outcome row = Raise AttributeError.
Proof.
  intros Ha Hh. unfold View.row_outcome, bs4.get_default. by rewrite Ha, Hh.
Qed.

(** X5: a fault in one row does not abort the batch.  A row whose first
    hyperlink carries a list for its href raises inside the [try]; the loop
    reports the error and goes on, and the records it returns are those it
    returns without that row. *)
Theorem faulty_row_is_skipped
        (rows1 rows2 : list bs4.node) (row a : bs4.node) (l : list string)
        (acc : list job) (w : world) :
  bs4.find row "a" = Some a ->
  bs4.get a "href" = Some (bs4.AttrList l) ->
  eval (for_each row_step acc (rows1 ++ row :: rows2)) w
  = eval (for_each row_step acc (rows1 ++ rows2)) w
  /\ RowError AttributeError
     ∈ console (exec (for_each row_step acc (rows1 ++ row :: rows2)) w).
Proof.
  intros Ha Hh. pose proof (row_outcome_raises row a l Ha Hh) as Hr.
  unfold eval, exec. rewrite !for_each_row_step_run. cbn [fst snd].
  rewrite !omap_app. cbn [omap list_omap].
  unfold View.row_job at 2, View.row_error at 2. rewrite Hr. split; [done|].
  unfold View.logged. cbn [console].
  apply elem_of_app. right. apply elem_of_app. right. apply list_elem_of_here.
Qed.

Lemma faulty_row_is_skipped_witness :
  eval (for_each row_step []
          [Fixture.analyst_row;
           bs4.Tag "tr" ∅
             [bs4.Tag "a" {[ "href" := bs4.AttrList ["/job/1"; "/job/2"] ]}
                      [bs4.NavigableString "Clerk"]];
           Fixture.banker_row])
       Fixture.w0
  = Return [Fixture.analyst; Fixture.banker].
Proof.
  pose proof (faulty_row_is_skipped
                [Fixture.analyst_row] [Fixture.banker_row]
                (bs4.Tag "tr" ∅
                   [bs4.Tag "a" {[ "href" := bs4.AttrList ["/job/1"; "/job/2"] ]}
                            [bs4.NavigableString "Clerk"]])
                (bs4.Tag "a" {[ "href" := bs4.AttrList ["/job/1"; "/job/2"] ]}
                         [bs4.NavigableString "Clerk"])
                ["/job/1"; "/job/2"] [] Fixture.w0) as H.
  destruct H as [H _]; [vm_compute; reflexivity | vm_compute; reflexivity |].
  simpl app in H. rewrite H. vm_compute. reflexivity.
Defined.

(** X6: the records the extractor returns are, in the order of the selected
    rows, the records of the rows that give one: each row gives at most one
    record, and which one does not depend on the rows around it. *)
Theorem fetch_records_in_row_order
        (chrome : browser) (html_parser : string -> bs4.node)
        (table : bs4.node) (w : world) :
  starts chrome = true ->
  navigates chrome = true ->
  bs4.find_class (html_parser (page_source chrome)) "table" "searchResults"
  = Some table ->
  eval (fetch_jobs_with_selenium chrome html_parser) w
  = Return (omap View.row_job (select_rows table))
  /\ length (omap View.row_job (select_rows table)) <= length (select_rows table).
Proof.
  intros Hs Hn Ht. unfold eval. rewrite fetch_run_page by done.
  unfold View.page_jobs. rewrite Ht. split; [done|].
  generalize (select_rows table). intros rows.
  induction rows as [|r rows IH]; csimpl; [done|].
  destruct (View.row_job r); csimpl; lia.
Qed.

Lemma fetch_records_in_row_order_witness :
  eval (fetch_jobs_with_selenium Fixture.chrome_ok
          (Fixture.parser_of Fixture.results_page)) Fixture.w0
  = Return (omap View.row_job
              [Fixture.analyst_row; Fixture.banker_row; Fixture.total_row;
               Fixture.blank_row]).
Proof.
  apply (fetch_records_in_row_order
           Fixture.chrome_ok (Fixture.parser_of Fixture.results_page)
           (bs4.Tag "table" {[ "class" := bs4.AttrList ["searchResults"] ]}
              [Fixture.analyst_row; Fixture.banker_row; Fixture.total_row;
               Fixture.blank_row])
           Fixture.w0); vm_compute; reflexivity.
Defined.

Lemma return_snoc_neq {A} (l : list A) (x : A) (w : world) :
  (Return l, w).1 = Return (l ++ [x])%list -> False.
Proof.
  simpl. intros [= H]. apply (f_equal length) in H.
  rewrite length_app in H. simpl in H. lia.
Qed.

(** X7: where the cells of a record come from.  When a turn of the loop
    appends a record, its location is the stripped text of the second cell
    of the row, also when that text is empty, and its posting date that of
    the third; a row with fewer than two cells gets ["Not specified"] for
    both, and a row with fewer than three gets it for the posting date. *)
Theorem record_cells_and_defaults
        (row : bs4.node) (acc : list job) (j : job) (w : world) :
  eval (row_step acc row) w = Return (acc ++ [j])%list ->
  let cells := bs4.find_all row "td" in
  (forall c, cells !! 1 = Some c -> location j = bs4.get_text_strip c)
  /\ (forall c, cells !! 2 = Some c -> posting_date j = bs4.get_text_strip c)
  /\ (length cells < 2 ->
      location j = "Not specified" /\ posting_date j = "Not specified")
  /\ (length cells < 3 -> posting_date j = "Not specified").
Proof.
  intros H cells. unfold eval in H. rewrite row_step_run in H.
  assert (exists a href,
             j = mk_job (bs4.get_text_strip a) (make_absolute href)
                        (Spec.cell_text row 1) (Spec.cell_text row 2)) as Hj.
  { unfold View.row_outcome in H.
    destruct (bs4.find row "a") as [a|]; [|by apply return_snoc_neq in H].
    destruct (bs4.get_default a "href" (bs4.AttrStr "")) as [href|l];
      [|by apply return_snoc_neq in H].
    destruct (PyStr.truthy (bs4.get_text_strip a));
      [|by apply return_snoc_neq in H].
    simpl in H. injection H as H. apply app_inv_head in H.
    injection H as <-. by exists a, href. }
  destruct Hj as (a & href & ->). unfold Spec.cell_text. fold cells. simpl.
  repeat split.
  - by intros c ->.
  - by intros c ->.
  - rewrite (lookup_ge_None_2 cells 1) by lia. done.
  - rewrite (lookup_ge_None_2 cells 2) by lia. done.
  - intros Hlen. by rewrite (lookup_ge_None_2 cells 2) by lia.
Qed.

Lemma record_cells_and_defaults_witness :
  location Fixture.banker = "Paris"
  /\ posting_date Fixture.banker = "Not specified".
Proof.
  pose proof (record_cells_and_defaults
                Fixture.banker_row [Fixture.analyst] Fixture.banker Fixture.w0)
    as H.
  destruct H as (H1 & _ & _ & H4); [vm_compute; reflexivity|].
  split.
  - rewrite (H1 (Fixture.cell "Paris")); vm_compute; reflexivity.
  - apply H4. vm_compute. lia.
Defined.

(** X8: the rows the extractor parses are [tr] elements below the table,
    in document order and each at most once: with rows of class [data-row]
    they are exactly those rows, and with no such row they are exactly the
    rows that have a hyperlink. *)
Theorem select_rows_in_document_order (table : bs4.node) :
  sublist (select_rows table) (bs4.find_all table "tr")
  /\ Forall (fun row => bs4.name_matches "tr" row = true) (select_rows table)
  /\ (bs4.find_all_class table "tr" "data-row" <> [] ->
      select_rows table = bs4.find_all_class table "tr" "data-row")
  /\ (bs4.find_all_class table "tr" "data-row" = [] ->
      select_rows table
      = filter (fun row => is_Some (bs4.find row "a")) (bs4.find_all table "tr")).
Proof.
  assert (bs4.find_all_class table "tr" "data-row"
          = filter (fun d => bs4.value_matches (bs4.get d "class") "data-row" = true)
                   (bs4.find_all table "tr")) as Hcls.
  { unfold bs4.find_all_class, bs4.find_all. rewrite list_filter_filter.
    apply list_filter_iff. intros d. rewrite andb_true_iff. tauto. }
  assert (sublist (select_rows table) (bs4.find_all table "tr")) as Hsub.
  { unfold select_rows. cbv zeta.
    destruct (bs4.find_all_class table "tr" "data-row") eqn:E; cbv iota.
    - apply sublist_filter.
    - rewrite Hcls. apply sublist_filter. }
  split; [exact Hsub|]. split; [|split].
  - apply Forall_forall. intros row Hin.
    eapply elem_of_sublist in Hin; [|exact Hsub].
    unfold bs4.find_all in Hin. by apply list_elem_of_filter in Hin as [? _].
  - intros Hne. unfold select_rows. cbv zeta.
    by destruct (bs4.find_all_class table "tr" "data-row").
  - intros He. unfold select_rows. cbv zeta. by rewrite He.
Qed.

Lemma select_rows_in_document_order_witness :
  select_rows (bs4.Tag "table" ∅ [Fixture.total_row; Fixture.analyst_row])
  = [Fixture.total_row; Fixture.analyst_row]
  /\ select_rows Fixture.plain_table
     = [bs4.Tag "tr" ∅ [bs4.Tag "td" ∅ [Fixture.analyst_anchor];
                        Fixture.cell "London"]].
Proof.
  split.
  - etransitivity.
    + apply (proj1 (proj2 (proj2 (select_rows_in_document_order
               (bs4.Tag "table" ∅ [Fixture.total_row; Fixture.analyst_row]))))).
      vm_compute. discriminate.
    + vm_compute. reflexivity.
  - etransitivity.
    + apply (proj2 (proj2 (proj2 (select_rows_in_document_order
               Fixture.plain_table)))).
      vm_compute. reflexivity.
    + vm_compute. reflexivity.
Defined.

(** ** Stripped text *)

Lemma lstrip_length (s : string) :
  String.length (PyStr.lstrip s) <= String.length s.
Proof.
  induction s as [|c r IH]; simpl; [done|].
  destruct (PyStr.isspace c); simpl; lia.
Qed.

Lemma lstrip_fixed_head (c : ascii) (r : string) :
  PyStr.lstrip (String c r) = String c r -> PyStr.isspace c = false.
Proof.
  simpl. destruct (PyStr.isspace c); [|done]. intros H.
  pose proof (lstrip_length r) as Hlen. rewrite H in Hlen. simpl in Hlen. lia.
Qed.

Lemma lstrip_idem (s : string) :
  PyStr.lstrip (PyStr.lstrip s) = PyStr.lstrip s.
Proof.
  induction s as [|c r IH]; simpl; [done|].
  destruct (PyStr.isspace c) eqn:E; [exact IH|]. simpl. by rewrite E.
Qed.

Lemma rstrip_head (c : ascii) (r : string) :
  PyStr.rstrip (String c r) = ""
  \/ exists r', PyStr.rstrip (String c r) = String c r'.
Proof.
  simpl. destruct (PyStr.rstrip r); [|right; eauto].
  destruct (PyStr.isspace c); [by left | right; eauto].
Qed.

Lemma rstrip_idem (s : string) :
  PyStr.rstrip (PyStr.rstrip s) = PyStr.rstrip s.
Proof.
  induction s as [|c r IH]; [done|]. cbn [PyStr.rstrip].
  destruct (PyStr.rstrip r) as [|d r'] eqn:E.
  - destruct (PyStr.isspace c) eqn:Ec; [done|]. simpl. by rewrite Ec.
  - cbn [PyStr.rstrip] in *. by rewrite IH.
Qed.

Lemma lstrip_app (s t : string) :
  s <> "" -> PyStr.lstrip s = s -> PyStr.lstrip (s ++ t) = s ++ t.
Proof.
  destruct s as [|c r]; [done|]. intros _ H.
  apply lstrip_fixed_head in H.
  change (String c r ++ t) with (String c (r ++ t)).
  cbn [PyStr.lstrip]. by rewrite H.
Qed.

Lemma rstrip_app (s t : string) :
  t <> "" -> PyStr.rstrip t = t -> PyStr.rstrip (s ++ t) = s ++ t.
Proof.
  intros Ht H. induction s as [|c r IH]; [exact H|].
  change (String c r ++ t) with (String c (r ++ t)).
  cbn [PyStr.rstrip]. rewrite IH.
  destruct (r ++ t) eqn:E; [|done].
  destruct r; [by subst | discriminate].
Qed.

(** What [strip] returns is left as it is by [lstrip] and by [rstrip]. *)
Lemma strip_fixed (s : string) :
  PyStr.lstrip (PyStr.strip s) = PyStr.strip s
  /\ PyStr.rstrip (PyStr.strip s) = PyStr.strip s.
Proof.
  unfold PyStr.strip. split; [|apply rstrip_idem].
  pose proof (lstrip_idem s) as Hl.
  destruct (PyStr.lstrip s) as [|c r]; [done|].
  apply lstrip_fixed_head in Hl.
  destruct (rstrip_head c r) as [-> | [r' ->]]; [done|].
  simpl. by rewrite Hl.
Qed.

Lemma join_fixed (ps : list string) :
  Forall (fun p => p <> "" /\ PyStr.lstrip p = p /\ PyStr.rstrip p = p) ps ->
  PyStr.lstrip (PyStr.join "" ps) = PyStr.join "" ps
  /\ PyStr.rstrip (PyStr.join "" ps) = PyStr.join "" ps
  /\ (ps <> [] -> PyStr.join "" ps <> "").
Proof.
  induction 1 as [|p ps (Hne & Hl & Hr) Hps IH]; [done|].
  destruct ps as [|q qs]; [by cbn [PyStr.join]|].
  destruct IH as (IHl & IHr & IHne).
  change (PyStr.join "" (p :: q :: qs)) with (p ++ PyStr.join "" (q :: qs)).
  split; [by apply lstrip_app|]. split; [by apply rstrip_app; auto|].
  intros _. destruct p; [done | discriminate].
Qed.

Lemma get_text_strip_fixed (n : bs4.node) :
  PyStr.strip (bs4.get_text_strip n) = bs4.get_text_strip n.
Proof.
  unfold bs4.get_text_strip.
  destruct (join_fixed (bs4.stripped_strings n)) as (Hl & Hr & _).
  - apply Forall_forall. intros p Hp. unfold bs4.stripped_strings in Hp.
    apply list_elem_of_omap in Hp as (d & _ & Hd).
    destruct d as [| s |]; try done.
    destruct (PyStr.truthy (PyStr.strip s)) eqn:Ht; [|done].
    injection Hd as <-. split; [by apply truthy_iff | apply strip_fixed].
  - unfold PyStr.strip. by rewrite Hl, Hr.
Qed.

Lemma cell_text_fixed (row : bs4.node) (i : nat) :
  PyStr.strip (Spec.cell_text row i) = Spec.cell_text row i.
Proof.
  unfold Spec.cell_text. destruct (_ !! i); [apply get_text_strip_fixed|].
  vm_compute. reflexivity.
Qed.

(** X9: the title, the location and the posting date of every record the
    extractor returns carry no white space at either end: stripping them
    again changes nothing. *)
Theorem extracted_fields_are_stripped
        (chrome : browser) (html_parser : string -> bs4.node)
        (w : world) (jobs : list job) :
  eval (fetch_jobs_with_selenium chrome html_parser) w = Return jobs ->
  Forall (fun j => PyStr.strip (title j) = title j
                   /\ PyStr.strip (location j) = location j
                   /\ PyStr.strip (posting_date j) = posting_date j) jobs.
Proof.
  intros H. apply fetch_made_from in H.
  eapply Forall_impl; [exact H|].
  intros j (table & row & _ & _ & a & href & _ & _ & _ & ->). simpl.
  split; [apply get_text_strip_fixed|]. split; apply cell_text_fixed.
Qed.

Lemma extracted_fields_are_stripped_witness :
  Forall (fun j => PyStr.strip (title j) = title j
                   /\ PyStr.strip (location j) = location j
                   /\ PyStr.strip (posting_date j) = posting_date j)
         [Fixture.analyst; Fixture.banker].
Proof.
  apply (extracted_fields_are_stripped
           Fixture.chrome_ok (Fixture.parser_of Fixture.results_page) Fixture.w0).
  vm_compute. reflexivity.
Defined.

(** ** More on the duplicate filter *)

Lemma keep_first_links (l : string) (jobs : list job) (seen : gset string) :
  l ∈ (link <$> Spec.keep_first seen jobs)
  <-> (l ∉ seen) /\ l ∈ (link <$> jobs).
Proof.
  revert seen. induction jobs as [|j r IH]; intros seen.
  - cbn [Spec.keep_first]. rewrite fmap_nil, elem_of_nil. tauto.
  - cbn [Spec.keep_first]. rewrite (fmap_cons link j r), elem_of_cons.
    destruct (decide (link j ∈ seen)) as [Hin|Hout].
    + rewrite IH. split; [tauto|].
      intros (Hl & [->|Hr]); [done | tauto].
    + rewrite fmap_cons, elem_of_cons, IH, elem_of_union, elem_of_singleton.
      split.
      * intros [->|(Hl & Hr)]; tauto.
      * intros (Hl & [->|Hr]); [tauto|].
        destruct (decide (l = link j)); tauto.
Qed.

Lemma keep_first_NoDup (jobs : list job) (seen : gset string) :
  NoDup (link <$> Spec.keep_first seen jobs).
Proof.
  revert seen. induction jobs as [|j r IH]; intros seen; cbn [Spec.keep_first].
  - constructor.
  - destruct (decide (link j ∈ seen)); [apply IH|].
    rewrite fmap_cons. constructor; [|apply IH].
    rewrite keep_first_links, elem_of_union, elem_of_singleton. tauto.
Qed.

Lemma keep_first_id (jobs : list job) (seen : gset string) :
  NoDup (link <$> jobs) ->
  (forall l, l ∈ (link <$> jobs) -> l ∉ seen) ->
  Spec.keep_first seen jobs = jobs.
Proof.
  revert seen. induction jobs as [|j r IH]; intros seen Hnd Hseen; [done|].
  rewrite fmap_cons in Hnd. apply NoDup_cons in Hnd as [Hj Hr].
  cbn [Spec.keep_first]. rewrite decide_False.
  - f_equal. apply IH; [done|]. intros l Hl.
    rewrite elem_of_union, elem_of_singleton. intros [->|Hs]; [done|].
    apply (Hseen l); [|done]. rewrite fmap_cons. by apply list_elem_of_further.
  - apply Hseen. rewrite fmap_cons. apply list_elem_of_here.
Qed.

(** X10: after the filter no two records have the same link, and the links
    that occur are those that occur in the input: no job is lost. *)
Theorem remove_duplicates_links (jobs : list job) :
  NoDup (link <$> remove_duplicates jobs)
  /\ forall l : string,
       l ∈ (link <$> remove_duplicates jobs) <-> l ∈ (link <$> jobs).
Proof.
  rewrite remove_duplicates_keep_first. split; [apply keep_first_NoDup|].
  intros l. rewrite keep_first_links. split; [tauto|].
  intros H. split; [apply not_elem_of_empty | done].
Qed.

(** X11: the filter returns a list without duplicate links as it is, and so
    filtering a second time changes nothing. *)
Theorem remove_duplicates_fixed_point (jobs : list job) :
  (NoDup (link <$> jobs) -> remove_duplicates jobs = jobs)
  /\ remove_duplicates (remove_duplicates jobs) = remove_duplicates jobs.
Proof.
  assert (forall js, NoDup (link <$> js) -> remove_duplicates js = js) as H.
  { intros js Hnd. rewrite remove_duplicates_keep_first.
    apply keep_first_id; [done|]. intros l _. apply not_elem_of_empty. }
  split; [apply H|]. apply H.
  rewrite remove_duplicates_keep_first. apply keep_first_NoDup.
Qed.

Lemma remove_duplicates_fixed_point_witness :
  remove_duplicates [Fixture.analyst; Fixture.banker]
  = [Fixture.analyst; Fixture.banker].
Proof.
  apply (proj1 (remove_duplicates_fixed_point [Fixture.analyst; Fixture.banker])).
  repeat constructor; vm_compute; intros H; inversion H; subst;
    match goal with
    | H' : _ ∈ [] |- _ => inversion H'
    | H' : _ ∈ _ :: _ |- _ => inversion H'
    end.
Defined.

(** X12: the first record of the input is always kept, in first place, so a
    list that is not empty stays so, and the filter never makes a list
    longer. *)
Theorem remove_duplicates_head (jobs : list job) :
  head (remove_duplicates jobs) = head jobs
  /\ length (remove_duplicates jobs) <= length jobs.
Proof.
  split.
  - rewrite remove_duplicates_keep_first. destruct jobs as [|j r]; [done|].
    simpl. rewrite decide_False; [done|]. apply not_elem_of_empty.
  - apply sublist_length. rewrite remove_duplicates_keep_first.
    apply keep_first_sublist.
Qed.

(** ** More on the links *)

(** X13: a relative href gives the same link with and without a slash in
    front, so two rows that differ in this only are one job for the
    duplicate filter. *)
Theorem make_absolute_leading_slash (href : string) :
  PyStr.startswith href "/" = false ->
  PyStr.startswith href "http" = false ->
  make_absolute ("/" ++ href) = make_absolute href
  /\ forall t1 t2 loc1 loc2 d1 d2,
       remove_duplicates [mk_job t1 (make_absolute href) loc1 d1;
                          mk_job t2 (make_absolute ("/" ++ href)) loc2 d2]
       = [mk_job t1 (make_absolute href) loc1 d1].
Proof.
  intros Hs Hh.
  assert (make_absolute ("/" ++ href) = make_absolute href) as E.
  { unfold make_absolute. by rewrite Hs, Hh, (startswith_app "/" href). }
  split; [exact E|]. intros. rewrite E.
  unfold remove_duplicates. simpl.
  rewrite decide_False by apply not_elem_of_empty. simpl.
  rewrite decide_True; [done|].
  apply elem_of_union. left. by apply elem_of_singleton.
Qed.

Lemma make_absolute_leading_slash_witness :
  make_absolute "/job/Analyst/123" = make_absolute "job/Analyst/123".
Proof.
  apply (make_absolute_leading_slash "job/Analyst/123"); reflexivity.
Defined.

(** ** More on the feed builder *)

Lemma feed_document_channel (built : PyDatetime.datetime) (items : list ET.Element) :
  ET.children (Spec.feed_document built items)
  = [ET.mkElement "channel" ∅ None (View.channel_head built ++ items)%list].
Proof. reflexivity. Qed.

Lemma filter_tag_items (t : string) (jobs : list job)
      (times : list PyDatetime.datetime) :
  t <> "item" ->
  filter (fun c => ET.tag c = t) (Spec.items_of jobs times) = [].
Proof.
  intros Ht. revert times.
  induction jobs as [|j r IH]; intros [|now times]; try done.
  unfold Spec.items_of in *. cbn [zip_with].
  rewrite filter_cons_False; [apply IH|]. simpl. congruence.
Qed.

Lemma filter_item_items (jobs : list job) (times : list PyDatetime.datetime) :
  filter (fun c => ET.tag c = "item") (Spec.items_of jobs times)
  = Spec.items_of jobs times.
Proof.
  revert times. induction jobs as [|j r IH]; intros [|now times]; try done.
  unfold Spec.items_of in *. cbn [zip_with].
  rewrite filter_cons_True by done. by rewrite IH.
Qed.

Lemma forallb_items (f : ET.Element -> bool) (jobs : list job)
      (times : list PyDatetime.datetime) :
  (forall j now, f (item_of j now) = true) ->
  forallb f (Spec.items_of jobs times) = true.
Proof.
  intros Hf. revert times.
  induction jobs as [|j r IH]; intros [|now times]; try done.
  unfold Spec.items_of in *. cbn [zip_with forallb]. by rewrite Hf, IH.
Qed.

Lemma findall_channel (t : string) (built : PyDatetime.datetime)
      (jobs : list job) (times : list PyDatetime.datetime) :
  t <> "item" ->
  ET.findall (ET.mkElement "channel" ∅ None
                (View.channel_head built ++ Spec.items_of jobs times)%list) t
  = filter (fun c => ET.tag c = t) (View.channel_head built).
Proof.
  intros Ht. unfold ET.findall. cbn [ET.children].
  by rewrite filter_app, filter_tag_items, app_nil_r.
Qed.

Lemma findall_channel_items (built : PyDatetime.datetime)
      (jobs : list job) (times : list PyDatetime.datetime) :
  ET.findall (ET.mkElement "channel" ∅ None
                (View.channel_head built ++ Spec.items_of jobs times)%list)
             "item"
  = Spec.items_of jobs times.
Proof.
  unfold ET.findall. cbn [ET.children].
  by rewrite filter_app, filter_item_items.
Qed.

Lemma prefixes_bound_unfold (scope : string -> bool) (e : ET.Element) :
  Spec.prefixes_bound scope e
  = (match Spec.prefix_of (ET.tag e) with
     | None => true
     | Some p =>
         bool_decide (is_Some (ET.attrib e !! ("xmlns:" ++ p))) || scope p
     end
     && forallb
          (Spec.prefixes_bound
             (fun p => bool_decide (is_Some (ET.attrib e !! ("xmlns:" ++ p)))
                       || scope p))
          (ET.children e)).
Proof. by destruct e. Qed.

Lemma feed_document_well_formed (built : PyDatetime.datetime)
      (jobs : list job) (times : list PyDatetime.datetime) :
  Spec.well_formed_feed (Spec.feed_document built (Spec.items_of jobs times))
  = true.
Proof.
  unfold Spec.well_formed_feed. apply andb_true_intro. split.
  - unfold Spec.rss20_shape. rewrite feed_document_channel.
    unfold Spec.has_one.
    rewrite !findall_channel by done. rewrite findall_channel_items.
    rewrite forallb_items by (intros; reflexivity).
    vm_compute. reflexivity.
  - rewrite prefixes_bound_unfold, feed_document_channel.
    cbn [forallb]. rewrite prefixes_bound_unfold. cbn [ET.children ET.tag].
    rewrite forallb_app, forallb_items by (intros; vm_compute; reflexivity).
    vm_compute. reflexivity.
Qed.

(** X14: whatever the records, the document the builder returns has the
    shape RSS 2.0 asks for and declares every prefix it uses; its one
    channel starts with the same six children, and the items follow them,
    one for each record. *)
Theorem create_rss_feed_well_formed
        (utc_clock : nat -> PyDatetime.datetime) (jobs : list job) (w : world) :
  exists rss channel : ET.Element,
    eval (create_rss_feed utc_clock jobs) w = Return rss
    /\ Spec.well_formed_feed rss = true
    /\ ET.children rss = [channel]
    /\ ET.tag <$> ET.children channel
       = (["title"; "link"; "description"; "language"; "lastBuildDate";
           "atom:link"] ++ replicate (length jobs) "item")%list.
Proof.
  unfold eval. rewrite create_rss_feed_run. do 2 eexists.
  split; [reflexivity|]. split; [apply feed_document_well_formed|].
  split; [apply feed_document_channel|].
  cbn [ET.children]. rewrite fmap_app. f_equal.
  rewrite (fmap_items_of _ (fun _ => "item")).
  - rewrite <- list_fmap_compose.
    apply (fmap_const_seq "item" (S (clock_reads w)) (length jobs)).
  - by rewrite length_fmap, length_seq.
  - reflexivity.
Qed.

(** X15: every item of the document has the five children [title], [link],
    [description], [pubDate] and [guid], in this order, and its [guid] is
    marked as a permanent link. *)
Theorem create_rss_feed_item_shape
        (utc_clock : nat -> PyDatetime.datetime) (jobs : list job) (w : world) :
  exists rss : ET.Element,
    eval (create_rss_feed utc_clock jobs) w = Return rss
    /\ Forall (fun item =>
                 ET.tag <$> ET.children item
                 = ["title"; "link"; "description"; "pubDate"; "guid"]
                 /\ (guid ← ET.find item "guid";
                     ET.attrib guid !! "isPermaLink") = Some "true")
              (ET.iter rss "item").
Proof.
  unfold eval. rewrite create_rss_feed_run. eexists. split; [reflexivity|].
  rewrite iter_feed_document, iter_items_of.
  apply Forall_forall. intros item Hin. unfold Spec.items_of in Hin.
  apply elem_of_lookup_zip_with in Hin as (i & j & now & -> & _ & _).
  split; vm_compute; reflexivity.
Qed.

(** ** More on the entry point *)

Lemma for_each_print_samples (l : list (nat * job)) (w : world) :
  for_each (fun _ '(i, j) => print (SampleJob i (title j) (location j))) tt l w
  = (Return tt,
     View.logged ((fun '(i, j) => SampleJob i (title j) (location j)) <$> l) w).
Proof.
  revert w. induction l as [|[i j] r IH]; intros w.
  - simpl. by rewrite logged_nil.
  - cbn [for_each]. rewrite bind_run. cbn [print]. rewrite IH.
    unfold View.logged. cbn [console files clock_reads driver_running fmap list_fmap].
    by rewrite <- app_assoc.
Qed.

Section MainRuns.

Variable chrome : browser.
Variable html_parser : string -> bs4.node.
Variable utc_clock : nat -> PyDatetime.datetime.
Variable ET_tostring : ET.Element -> string.
Variable minidom_toprettyxml : string -> option string.

(** The run of [main] on a page that gives records, up to the re-parse of
    the serialised feed. *)
Lemma main_run_jobs (w : world) :
  starts chrome = true ->
  navigates chrome = true ->
  View.page_jobs (html_parser (page_source chrome)) <> [] ->
  let unique :=
    remove_duplicates (View.page_jobs (html_parser (page_source chrome))) in
  let feed :=
    Spec.feed_document (utc_clock (clock_reads w))
      (Spec.items_of unique
         (utc_clock <$> seq (S (clock_reads w)) (length unique))) in
  let before :=
    (console w
     ++ [Line rule60; Line "EBRD Job Scraper"; Line rule60;
         Line "Starting Chrome browser (headless mode)...";
         Line "Loading EBRD jobs page...";
         Line "Waiting for page content to load...";
         View.marker_line chrome;
         Line "[OK] Saved debug HTML to debug_page.html"]
     ++ View.page_lines (html_parser (page_source chrome))
     ++ [Line "[OK] Browser closed";
         UniqueJobs (length unique);
         Line (PyStr.LF ++ "Generating RSS feed...")])%list in
  main chrome html_parser utc_clock ET_tostring minidom_toprettyxml w
  = match minidom_toprettyxml (ET_tostring feed) with
    | None =>
        (Raise ExpatError,
         mk_world before
                  (<["debug_page.html" := page_source chrome]> (files w))
                  (S (length unique) + clock_reads w) false)
    | Some xml =>
        (Return tt,
         mk_world (before
                   ++ [SavedTo "ebrd_jobs.xml";
                       TotalJobs (length unique);
                       Line (PyStr.LF ++ "Sample jobs:")]
                   ++ View.sample_lines unique
                   ++ [Line (PyStr.LF ++ rule60); Line "Done!"; Line rule60])%list
                  (<["ebrd_jobs.xml" := xml]>
                     (<["debug_page.html" := page_source chrome]> (files w)))
                  (S (length unique) + clock_reads w) false)
    end.
Proof.
  intros Hs Hn Hjobs unique feed before. subst before feed unique.
  unfold main. run_M. rewrite fetch_run_page by done.
  destruct (View.page_jobs (html_parser (page_source chrome))) as [|j js] eqn:E;
    [done|].
  cbv iota. run_M. rewrite create_rss_feed_run. unfold tick.
  cbn [console files clock_reads driver_running].
  unfold prettify_xml.
  destruct (minidom_toprettyxml _) as [xml|]; run_M.
  - rewrite for_each_print_samples. unfold View.logged, View.sample_lines.
    run_M. unfold print. cbn [console files clock_reads driver_running].
    rewrite <- !app_assoc. reflexivity.
  - rewrite <- !app_assoc. reflexivity.
Qed.

(** X16: when the page gives records and the serialised feed re-parses,
    [main] returns normally and the feed file holds the pretty-printed
    document built from the deduplicated records; the only other file
    written is the dump of the page.  The clock has been read once for the
    channel and once for each record kept, the browser is closed, and after
    the line of the total the console shows one sample line for each of the
    first five records at most. *)
Theorem main_writes_feed (w : world) (xml : string) :
  starts chrome = true ->
  navigates chrome = true ->
  View.page_jobs (html_parser (page_source chrome)) <> [] ->
  let unique :=
    remove_duplicates (View.page_jobs (html_parser (page_source chrome))) in
  let feed :=
    Spec.feed_document (utc_clock (clock_reads w))
      (Spec.items_of unique
         (utc_clock <$> seq (S (clock_reads w)) (length unique))) in
  let run := main chrome html_parser utc_clock ET_tostring minidom_toprettyxml in
  minidom_toprettyxml (ET_tostring feed) = Some xml ->
  eval run w = Return tt
  /\ files (exec run w)
     = <["ebrd_jobs.xml" := xml]>
         (<["debug_page.html" := page_source chrome]> (files w))
  /\ clock_reads (exec run w) = S (length unique) + clock_reads w
  /\ driver_running (exec run w) = false
  /\ (exists before : list log_msg,
         console (exec run w)
         = (before
            ++ [SavedTo "ebrd_jobs.xml"; TotalJobs (length unique);
                Line (PyStr.LF ++ "Sample jobs:")]
            ++ View.sample_lines unique
            ++ [Line (PyStr.LF ++ rule60); Line "Done!"; Line rule60])%list)
  /\ length (View.sample_lines unique) = min 5 (length unique).
Proof.
  intros Hs Hn Hjobs unique feed run Hxml. subst run.
  pose proof (main_run_jobs w Hs Hn Hjobs) as H. cbv zeta in H.
  fold unique in H. fold feed in H. rewrite Hxml in H.
  unfold eval, exec. rewrite H. cbn [fst snd console files clock_reads
                                     driver_running].
  repeat split; [by eexists|].
  unfold View.sample_lines.
  rewrite length_fmap, length_zip, length_seq, length_take. lia.
Qed.

(** X17: when the serialised feed does not re-parse, [main] raises the
    error of the parser after the feed has been built and before the feed
    file is opened: the feed file is what it was before the run. *)
Theorem main_reparse_failure (w : world) :
  starts chrome = true ->
  navigates chrome = true ->
  View.page_jobs (html_parser (page_source chrome)) <> [] ->
  let unique :=
    remove_duplicates (View.page_jobs (html_parser (page_source chrome))) in
  let feed :=
    Spec.feed_document (utc_clock (clock_reads w))
      (Spec.items_of unique
         (utc_clock <$> seq (S (clock_reads w)) (length unique))) in
  let run := main chrome html_parser utc_clock ET_tostring minidom_toprettyxml in
  minidom_toprettyxml (ET_tostring feed) = None ->
  eval run w = Raise ExpatError
  /\ files (exec run w) !! "ebrd_jobs.xml" = files w !! "ebrd_jobs.xml"
  /\ clock_reads (exec run w) = S (length unique) + clock_reads w
  /\ last (console (exec run w))
     = Some (Line (PyStr.LF ++ "Generating RSS feed...")).
Proof.
  intros Hs Hn Hjobs unique feed run Hxml. subst run.
  pose proof (main_run_jobs w Hs Hn Hjobs) as H. cbv zeta in H.
  fold unique in H. fold feed in H. rewrite Hxml in H.
  unfold eval, exec. rewrite H. cbn [fst snd console files clock_reads
                                     driver_running].
  repeat split.
  - by rewrite lookup_insert_ne.
  - rewrite !app_assoc. by rewrite last_app.
Qed.

End MainRuns.

Lemma main_writes_feed_witness :
  files (exec (main Fixture.chrome_ok (Fixture.parser_of Fixture.results_page)
                    Fixture.new_year_clock (fun _ => "<rss/>") Some)
              Fixture.w0)
  = <["ebrd_jobs.xml" := "<rss/>"]> (<["debug_page.html" := "<html></html>"]> ∅).
Proof.
  apply (main_writes_feed
           Fixture.chrome_ok (Fixture.parser_of Fixture.results_page)
           Fixture.new_year_clock (fun _ => "<rss/>") Some
           Fixture.w0 "<rss/>");
    try reflexivity.
  vm_compute. discriminate.
Defined.

Lemma main_reparse_failure_witness :
  eval (main Fixture.chrome_ok (Fixture.parser_of Fixture.results_page)
             Fixture.new_year_clock (fun _ => "<rss/>") (fun _ => None))
       Fixture.w0
  = Raise ExpatError.
Proof.
  apply (main_reparse_failure
           Fixture.chrome_ok (Fixture.parser_of Fixture.results_page)
           Fixture.new_year_clock (fun _ => "<rss/>") (fun _ => None)
           Fixture.w0);
    try reflexivity.
  vm_compute. discriminate.
Defined.

(** ** The feed file, read back *)

(** X18: with the serialiser, the parser and the pretty-printer of the
    library, when the page gives records and the records kept are plain,
    [main] returns normally, and the text it writes to [ebrd_jobs.xml],
    parsed back as XML, holds one item for each record kept and no other, in
    the order of the records, with the record's title, link and two-line
    description, and with its link for the guid. *)
Theorem main_feed_file_read_back
        (chrome : browser) (html_parser : string -> bs4.node)
        (utc_clock : nat -> PyDatetime.datetime) (w : world) :
  starts chrome = true ->
  navigates chrome = true ->
  View.page_jobs (html_parser (page_source chrome)) <> [] ->
  let unique :=
    remove_duplicates (View.page_jobs (html_parser (page_source chrome))) in
  let run := main chrome html_parser utc_clock XML.tostring XML.reparse_pretty in
  Forall (fun j => XML.job_plain j = true) unique ->
  exists (xml : string) (doc : ET.Element),
    eval run w = Return tt
    /\ files (exec run w) !! "ebrd_jobs.xml" = Some xml
    /\ XML.fromstring xml = Some doc
    /\ Forall2
         (fun j item =>
            ET.findtext item "title" = Some (title j)
            /\ ET.findtext item "link" = Some (link j)
            /\ ET.findtext item "description"
               = Some ("Location: " ++ location j ++ PyStr.LF
                       ++ "Posting Date: " ++ posting_date j)
            /\ ET.findtext item "guid" = ET.findtext item "link")
         unique (ET.iter doc "item").
Proof.
  intros Hs Hn Hjobs unique run Hplain. subst run.
  pose proof (main_run_jobs chrome html_parser utc_clock
                XML.tostring XML.reparse_pretty w Hs Hn Hjobs) as H.
  cbv zeta in H. fold unique in H.
  destruct (feed_read_back
              (utc_clock (clock_reads w)) unique
              (utc_clock <$> seq (S (clock_reads w)) (length unique)))
    as (xml & doc & Hxml & Hdoc & Hitems);
    [by rewrite length_fmap, length_seq | exact Hplain |].
  rewrite Hxml in H. exists xml, doc. unfold eval, exec. rewrite H.
  cbn [fst snd files]. split; [done|].
  split; [by rewrite lookup_insert_eq|]. by split.
Qed.

Lemma main_feed_file_read_back_witness :
  exists (xml : string) (doc : ET.Element),
    eval (main Fixture.chrome_ok (Fixture.parser_of Fixture.results_page)
               Fixture.new_year_clock XML.tostring XML.reparse_pretty)
         Fixture.w0
    = Return tt
    /\ files (exec (main Fixture.chrome_ok
                         (Fixture.parser_of Fixture.results_page)
                         Fixture.new_year_clock XML.tostring XML.reparse_pretty)
                   Fixture.w0) !! "ebrd_jobs.xml"
       = Some xml
    /\ XML.fromstring xml = Some doc
    /\ Forall2
         (fun j item =>
            ET.findtext item "title" = Some (title j)
            /\ ET.findtext item "link" = Some (link j)
            /\ ET.findtext item "description"
               = Some ("Location: " ++ location j ++ PyStr.LF
                       ++ "Posting Date: " ++ posting_date j)
            /\ ET.findtext item "guid" = ET.findtext item "link")
         (remove_duplicates
            (View.page_jobs
               (Fixture.parser_of Fixture.results_page
                  (page_source Fixture.chrome_ok))))
         (ET.iter doc "item").
Proof.
  apply (main_feed_file_read_back
           Fixture.chrome_ok (Fixture.parser_of Fixture.results_page)
           Fixture.new_year_clock Fixture.w0);
    [reflexivity | reflexivity | vm_compute; discriminate |].
  vm_compute. repeat (constructor; [reflexivity|]). constructor.
Defined.
